(** * LAMDemo: the gallery tools and the agent's search cache

    A shallow embedding of [src/tools_optimized.py] (the paginated search,
    the quality filter, delete and tag) and of the search cache kept by
    [GalleryAgent] in [src/agent.py], followed by the properties of the
    specification that concern them, and by further code of the repository
    with its properties.  The language-model loop around the tool calls is
    not embedded; an agent is built over whatever tool list it is given.

    Conventions of the embedding:
    - Python [int] is [Z]; [//] is floor division and raises on a zero
      divisor; a list slice clamps its bounds the way CPython does.
    - Python [str] is [string]; a character is a code point below 256.
    - A Python [dict] is an association list in insertion order whose keys
      are pairwise distinct; assigning to a key that is present keeps its
      position.
    - A function that can raise returns a [result]; a function that reads or
      writes shared state ([SAMPLE_IMAGES], [self.search_cache]) is a state
      transformer [M].
    - [datetime] values are whole microseconds on the clock's axis; the clock
      reading of [datetime.now()] is an argument [now], one reading for one
      call of a method.
    - Python [float] is binary64: a float is the rational number it
      denotes, and an operation rounds its exact result to the nearest
      number of 53 significant bits, ties to even.  The exponent range is
      left out: the quotients of a difference of two datetimes by [10**6]
      and by [60] stay far inside it.
    - The response of a tool is the value it hands to [json.dumps]; the
      agent's [json.loads] gives that value back. *)

From Stdlib Require Import ZArith String Ascii List Bool Lia Permutation.
From Stdlib Require Import QArith Qround Qpower DecimalString.
From Stdlib Require Decimal DecimalPos DecimalZ.
Import ListNotations.

Local Open Scope string_scope.
Local Open Scope list_scope.
Local Open Scope Z_scope.

(** ** The pieces of the Python runtime the code relies on *)

Module Py.

(** Exceptions that the modelled code can raise. *)
Inductive exn : Type :=
| ZeroDivisionError
| TypeError
| AttributeError
| ValidationError.

Inductive result (A : Type) : Type :=
| Ok (a : A)
| Raise (e : exn).
Arguments Ok {A} a.
Arguments Raise {A} e.

(** State transformers: the state outlives an exception, as in Python. *)
Definition M (S A : Type) : Type := S -> result A * S.

Definition ret {S A} (a : A) : M S A := fun s => (Ok a, s).

Definition bind {S A B} (m : M S A) (k : A -> M S B) : M S B :=
  fun s =>
    match m s with
    | (Ok a, s') => k a s'
    | (Raise e, s') => (Raise e, s')
    end.

Definition get {S} : M S S := fun s => (Ok s, s).
Definition put {S} (s : S) : M S unit := fun _ => (Ok tt, s).
Definition lift {S A} (r : result A) : M S A := fun s => (r, s).

(** [a // b] *)
Definition floordiv (a b : Z) : result Z :=
  if b =? 0 then Raise ZeroDivisionError else Ok (a / b).

(** Rounding to the nearest integer, ties to even. *)
Definition rne (x : Q) : Z :=
  let k := Qfloor x in
  match (x - inject_Z k ?= 1 # 2)%Q with
  | Lt => k
  | Gt => k + 1
  | Eq => if Z.even k then k else k + 1
  end.

(** The exponent of the leading bit of [v > 0]: the [e] with
    [2^e <= v < 2^(e+1)]. *)
Definition ilog2 (v : Q) : Z :=
  let c := Z.log2 (Qnum v) - Z.log2 (Zpos (Qden v)) in
  if Qle_bool (2 ^ c) v then c else c - 1.

(** The binary64 number nearest to [v > 0]: 53 significant bits. *)
Definition round_pos (v : Q) : Q :=
  let e := ilog2 v - 52 in
  (inject_Z (rne (v / 2 ^ e)) * 2 ^ e)%Q.

(** The binary64 number nearest to [v], ties to even: the value of a
    [float] operation whose exact result is [v]. *)
Definition binary64 (v : Q) : Q :=
  match (v ?= 0)%Q with
  | Eq => 0%Q
  | Gt => round_pos v
  | Lt => (- round_pos (- v))%Q
  end.

(** [a / b] for two [int], [b] not 0: the correctly rounded quotient. *)
Definition int_truediv (a b : Z) : Q := binary64 (inject_Z a / inject_Z b).

(** [x / b] for a [float] and an [int] that is a float exactly. *)
Definition float_truediv (x : Q) (b : Z) : Q := binary64 (x / inject_Z b).

(** The bound of [l[s:e]] for a list of length [n]. *)
Definition clamp_index (n i : Z) : Z :=
  if i <? 0 then Z.max (i + n) 0 else Z.min i n.

(** [l[s:e]] *)
Definition slice {A} (l : list A) (s e : Z) : list A :=
  let n := Z.of_nat (List.length l) in
  let lo := clamp_index n s in
  let hi := clamp_index n e in
  firstn (Z.to_nat (hi - lo)) (skipn (Z.to_nat lo) l).

(** [len(l)] *)
Definition len {A} (l : list A) : Z := Z.of_nat (List.length l).

(** [str(n)] for an [int]. *)
Definition str_of_int (n : Z) : string := NilZero.string_of_int (Z.to_int n).

(** Truth value of a [str]. *)
Definition truthy (s : string) : bool :=
  match s with EmptyString => false | String _ _ => true end.

(** [c.lower()] on one character: the capital letters below code point
    256, that is [A .. Z] and the accented capitals 192 .. 222 without the
    multiplication sign 215, move up by 32. *)
Definition lower_char (c : ascii) : ascii :=
  let n := N_of_ascii c in
  if (((65 <=? n) && (n <=? 90))
      || ((192 <=? n) && (n <=? 222) && negb (n =? 215)))%N
  then ascii_of_N (n + 32)
  else c.

(** [s.lower()] *)
Fixpoint lower (s : string) : string :=
  match s with
  | EmptyString => EmptyString
  | String c s' => String (lower_char c) (lower s')
  end.

(** [sub in s] for strings. *)
Fixpoint str_in (sub s : string) : bool :=
  String.prefix sub s ||
  match s with
  | EmptyString => false
  | String _ s' => str_in sub s'
  end.

(** [x in l] for a list of strings. *)
Definition in_list (x : string) (l : list string) : bool :=
  existsb (String.eqb x) l.

(** *** Dictionaries with string keys *)

Definition dict (V : Type) : Type := list (string * V).

Definition keys {V} (d : dict V) : list string := map fst d.
Definition values {V} (d : dict V) : list V := map snd d.

(** [d.get(k)] as an option. *)
Fixpoint lookup {V} (k : string) (d : dict V) : option V :=
  match d with
  | [] => None
  | (k', v) :: d' => if String.eqb k k' then Some v else lookup k d'
  end.

(** [d.get(k, dflt)] *)
Definition get_default {V} (k : string) (dflt : V) (d : dict V) : V :=
  match lookup k d with Some v => v | None => dflt end.

(** [d[k] = v]: in place when [k] is present, appended otherwise. *)
Fixpoint setitem {V} (k : string) (v : V) (d : dict V) : dict V :=
  match d with
  | [] => [(k, v)]
  | (k', v') :: d' =>
      if String.eqb k k' then (k, v) :: d' else (k', v') :: setitem k v d'
  end.

End Py.

Import Py.

Declare Scope py_scope.
Delimit Scope py_scope with py.
Notation "x <- m ;; k" := (Py.bind m (fun x => k))
  (at level 61, m at next level, right associativity) : py_scope.

(** ** JSON values and [json.dumps] *)

Module Json.

#[local] Set Warnings "-register-all".

Inductive json : Type :=
| JNull
| JBool (b : bool)
| JInt (n : Z)
| JStr (s : string)
| JList (l : list json)
| JDict (d : list (string * json)).

Definition of_option_str (o : option string) : json :=
  match o with Some s => JStr s | None => JNull end.

Definition of_strs (l : list string) : json := JList (map JStr l).

Definition dquote : ascii := ascii_of_N 34.
Definition backslash : ascii := ascii_of_N 92.

Definition hex_digit (n : N) : ascii :=
  if (n <? 10)%N then ascii_of_N (48 + n) else ascii_of_N (87 + n).

(** One character under [ensure_ascii]: the quote and the backslash are
    escaped, the usual control characters have short forms, and anything
    outside [' ' .. '~'] becomes a four-digit lowercase [\u] escape. *)
Definition escape_char (c : ascii) : string :=
  let n := N_of_ascii c in
  if (n =? 34)%N then String backslash (String dquote EmptyString)
  else if (n =? 92)%N then String backslash (String backslash EmptyString)
  else if (n =? 10)%N then String backslash "n"
  else if (n =? 13)%N then String backslash "r"
  else if (n =? 9)%N then String backslash "t"
  else if (n =? 8)%N then String backslash "b"
  else if (n =? 12)%N then String backslash "f"
  else if ((32 <=? n) && (n <=? 126))%N then String c EmptyString
  else String backslash
         (String "u" (String "0" (String "0"
            (String (hex_digit (n / 16)) (String (hex_digit (n mod 16)) EmptyString))))).

Fixpoint escape (s : string) : string :=
  match s with
  | EmptyString => EmptyString
  | String c s' => escape_char c ++ escape s'
  end.

Definition quote (s : string) : string :=
  String dquote (escape s ++ String dquote EmptyString).

(** Insertion of one item into a list sorted by key. *)
Fixpoint insert_item {V} (kv : string * V) (l : list (string * V)) : list (string * V) :=
  match l with
  | [] => [kv]
  | kv' :: l' =>
      if String.leb (fst kv) (fst kv') then kv :: l else kv' :: insert_item kv l'
  end.

(** [sorted(d.items())] for a dictionary, whose keys are distinct. *)
Fixpoint sort_items {V} (l : list (string * V)) : list (string * V) :=
  match l with
  | [] => []
  | kv :: l' => insert_item kv (sort_items l')
  end.

Definition render_item (kv : string * string) : string :=
  quote (fst kv) ++ ": " ++ snd kv.

(** [json.dumps(v, sort_keys=True)]: every dictionary, nested ones too, is
    written with its items ordered by key; separators are [", "] and
    [": "]. *)
Fixpoint dumps_sorted (v : json) : string :=
  match v with
  | JNull => "null"
  | JBool true => "true"
  | JBool false => "false"
  | JInt n => str_of_int n
  | JStr s => quote s
  | JList l => "[" ++ String.concat ", " (map dumps_sorted l) ++ "]"
  | JDict d =>
      "{" ++ String.concat ", "
               (map render_item
                  (sort_items (map (fun kv => (fst kv, dumps_sorted (snd kv))) d)))
          ++ "}"
  end.

(** [len(v)] on a decoded JSON value. *)
Definition len (v : json) : result Z :=
  match v with
  | JStr s => Ok (Z.of_nat (String.length s))
  | JList l => Ok (Py.len l)
  | JDict d => Ok (Py.len d)
  | _ => Raise TypeError
  end.

(** [for x in v] on a decoded JSON value: the items of a list, the
    characters of a string, the keys of a dictionary. *)
Definition iter (v : json) : result (list json) :=
  match v with
  | JStr s => Ok (map (fun c => JStr (String c EmptyString)) (list_ascii_of_string s))
  | JList l => Ok l
  | JDict d => Ok (map (fun kv => JStr (fst kv)) d)
  | _ => Raise TypeError
  end.

(** [v.get(k)]: only a dictionary has the method. *)
Definition get (k : string) (v : json) : result json :=
  match v with
  | JDict d => Ok (Py.get_default k JNull d)
  | _ => Raise AttributeError
  end.

End Json.

Import Json.


(** ** [src/types.py]: the image record *)

Inductive Quality : Type := excellent | good | poor | blurry.

(** The literal a [Quality] is written as in the source. *)
Definition quality_name (q : Quality) : string :=
  match q with
  | excellent => "excellent"
  | good => "good"
  | poor => "poor"
  | blurry => "blurry"
  end.

Module ImageMetadata.

Record t : Type := mk {
  id : string;
  filename : string;
  path : string;
  uploaded_at : Z;
  captured_at : option Z;
  location : option string;
  tags : list string;
  relations : list string;
  quality : option Quality;
  width : option Z;
  height : option Z;
  size : option Z
}.

(** [image.tags.append(tag)], the only mutation the tools perform. *)
Definition append_tag (tag : string) (image : t) : t :=
  mk (id image) (filename image) (path image) (uploaded_at image)
     (captured_at image) (location image) (tags image ++ [tag])
     (relations image) (quality image) (width image) (height image)
     (size image).

End ImageMetadata.

(** [image.quality] as the string (or [None]) the tools compare. *)
Definition quality_str (image : ImageMetadata.t) : option string :=
  option_map quality_name (ImageMetadata.quality image).

(** ** [src/tools_optimized.py] *)

Module Tools.

Import ImageMetadata.

(** The module-level list [SAMPLE_IMAGES], shared by all tools. *)
Definition Store : Type := list ImageMetadata.t.

Definition _create_image_summary (image : ImageMetadata.t) : json :=
  JDict [ ("id", JStr (id image));
          ("filename", JStr (filename image));
          ("location", of_option_str (location image));
          ("tags", of_strs (Py.slice (tags image) 0 5));
          ("quality", of_option_str (quality_str image)) ].

(** *** [search_images_paginated] *)

(** [text_match], as a truth value. *)
Definition text_match (query_lower : string) (image : ImageMetadata.t) : bool :=
  str_in query_lower (lower (filename image))
  || existsb (fun tag => str_in query_lower (lower tag)) (tags image)
  || match location image with
     | Some loc => truthy loc && str_in query_lower (lower loc)
     | None => false
     end.

(** The condition of the [continue] of the location filter. *)
Definition location_skips (location : option string) (image : ImageMetadata.t) : bool :=
  match location with
  | Some l =>
      truthy l &&
      match ImageMetadata.location image with
      | Some il => negb (truthy il) || negb (str_in (lower l) (lower il))
      | None => true
      end
  | None => false
  end.

(** The condition of the [continue] of the tags filter. *)
Definition tags_skips (tags : option (list string)) (image : ImageMetadata.t) : bool :=
  match tags with
  | Some (t :: ts) =>
      negb (existsb (fun tag => in_list tag (ImageMetadata.tags image)) (t :: ts))
  | _ => false
  end.

(** The condition of the [continue] of the quality filter. *)
Definition quality_skips (quality : option string) (image : ImageMetadata.t) : bool :=
  match quality with
  | Some q =>
      truthy q &&
      match quality_str image with
      | Some iq => negb (String.eqb iq q)
      | None => true
      end
  | None => false
  end.

(** One round of the loop over [SAMPLE_IMAGES]. *)
Definition search_step (query_lower : string) (location : option string)
    (tags : option (list string)) (quality : option string)
    (results : list ImageMetadata.t) (image : ImageMetadata.t) : list ImageMetadata.t :=
  if negb (text_match query_lower image) then results
  else if location_skips location image then results
  else if tags_skips tags image then results
  else if quality_skips quality image then results
  else results ++ [image].

(** The local variables of [search_images_paginated] at its [return]. *)
Record SearchLocals : Type := {
  results : list ImageMetadata.t;
  total_count : Z;
  eff_per_page : Z;
  paginated_results : list ImageMetadata.t;
  summary_images : list json;
  total_pages : Z;
  has_next : bool;
  has_prev : bool
}.

(** The body of [search_images_paginated] up to the message.  The local
    [full_data] of the source is built from these variables and never read
    again, so it has no counterpart here. *)
Definition search_locals (SAMPLE_IMAGES : Store) (query : string)
    (location : option string) (tags : option (list string))
    (quality : option string) (page per_page : Z) : result SearchLocals :=
  let per_page := Z.min per_page 10 in
  let query_lower := lower query in
  let results :=
    fold_left (search_step query_lower location tags quality) SAMPLE_IMAGES [] in
  let total_count := Py.len results in
  let start_idx := (page - 1) * per_page in
  let end_idx := start_idx + per_page in
  let paginated_results := Py.slice results start_idx end_idx in
  let summary_images := map _create_image_summary paginated_results in
  match floordiv (total_count + per_page - 1) per_page with
  | Raise e => Raise e
  | Ok total_pages =>
      Ok {| results := results;
            total_count := total_count;
            eff_per_page := per_page;
            paginated_results := paginated_results;
            summary_images := summary_images;
            total_pages := total_pages;
            has_next := page <? total_pages;
            has_prev := page >? 1 |}
  end.

Definition summary_message (L : SearchLocals) (page : Z) : string :=
  ("Found " ++ str_of_int (total_count L) ++ " total images. "
   ++ "Showing " ++ str_of_int (Py.len (paginated_results L))
   ++ " results on page " ++ str_of_int page
   ++ " of " ++ str_of_int (total_pages L) ++ ". "
   ++ (if has_next L then "Use page parameter to get more results."
       else "No more results."))%string.

(** The dictionary handed to [json.dumps] in the [return]. *)
Definition search_response (L : SearchLocals) (page : Z) : json :=
  JDict [ ("success", JBool true);
          ("message", JStr (summary_message L page));
          ("summary", JList (summary_images L));
          ("pagination",
           JDict [ ("page", JInt page);
                   ("per_page", JInt (eff_per_page L));
                   ("total", JInt (total_count L));
                   ("pages", JInt (total_pages L)) ]) ].

(** The tool.  Its value is the JSON text of [search_response]; the agent
    decodes that text at once, and decoding what [json.dumps] wrote gives
    back the same value, so the value itself stands for the text. *)
Definition search_images_paginated (query : string)
    (location : option string) (tags : option (list string))
    (quality : option string) (page per_page : Z) : M Store json :=
  (SAMPLE_IMAGES <- Py.get ;;
   L <- lift (search_locals SAMPLE_IMAGES query location tags quality page per_page) ;;
   ret (search_response L page))%py.

(** *** [filter_low_quality_images] *)

Definition quality_levels : dict Z :=
  [("excellent", 4); ("good", 3); ("poor", 2); ("blurry", 1)].

(** The test of the loop: [image.quality and
    quality_levels.get(image.quality, 0) <= threshold_level]. *)
Definition is_removed (threshold_level : Z) (image : ImageMetadata.t) : bool :=
  match quality_str image with
  | Some q => truthy q && (get_default q 0 quality_levels <=? threshold_level)
  | None => false
  end.

Definition filter_step (threshold_level : Z)
    (acc : list ImageMetadata.t * list ImageMetadata.t) (image : ImageMetadata.t)
    : list ImageMetadata.t * list ImageMetadata.t :=
  if is_removed threshold_level image
  then (fst acc ++ [image], snd acc)
  else (fst acc, snd acc ++ [image]).

(** The lists [removed] and [kept] after the loop. *)
Definition filter_partition (SAMPLE_IMAGES : Store) (threshold : string)
    : list ImageMetadata.t * list ImageMetadata.t :=
  let threshold_level := get_default threshold 2 quality_levels in
  fold_left (filter_step threshold_level) SAMPLE_IMAGES ([], []).

Definition filter_low_quality_images (threshold : string) : M Store json :=
  (SAMPLE_IMAGES <- Py.get ;;
   let (removed, kept) := filter_partition SAMPLE_IMAGES threshold in
   let removed_summary := map _create_image_summary (Py.slice removed 0 5) in
   let result_message :=
     ("Quality filter analysis: " ++ str_of_int (Py.len removed)
      ++ " images below " ++ threshold ++ " quality, "
      ++ str_of_int (Py.len kept) ++ " images retained. Showing top "
      ++ str_of_int (Py.len removed_summary) ++ " removed.")%string in
   ret (JDict [ ("success", JBool true);
                ("message", JStr result_message);
                ("removed_count", JInt (Py.len removed));
                ("kept_count", JInt (Py.len kept));
                ("removed_sample", JList removed_summary);
                ("criteria", JStr ("Quality threshold: " ++ threshold)%string) ]))%py.

(** *** [delete_images] *)

Definition valid_ids (SAMPLE_IMAGES : Store) (image_ids : list string) : list string :=
  filter (fun img_id => existsb (fun img => String.eqb (id img) img_id) SAMPLE_IMAGES)
         image_ids.

Definition delete_images (image_ids : list string) : M Store json :=
  (SAMPLE_IMAGES <- Py.get ;;
   let valid_ids := valid_ids SAMPLE_IMAGES image_ids in
   let result_message :=
     ("Successfully deleted " ++ str_of_int (Py.len valid_ids) ++ " images.")%string in
   ret (JDict [ ("success", JBool true);
                ("message", JStr result_message);
                ("deleted_count", JInt (Py.len valid_ids));
                ("deleted_ids", of_strs valid_ids) ]))%py.

(** *** [tag_images] *)

(** The inner loop: [for tag in tags: if tag not in image.tags: append]. *)
Definition add_tags (tags : list string) (image : ImageMetadata.t) : ImageMetadata.t :=
  fold_left
    (fun image tag =>
       if in_list tag (ImageMetadata.tags image) then image else append_tag tag image)
    tags image.

(** One round of the outer loop: the images seen so far, as they now are,
    and [updated_count]. *)
Definition tag_step (image_ids tags : list string)
    (acc : list ImageMetadata.t * Z) (image : ImageMetadata.t)
    : list ImageMetadata.t * Z :=
  if in_list (id image) image_ids
  then (fst acc ++ [add_tags tags image], snd acc + 1)
  else (fst acc ++ [image], snd acc).

Definition tag_images (image_ids tags : list string) : M Store json :=
  (SAMPLE_IMAGES <- Py.get ;;
   let (images, updated_count) :=
     fold_left (tag_step image_ids tags) SAMPLE_IMAGES ([], 0) in
   _ <- Py.put images ;;
   let result_message :=
     ("Successfully added tags to " ++ str_of_int updated_count ++ " images.")%string in
   ret (JDict [ ("success", JBool true);
                ("message", JStr result_message);
                ("updated_count", JInt updated_count);
                ("tags_added", of_strs tags);
                ("image_count", JInt (Py.len image_ids)) ]))%py.

End Tools.

(** ** [src/agent.py]: the search cache of [GalleryAgent] *)

Module CacheEntry.

(** The dictionary stored under a cache key. *)
Record t : Type := mk {
  query : json;
  filters : json;
  full_images : json;
  total_count : Z;
  timestamp : Z;
  pagination : json
}.

End CacheEntry.

Module SearchArgs.

(** The arguments of [search_images_paginated] once a call is bound. *)
Record t : Type := mk {
  query : string;
  location : option string;
  tags : option (list string);
  quality : option string;
  page : Z;
  per_page : Z
}.

End SearchArgs.

Module Agent.

Import Tools.

(** A registered tool: its name and what [tool.invoke(tool_input)] does.
    The value of [invoke] is the tool's result as the agent sees it after
    its [json.loads] step. *)
Record Tool : Type := {
  name : string;
  invoke : dict json -> M Store json
}.

Record GalleryAgent : Type := mkAgent {
  tool_map : dict Tool;
  search_cache : dict CacheEntry.t;
  cache_ttl_minutes : Z
}.

Definition set_search_cache (c : dict CacheEntry.t) (self : GalleryAgent) : GalleryAgent :=
  mkAgent (tool_map self) c (cache_ttl_minutes self).

(** [GalleryAgent.__init__]: the tool map by name over [tools or
    GALLERY_TOOLS_OPTIMIZED], an empty cache, thirty minutes to live.  The
    default tool list is an argument. *)
Definition __init__ (GALLERY_TOOLS_OPTIMIZED : list Tool) (tools : option (list Tool))
    : GalleryAgent :=
  let tools :=
    match tools with
    | Some (t :: ts) => t :: ts
    | _ => GALLERY_TOOLS_OPTIMIZED
    end in
  mkAgent (fold_left (fun m tool => setitem (name tool) tool m) tools []) [] 30.

(** The paginated search as a registered tool.  Turning the argument
    dictionary into the typed arguments is the tool framework's schema
    validation; it is a parameter [bind_args] of the tool. *)
Definition search_tool (bind_args : dict json -> result SearchArgs.t) : Tool :=
  {| name := "search_images_paginated";
     invoke := fun tool_input =>
       (a <- lift (bind_args tool_input) ;;
        search_images_paginated (SearchArgs.query a) (SearchArgs.location a)
          (SearchArgs.tags a) (SearchArgs.quality a)
          (SearchArgs.page a) (SearchArgs.per_page a))%py |}.

(** [v.get(k, dflt)] on a decoded tool result. *)
Definition get_or (k : string) (dflt : json) (v : json) : result json :=
  match v with
  | JDict d => Ok (get_default k dflt d)
  | _ => Raise AttributeError
  end.

(** [_cache_search_results(query_params, result_data)] at clock reading
    [now]. *)
Definition _cache_search_results (now : Z) (query_params : dict json)
    (result_data : json) : M GalleryAgent unit :=
  (let cache_key := dumps_sorted (JDict query_params) in
   full_images <- lift (get_or "images" (JList []) result_data) ;;
   total_count <- lift (Json.len full_images) ;;
   pagination <- lift (get_or "pagination" (JDict []) result_data) ;;
   self <- Py.get ;;
   Py.put (set_search_cache
             (setitem cache_key
                (CacheEntry.mk
                   (get_default "query" JNull query_params)
                   (JDict [ ("location", get_default "location" JNull query_params);
                            ("tags", get_default "tags" JNull query_params);
                            ("quality", get_default "quality" JNull query_params) ])
                   full_images total_count now pagination)
                (search_cache self))
             self))%py.

(** [delta.total_seconds()] for a [timedelta] of [microseconds]
    microseconds: the [int] quotient [microseconds / 10**6]. *)
Definition total_seconds (microseconds : Z) : Q :=
  int_truediv microseconds 1000000.

(** [(now - timestamp).total_seconds() / 60]: a [float]. *)
Definition elapsed_minutes (now timestamp : Z) : Q :=
  float_truediv (total_seconds (now - timestamp)) 60.

(** [_is_cache_valid(timestamp)] at clock reading [now]. *)
Definition _is_cache_valid (self : GalleryAgent) (now timestamp : Z) : bool :=
  match (elapsed_minutes now timestamp ?= inject_Z (cache_ttl_minutes self))%Q with
  | Lt => true
  | _ => false
  end.

(** A [for] loop with an accumulator. *)
Fixpoint for_each {S A B} (l : list A) (acc : B) (body : B -> A -> M S B) : M S B :=
  match l with
  | [] => ret acc
  | x :: l' => (acc' <- body acc x ;; for_each l' acc' body)%py
  end.

(** [v in image_ids] for a decoded value [v] and a list of strings. *)
Definition id_in (v : json) (image_ids : list string) : bool :=
  match v with
  | JStr s => in_list s image_ids
  | _ => false
  end.

(** The inner loop body of [_get_cached_images]: one record of an entry. *)
Definition record_step (image_ids : list string) (cached_images : list json)
    (img : json) : M GalleryAgent (list json) :=
  (i <- lift (Json.get "id" img) ;;
   if id_in i image_ids
   then ret (cached_images ++ [img])
   else ret cached_images)%py.

(** The outer loop body of [_get_cached_images]: one cache entry. *)
Definition entry_step (self : GalleryAgent) (now : Z) (image_ids : list string)
    (cached_images : list json) (cache_entry : CacheEntry.t)
    : M GalleryAgent (list json) :=
  if negb (_is_cache_valid self now (CacheEntry.timestamp cache_entry))
  then ret cached_images
  else
    (imgs <- lift (Json.iter (CacheEntry.full_images cache_entry)) ;;
     for_each imgs cached_images (record_step image_ids))%py.

(** [_get_cached_images(image_ids)] at clock reading [now]. *)
Definition _get_cached_images (now : Z) (image_ids : list string)
    : M GalleryAgent (list json) :=
  (self <- Py.get ;;
   for_each (values (search_cache self)) [] (entry_step self now image_ids))%py.

(** [max(l, key=key)] for a non-empty list [best :: l]: the first of the
    greatest. *)
Fixpoint max_by {A} (key : A -> Z) (best : A) (l : list A) : A :=
  match l with
  | [] => best
  | x :: l' => max_by key (if key best <? key x then x else best) l'
  end.

(** [_get_last_search_results()] at clock reading [now]. *)
Definition _get_last_search_results (now : Z) : M GalleryAgent (option CacheEntry.t) :=
  (self <- Py.get ;;
   match search_cache self with
   | [] => ret None
   | _ =>
       let valid_caches :=
         filter (fun cache => _is_cache_valid self now (CacheEntry.timestamp cache))
                (values (search_cache self)) in
       match valid_caches with
       | [] => ret None
       | c :: cs => ret (Some (max_by CacheEntry.timestamp c cs))
       end
   end)%py.

(** The two pieces of shared state a tool call can touch. *)
Record World : Type := mkWorld {
  SAMPLE_IMAGES : Store;
  self : GalleryAgent
}.

Definition on_store {A} (m : M Store A) : M World A :=
  fun w => let (r, st) := m (SAMPLE_IMAGES w) in (r, mkWorld st (self w)).

Definition on_agent {A} (m : M GalleryAgent A) : M World A :=
  fun w => let (r, ag) := m (self w) in (r, mkWorld (SAMPLE_IMAGES w) ag).

(** [try: ... except Exception as e: ...] with the exception as a value. *)
Definition try_except {S A} (m : M S A) : M S (result A) :=
  fun s => let (r, s') := m s in (Ok r, s').

(** One round of the loop of [_call_tools_node] over the tool calls: the
    entry appended to [tool_results], if any.  The bookkeeping on the turn
    state ([actions_taken], [error]) is not part of the cache and is left
    out. *)
Definition call_tool (now : Z) (tool_name : string) (tool_input : dict json)
    : M World (option (result json)) :=
  (ag <- on_agent Py.get ;;
   match lookup tool_name (tool_map ag) with
   | None => ret None
   | Some tool =>
       r <- try_except (result_data <- on_store (invoke tool tool_input) ;;
                 _ <- (if String.eqb tool_name "search_images_paginated"
                       then on_agent (_cache_search_results now tool_input result_data)
                       else ret tt) ;;
                 ret result_data) ;;
       ret (Some r)
   end)%py.

(** A tool call as the model's response lists it, with the clock reading
    at which it is served. *)
Record ToolCall : Type := {
  at_time : Z;
  call_name : string;
  call_args : dict json
}.

(** Serving a list of tool calls in order. *)
Fixpoint call_tools (calls : list ToolCall) : M World (list (option (result json))) :=
  match calls with
  | [] => ret []
  | c :: calls' =>
      (r <- call_tool (at_time c) (call_name c) (call_args c) ;;
       rs <- call_tools calls' ;;
       ret (r :: rs))%py
  end.

End Agent.

(** ** The seed gallery of [src/tools.py] and a binder for concrete runs *)

Module Seed.

Import ImageMetadata.

Definition img_001 : ImageMetadata.t :=
  mk "img_001" "beach_sunset.jpg" "/gallery/beach_sunset.jpg"
     1728988200000000 (Some 1729017900000000)
     (Some "Malibu Beach, California")
     ["beach"; "sunset"; "landscape"; "nature"] ["img_002"; "img_003"]
     (Some excellent) (Some 4000) (Some 3000) (Some 2500000).

Definition img_002 : ImageMetadata.t :=
  mk "img_002" "beach_people.jpg" "/gallery/beach_people.jpg"
     1728988320000000 (Some 1729018200000000)
     (Some "Malibu Beach, California")
     ["beach"; "people"; "group photo"] ["img_001"; "img_003"]
     (Some good) (Some 4000) (Some 3000) (Some 2300000).

Definition img_003 : ImageMetadata.t :=
  mk "img_003" "beach_blurry.jpg" "/gallery/beach_blurry.jpg"
     1728988500000000 (Some 1729018800000000)
     (Some "Malibu Beach, California")
     ["beach"; "blurry"] ["img_001"; "img_002"]
     (Some blurry) (Some 4000) (Some 3000) (Some 2100000).

Definition img_004 : ImageMetadata.t :=
  mk "img_004" "mountain_hike.jpg" "/gallery/mountain_hike.jpg"
     1726841700000000 (Some 1726846200000000)
     (Some "Rocky Mountains, Colorado")
     ["mountain"; "hiking"; "landscape"] ["img_005"]
     (Some excellent) (Some 3840) (Some 2160) (Some 1800000).

Definition img_005 : ImageMetadata.t :=
  mk "img_005" "mountain_selfie.jpg" "/gallery/mountain_selfie.jpg"
     1726842000000000 (Some 1726847100000000)
     (Some "Rocky Mountains, Colorado")
     ["mountain"; "selfie"; "people"] ["img_004"]
     (Some good) (Some 3840) (Some 2160) (Some 1600000).

Definition img_006 : ImageMetadata.t :=
  mk "img_006" "city_lights.jpg" "/gallery/city_lights.jpg"
     1723322700000000 (Some 1723329000000000)
     (Some "New York City, New York")
     ["city"; "night"; "lights"; "skyline"] []
     (Some excellent) (Some 5120) (Some 3200) (Some 3100000).

Definition SAMPLE_IMAGES : Tools.Store :=
  [img_001; img_002; img_003; img_004; img_005; img_006].

(** Reading one argument of a call. *)
Definition arg_str (k : string) (d : dict json) : result string :=
  match lookup k d with
  | Some (JStr s) => Ok s
  | _ => Raise ValidationError
  end.

Definition arg_opt_str (k : string) (d : dict json) : result (option string) :=
  match lookup k d with
  | None | Some JNull => Ok None
  | Some (JStr s) => Ok (Some s)
  | _ => Raise ValidationError
  end.

Definition arg_int (k : string) (dflt : Z) (d : dict json) : result Z :=
  match lookup k d with
  | None => Ok dflt
  | Some (JInt n) => Ok n
  | _ => Raise ValidationError
  end.

Fixpoint all_strs (l : list json) : result (list string) :=
  match l with
  | [] => Ok []
  | JStr s :: l' =>
      match all_strs l' with Ok ss => Ok (s :: ss) | Raise e => Raise e end
  | _ => Raise ValidationError
  end.

Definition arg_opt_strs (k : string) (d : dict json) : result (option (list string)) :=
  match lookup k d with
  | None | Some JNull => Ok None
  | Some (JList l) =>
      match all_strs l with Ok ss => Ok (Some ss) | Raise e => Raise e end
  | _ => Raise ValidationError
  end.

(** A binder for the concrete runs below: it accepts arguments of exactly
    the declared types and fills in the declared defaults ([page = 1],
    [per_page = 5]).  The tool framework's own binder accepts more (it
    converts the string "2" or [True] to an [int]); the general theorems
    take the binder as a parameter, and the runs that use this one pass
    arguments of the declared types, on which the two agree. *)
Definition bind_search_args (d : dict json) : result SearchArgs.t :=
  match arg_str "query" d, arg_opt_str "location" d, arg_opt_strs "tags" d,
        arg_opt_str "quality" d, arg_int "page" 1 d, arg_int "per_page" 5 d with
  | Ok q, Ok l, Ok t, Ok ql, Ok p, Ok pp => Ok (SearchArgs.mk q l t ql p pp)
  | _, _, _, _, _, _ => Raise ValidationError
  end.

Definition agent : Agent.GalleryAgent :=
  Agent.__init__ [Agent.search_tool bind_search_args] None.

Definition world : Agent.World := Agent.mkWorld SAMPLE_IMAGES agent.

End Seed.

(** * Notions used in the statements *)

Import Tools Agent.

(** The records the loop of [search_images_paginated] appends. *)
Definition matches (query_lower : string) (location : option string)
    (tags : option (list string)) (quality : option string)
    (image : ImageMetadata.t) : bool :=
  text_match query_lower image
  && negb (location_skips location image)
  && negb (tags_skips tags image)
  && negb (quality_skips quality image).

(** The full match list of a query: the local [results] after the loop. *)
Definition match_set (SAMPLE_IMAGES : Store) (query : string)
    (location : option string) (tags : option (list string))
    (quality : option string) : list ImageMetadata.t :=
  fold_left (search_step (lower query) location tags quality) SAMPLE_IMAGES [].

(** The page the search shows for [page], empty if the search raises. *)
Definition page_of (store : Store) (query : string) (location : option string)
    (tags : option (list string)) (quality : option string) (per_page page : Z)
    : list ImageMetadata.t :=
  match search_locals store query location tags quality page per_page with
  | Ok L => paginated_results L
  | Raise _ => []
  end.

(** The records of page [page >= 1] of a list, [P] to a page. *)
Definition page_records {A} (all : list A) (P page : Z) : list A :=
  firstn (Z.to_nat P) (skipn (Z.to_nat ((page - 1) * P)) all).

(** The summaries a run of the search returns: the list under ["summary"]
    of its response, none if it raises. *)
Definition returned_summary (run : result json * Store) : list json :=
  match fst run with
  | Ok resp =>
      match Json.get "summary" resp with
      | Ok (JList shown) => shown
      | _ => []
      end
  | Raise _ => []
  end.

(** The rank table of the specification. *)
Definition rank (q : Quality) : Z :=
  match q with
  | excellent => 4
  | good => 3
  | poor => 2
  | blurry => 1
  end.

(** A record of quality "poor" or "blurry". *)
Definition at_most_poor (image : ImageMetadata.t) : bool :=
  match ImageMetadata.quality image with
  | Some poor | Some blurry => true
  | _ => false
  end.

(** A record of quality "poor", which the seed gallery lacks. *)
Definition dim_room : ImageMetadata.t :=
  ImageMetadata.mk "img_007" "dim_room.jpg" "/gallery/dim_room.jpg"
    1723322700000000 None None ["indoor"] [] (Some poor) None None None.

(** The rank [filter_low_quality_images] gives a threshold string. *)
Definition threshold_level (threshold : string) : Z :=
  get_default threshold 2 quality_levels.

(** The tag list the inner loop of [tag_images] builds from [old]. *)
Definition add_all (tags old : list string) : list string :=
  fold_left (fun acc tag => if in_list tag acc then acc else acc ++ [tag]) tags old.

(** What one record becomes in the outer loop. *)
Definition tag_one (image_ids tags : list string) (image : ImageMetadata.t)
    : ImageMetadata.t :=
  if in_list (ImageMetadata.id image) image_ids then add_tags tags image else image.

(** The time to live in the unit of the clock. *)
Definition ttl_microseconds (self : GalleryAgent) : Z :=
  cache_ttl_minutes self * 60000000.

(** The agent with the expired entries taken out of its cache. *)
Definition drop_expired (now : Z) (self : GalleryAgent) : GalleryAgent :=
  set_search_cache
    (filter (fun kv => _is_cache_valid self now (CacheEntry.timestamp (snd kv)))
            (search_cache self))
    self.

(** The entries a read at clock reading [now] takes into account. *)
Definition valid_entries (self : GalleryAgent) (now : Z) : list CacheEntry.t :=
  filter (fun e => _is_cache_valid self now (CacheEntry.timestamp e))
         (values (search_cache self)).

(** A cached record is a dictionary. *)
Definition is_dict (v : json) : bool :=
  match v with JDict _ => true | _ => false end.

(** The records of an entry whose [full_images] is a list. *)
Definition entry_images (e : CacheEntry.t) : list json :=
  match CacheEntry.full_images e with JList l => l | _ => [] end.

(** An entry as the annotations of the source type it: [full_images] is a
    list of dictionaries. *)
Definition well_typed_entry (e : CacheEntry.t) : bool :=
  match CacheEntry.full_images e with
  | JList l => forallb is_dict l
  | _ => false
  end.

(** [img.get('id') in image_ids] for a record that is a dictionary. *)
Definition has_id_in (image_ids : list string) (img : json) : bool :=
  match img with
  | JDict d => id_in (get_default "id" JNull d) image_ids
  | _ => false
  end.

(** Two records as a result lists them under ["images"]. *)
Definition record_001 : json :=
  JDict [("id", JStr "img_001"); ("filename", JStr "beach_sunset.jpg")].

Definition record_002 : json :=
  JDict [("id", JStr "img_002"); ("filename", JStr "beach_people.jpg")].

(** The agent after [_cache_search_results] has stored two results that
    both hold the record [img_001], at clock readings 0 and 60. *)
Definition two_searches : GalleryAgent :=
  let a0 := Seed.agent in
  let a1 := snd (_cache_search_results 0 [("query", JStr "beach")]
                   (JDict [("images", JList [record_001; record_002])]) a0) in
  snd (_cache_search_results 60 [("query", JStr "sunset")]
         (JDict [("images", JList [record_001])]) a1).

(** The local [cache_key] of [_cache_search_results]. *)
Definition cache_key (query_params : dict json) : string :=
  dumps_sorted (JDict query_params).

Definition search_name : string := "search_images_paginated".

(** The entry [_cache_search_results] stores when nothing raises. *)
Definition stored_entry (now : Z) (query_params : dict json) (full_images : json)
    (total_count : Z) (pagination : json) : CacheEntry.t :=
  CacheEntry.mk
    (get_default "query" JNull query_params)
    (JDict [ ("location", get_default "location" JNull query_params);
             ("tags", get_default "tags" JNull query_params);
             ("quality", get_default "quality" JNull query_params) ])
    full_images total_count now pagination.
















(** Induction on a value with the hypothesis for the items of a list. *)
Section JsonInd.

Variable P : json -> Prop.
Hypothesis HNull : P JNull.
Hypothesis HBool : forall b, P (JBool b).
Hypothesis HInt : forall n, P (JInt n).
Hypothesis HStr : forall s, P (JStr s).
Hypothesis HList : forall l, Forall P l -> P (JList l).
Hypothesis HDict : forall d, P (JDict d).


End JsonInd.

(** * Further code of the repository *)

(** ** [src/tools_optimized.py]: related images and gallery statistics *)

Module MoreTools.

Import ImageMetadata.

(** One round of the loop that looks for the target: the first record with
    the id is kept, as the [break] leaves it. *)
Definition find_step (image_id : string) (target_image : option ImageMetadata.t)
    (image : ImageMetadata.t) : option ImageMetadata.t :=
  match target_image with
  | Some t => Some t
  | None => if String.eqb (id image) image_id then Some image else None
  end.

(** One round of the loop that collects the related records. *)
Definition related_step (target_image : ImageMetadata.t)
    (related_images : list ImageMetadata.t) (image : ImageMetadata.t)
    : list ImageMetadata.t :=
  if in_list (id image) (relations target_image)
  then related_images ++ [image]
  else related_images.

(** [get_related_images(image_id, limit)] *)
Definition get_related_images (image_id : string) (limit : Z) : M Store json :=
  (SAMPLE_IMAGES <- Py.get ;;
   match fold_left (find_step image_id) SAMPLE_IMAGES None with
   | None =>
       ret (JDict [ ("success", JBool false);
                    ("message", JStr ("Image " ++ image_id ++ " not found")%string) ])
   | Some target_image =>
       let related_images := fold_left (related_step target_image) SAMPLE_IMAGES [] in
       let related_images := Py.slice related_images 0 limit in
       let related_summary := map _create_image_summary related_images in
       ret (JDict [ ("success", JBool true);
                    ("message",
                     JStr ("Found " ++ str_of_int (Py.len related_images)
                           ++ " related images")%string);
                    ("source_image", _create_image_summary target_image);
                    ("related_count", JInt (Py.len related_images));
                    ("related_images", JList related_summary) ])
   end)%py.

(** [s.add(x)] on a set of strings, kept as the list of its elements in the
    order they came in. *)
Definition set_add (x : string) (s : list string) : list string :=
  if in_list x s then s else s ++ [x].

(** [s.update(xs)] *)
Definition set_update (xs : list string) (s : list string) : list string :=
  fold_left (fun s x => set_add x s) xs s.

(** The local variables of [analyze_image_metadata] that its loop
    updates. *)
Record AnalyzeLocals : Type := {
  quality_distribution : dict Z;
  locations : list string;
  all_tags : list string;
  total_size : Z
}.

(** One round of the loop of [analyze_image_metadata]. *)
Definition analyze_step (acc : AnalyzeLocals) (image : ImageMetadata.t) : AnalyzeLocals :=
  let quality :=
    match quality_str image with
    | Some q => if truthy q then q else "unknown"
    | None => "unknown"
    end in
  {| quality_distribution :=
       setitem quality (get_default quality 0 (quality_distribution acc) + 1)
               (quality_distribution acc);
     locations :=
       match location image with
       | Some l => if truthy l then set_add l (locations acc) else locations acc
       | None => locations acc
       end;
     all_tags := set_update (tags image) (all_tags acc);
     total_size :=
       match size image with
       | Some sz => if sz =? 0 then total_size acc else total_size acc + sz
       | None => total_size acc
       end |}.

Definition analyze_locals (SAMPLE_IMAGES : Store) : AnalyzeLocals :=
  fold_left analyze_step SAMPLE_IMAGES
    {| quality_distribution := []; locations := []; all_tags := []; total_size := 0 |}.

(** [analyze_image_metadata()].  The order in which [list(s)] lists a set is
    not fixed by the language; it is the argument [list_of_set], applied to
    the elements in the order they came in. *)
Definition analyze_image_metadata (list_of_set : list string -> list string)
    : M Store json :=
  (SAMPLE_IMAGES <- Py.get ;;
   let total_images := Py.len SAMPLE_IMAGES in
   let L := analyze_locals SAMPLE_IMAGES in
   ret (JDict
          [ ("success", JBool true);
            ("message",
             JStr ("Analyzed " ++ str_of_int total_images ++ " images in gallery")%string);
            ("statistics",
             JDict
               [ ("total_images", JInt total_images);
                 ("quality_distribution",
                  JDict (map (fun kv => (fst kv, JInt (snd kv))) (quality_distribution L)));
                 ("locations", of_strs (list_of_set (locations L)));
                 ("total_unique_tags", JInt (Py.len (all_tags L)));
                 ("sample_tags", of_strs (Py.slice (list_of_set (all_tags L)) 0 10));
                 ("total_storage_size", JInt (total_size L));
                 ("average_file_size",
                  JInt (if total_images >? 0 then total_size L / total_images else 0)) ]) ]))%py.

End MoreTools.

(** ** [src/tools.py]: the search with a limit *)

Module SearchQuery.

(** The model [SearchQuery] of [src/types.py]. *)
Record t : Type := mk {
  text : option string;
  date_range : option (dict Z);
  location : option string;
  tags : option (list string);
  relations : option (list string);
  quality : option Quality;
  limit : option Z
}.

End SearchQuery.

Module SearchResult.

(** The model [SearchResult] of [src/types.py]. *)
Record t : Type := mk {
  images : list ImageMetadata.t;
  total_count : Z;
  query : SearchQuery.t;
  executed_at : Z
}.

End SearchResult.

Module OriginalTools.

(** The validation of a field typed [Optional[Literal['excellent', 'good',
    'poor', 'blurry']]]: [None] or one of the four names. *)
Definition validate_quality (quality : option string) : result (option Quality) :=
  match quality with
  | None => Ok None
  | Some q =>
      if String.eqb q "excellent" then Ok (Some excellent)
      else if String.eqb q "good" then Ok (Some good)
      else if String.eqb q "poor" then Ok (Some poor)
      else if String.eqb q "blurry" then Ok (Some blurry)
      else Raise ValidationError
  end.

(** The dictionary [search_images] returns; [data] stands for
    [search_result.model_dump()], the same fields as a dictionary. *)
Record SearchResponse : Type := {
  success : bool;
  data : SearchResult.t;
  message : string
}.

(** [search_images(query, location, tags, quality, limit)] at clock reading
    [now]; the loop is the one of the paginated search. *)
Definition search_images (now : Z) (query : string) (location : option string)
    (tags : option (list string)) (quality : option string) (limit : option Z)
    : M Store SearchResponse :=
  (SAMPLE_IMAGES <- Py.get ;;
   let query_lower := lower query in
   let results :=
     fold_left (search_step query_lower location tags quality) SAMPLE_IMAGES [] in
   let results :=
     match limit with
     | Some n => if n =? 0 then results else Py.slice results 0 n
     | None => results
     end in
   validated <- lift (validate_quality quality) ;;
   let search_result :=
     SearchResult.mk results (Py.len results)
       (SearchQuery.mk (Some query) None location tags None validated limit)
       now in
   ret {| success := true;
          data := search_result;
          message := ("Found " ++ str_of_int (Py.len results)
                      ++ " images matching the query")%string |})%py.

End OriginalTools.

(** ** [src/agent.py]: the messages of a turn *)

Module Context.

Inductive BaseMessage : Type :=
| SystemMessage (content : string)
| HumanMessage (content : string)
| AIMessage (content : string).

(** An entry of [state.conversation_history]: the agent builds each one
    with the two keys ["role"] and ["content"]. *)
Record HistoryEntry : Type := {
  role : string;
  content : string
}.

Definition nl : string := String (ascii_of_N 10) EmptyString.

(** [str(v)] for a decoded value; [repr_text] is what the language prints
    for a list or a dictionary. *)
Definition py_str (repr_text : json -> string) (v : json) : string :=
  match v with
  | JNull => "None"
  | JBool true => "True"
  | JBool false => "False"
  | JInt n => str_of_int n
  | JStr s => s
  | _ => repr_text v
  end.

(** The text of the note about the last search. *)
Definition search_context (repr_text : json -> string) (last_search : CacheEntry.t)
    : string :=
  (nl ++ "Note: You have access to previously searched images:" ++ nl
   ++ "- Query: " ++ String dquote (py_str repr_text (CacheEntry.query last_search))
   ++ String dquote nl
   ++ "- Results: " ++ str_of_int (CacheEntry.total_count last_search)
   ++ " images found" ++ nl
   ++ "- Available filters: Location, quality, tags" ++ nl
   ++ nl
   ++ "You can perform actions on these images using:" ++ nl
   ++ "- delete_images: Delete specific images from the search results" ++ nl
   ++ "- tag_images: Add tags to images from the search results" ++ nl
   ++ "- filter_low_quality_images: Filter by quality" ++ nl
   ++ nl
   ++ "Reference the image IDs from the previous search results when performing actions."
   ++ nl)%string.

(** One round of the loop over the conversation history. *)
Definition history_step (messages : list BaseMessage) (msg : HistoryEntry)
    : list BaseMessage :=
  if String.eqb (role msg) "user"
  then messages ++ [HumanMessage (content msg)]
  else messages ++ [AIMessage (content msg)].

(** [_create_messages(state)] at clock reading [now]; only
    [state.conversation_history] is read. *)
Definition _create_messages (repr_text : json -> string) (now : Z)
    (conversation_history : list HistoryEntry) : M GalleryAgent (list BaseMessage) :=
  (last_search <- _get_last_search_results now ;;
   let messages :=
     match last_search with
     | Some e => [SystemMessage (search_context repr_text e)]
     | None => []
     end in
   ret (fold_left history_step conversation_history messages))%py.

End Context.

(** ** [src/agent.py]: the action recorded for a served tool call *)

Module Actions.

(** The table [action_type_map] of [_call_tools_node]. *)
Definition action_type_map : dict string :=
  [ ("search_images_paginated", "search");
    ("search_images", "search");
    ("filter_low_quality_images", "filter");
    ("delete_images", "delete");
    ("analyze_image_metadata", "analyze");
    ("tag_images", "tag") ].

(** [action_type_map.get(tool_name, 'search')]. *)
Definition action_type (tool_name : string) : string :=
  get_default tool_name "search" action_type_map.

(** The values the field [type] of [AgentAction] admits ([src/types.py]). *)
Definition AgentAction_types : list string :=
  ["search"; "filter"; "delete"; "analyze"; "tag"].

(** Building [AgentAction(type=action_type, params=...)]: the model
    validates [type] against its literal values. *)
Definition AgentAction (type : string) : result string :=
  if in_list type AgentAction_types then Ok type else Raise ValidationError.

End Actions.

(** * Notions used in the further properties *)

Import MoreTools OriginalTools Context Actions.

(** [sub] occurs in [s]. *)
Definition contains (sub s : string) : Prop :=
  exists pre post : string, s = (pre ++ sub ++ post)%string.

(** The number of records a page holds: what is left from its first record
    on, at most a page full. *)
Definition page_length (N P page : Z) : Z :=
  Z.max 0 (Z.min P (N - (page - 1) * P)).

(** A record with another tag list. *)
Definition with_tags (tags : list string) (image : ImageMetadata.t) : ImageMetadata.t :=
  ImageMetadata.mk (ImageMetadata.id image) (ImageMetadata.filename image)
    (ImageMetadata.path image) (ImageMetadata.uploaded_at image)
    (ImageMetadata.captured_at image) (ImageMetadata.location image) tags
    (ImageMetadata.relations image) (ImageMetadata.quality image)
    (ImageMetadata.width image) (ImageMetadata.height image)
    (ImageMetadata.size image).

(** The sum of a list of integers. *)
Definition sum_Z (l : list Z) : Z := fold_right Z.add 0 l.

(** The size of a record as the statistics count it. *)
Definition size_of (image : ImageMetadata.t) : Z :=
  match ImageMetadata.size image with Some sz => sz | None => 0 end.

(** The message a history entry becomes. *)
Definition to_message (msg : HistoryEntry) : BaseMessage :=
  if String.eqb (role msg) "user"
  then HumanMessage (content msg)
  else AIMessage (content msg).

(** The label [analyze_image_metadata] counts a record under. *)
Definition quality_label (image : ImageMetadata.t) : string :=
  match ImageMetadata.quality image with
  | Some q => quality_name q
  | None => "unknown"
  end.

(** The number of records of a label. *)
Definition count_label (q : string) (store : Store) : Z :=
  Py.len (filter (fun img => String.eqb (quality_label img) q) store).

(** * Properties *)

(** ** The cache key text *)

Example dumps_sorted_demo :
  dumps_sorted (JDict [("query", JStr "beach"); ("page", JInt 1); ("tags", JList [JStr "a"; JNull])])
  = String "{" (quote "page" ++ ": 1, " ++ quote "query" ++ ": " ++ quote "beach"
                ++ ", " ++ quote "tags" ++ ": [" ++ quote "a" ++ ", null]}").
Proof. vm_compute. reflexivity. Qed.

(** ** Slices and the page arithmetic *)

Section SliceFacts.

Context {A : Type}.
Implicit Types l : list A.

Lemma slice_nonneg l (s e : Z) :
  0 <= s -> s <= e ->
  Py.slice l s e = firstn (Z.to_nat (e - s)) (skipn (Z.to_nat s) l).
Proof.
  intros Hs Hse. unfold Py.slice, clamp_index.
  destruct (Z.ltb_spec s 0); [lia|]. destruct (Z.ltb_spec e 0); [lia|].
  destruct (Z_le_gt_dec (Z.of_nat (List.length l)) s) as [Hbig | Hin].
  - rewrite !skipn_all2 by lia. now rewrite !firstn_nil.
  - replace (Z.to_nat (Z.min s (Z.of_nat (List.length l)))) with (Z.to_nat s) by lia.
    destruct (Z_le_gt_dec e (Z.of_nat (List.length l))).
    + f_equal. lia.
    + rewrite !firstn_all2; trivial; rewrite length_skipn; lia.
Qed.

Lemma slice_length_le l (s e : Z) :
  s <= e -> (List.length (Py.slice l s e) <= Z.to_nat (e - s))%nat.
Proof.
  intros Hse. unfold Py.slice.
  etransitivity; [apply firstn_le_length|].
  unfold clamp_index.
  destruct (Z.ltb_spec s 0); destruct (Z.ltb_spec e 0); lia.
Qed.

Lemma slice_past_end l (s e : Z) :
  Z.of_nat (List.length l) <= s -> 0 <= s -> Py.slice l s e = [].
Proof.
  intros Hs H0. unfold Py.slice, clamp_index.
  destruct (Z.ltb_spec s 0); [lia|].
  rewrite skipn_all2 by lia. apply firstn_nil.
Qed.



End SliceFacts.

(** [(N + P - 1) // P] is the least number of pages of size [P] that hold
    [N] items. *)
Lemma ceil_div_spec (N P : Z) :
  0 <= N -> 1 <= P ->
  N <= (N + P - 1) / P * P /\ (forall k, N <= k * P -> (N + P - 1) / P <= k).
Proof.
  intros HN HP.
  pose proof (Z.div_mod (N + P - 1) P ltac:(lia)) as Hdm.
  pose proof (Z.mod_pos_bound (N + P - 1) P ltac:(lia)) as Hm.
  split; [nia|].
  intros k Hk. apply Z.lt_succ_r, Z.div_lt_upper_bound; [lia|nia].
Qed.

(** ** The search loop *)

Lemma search_loop (ql : string) loc tgs qual (store acc : list ImageMetadata.t) :
  fold_left (search_step ql loc tgs qual) store acc
  = acc ++ filter (matches ql loc tgs qual) store.
Proof.
  revert acc. induction store as [|img store IH]; intros acc; simpl.
  - now rewrite app_nil_r.
  - rewrite IH. unfold search_step, matches.
    destruct (text_match ql img); simpl; trivial.
    destruct (location_skips loc img); simpl; trivial.
    destruct (tags_skips tgs img); simpl; trivial.
    destruct (quality_skips qual img); simpl; trivial.
    now rewrite <- app_assoc.
Qed.

Lemma match_set_filter store query loc tgs qual :
  match_set store query loc tgs qual = filter (matches (lower query) loc tgs qual) store.
Proof. unfold match_set. now rewrite search_loop. Qed.

(** What [search_locals] computes whenever the clamped page size is not
    zero. *)
Lemma search_locals_ok store query loc tgs qual (page per_page : Z) :
  Z.min per_page 10 <> 0 ->
  let P := Z.min per_page 10 in
  let all := match_set store query loc tgs qual in
  search_locals store query loc tgs qual page per_page
  = Ok {| results := all;
          total_count := Py.len all;
          eff_per_page := P;
          paginated_results := Py.slice all ((page - 1) * P) ((page - 1) * P + P);
          summary_images :=
            map _create_image_summary (Py.slice all ((page - 1) * P) ((page - 1) * P + P));
          total_pages := (Py.len all + P - 1) / P;
          has_next := page <? (Py.len all + P - 1) / P;
          has_prev := page >? 1 |}.
Proof.
  intros HP P all. unfold search_locals, floordiv.
  fold P. destruct (Z.eqb_spec P 0) as [E|_]; [contradiction|]. reflexivity.
Qed.


Lemma search_images_paginated_run store query loc tgs qual (page per_page : Z) :
  search_images_paginated query loc tgs qual page per_page store
  = (match search_locals store query loc tgs qual page per_page with
     | Ok L => Ok (search_response L page)
     | Raise e => Raise e
     end, store).
Proof.
  unfold search_images_paginated, Py.bind, Py.get, lift, ret.
  destruct (search_locals store query loc tgs qual page per_page); reflexivity.
Qed.

(** C3, as amended: for every page and every page size other than zero the
    paginated search returns a [success = true] result and raises nothing,
    leaving the record store as it was; the page size in force is
    [min(per_page, 10)], and whenever [per_page >= 1] the page slice and the
    summaries shown hold at most that many records, hence at most ten. *)
Theorem C3_search_returns_for_nonzero_per_page
    (store : Store) (query : string) (loc : option string)
    (tgs : option (list string)) (qual : option string) (page per_page : Z) :
  per_page <> 0 ->
  exists L,
    search_images_paginated query loc tgs qual page per_page store
    = (Ok (search_response L page), store)
    /\ Json.get "success" (search_response L page) = Ok (JBool true)
    /\ Json.get "summary" (search_response L page)
       = Ok (JList (map _create_image_summary (paginated_results L)))
    /\ eff_per_page L = Z.min per_page 10
    /\ (1 <= per_page ->
        Py.len (paginated_results L) <= Z.min per_page 10
        /\ Py.len (paginated_results L) <= 10
        /\ Py.len (summary_images L) <= 10).
Proof.
  intros Hpp.
  assert (HP : Z.min per_page 10 <> 0) by lia.
  eexists. rewrite search_images_paginated_run, (search_locals_ok _ _ _ _ _ _ _ HP).
  split; [reflexivity|]. cbn [paginated_results summary_images eff_per_page].
  split; [reflexivity|]. split; [reflexivity|]. split; [reflexivity|].
  intros H1. unfold Py.len. rewrite length_map.
  pose proof (slice_length_le (match_set store query loc tgs qual)
                ((page - 1) * Z.min per_page 10)
                ((page - 1) * Z.min per_page 10 + Z.min per_page 10) ltac:(lia)).
  lia.
Qed.

Lemma C3_search_returns_for_nonzero_per_page_witness :
  2 <> 0 /\
  exists L,
    search_images_paginated "beach" None None None 1 2 Seed.SAMPLE_IMAGES
    = (Ok (search_response L 1), Seed.SAMPLE_IMAGES)
    /\ Py.len (paginated_results L) <= 10.
Proof.
  split; [lia|].
  destruct (C3_search_returns_for_nonzero_per_page
              Seed.SAMPLE_IMAGES "beach" None None None 1 2 ltac:(lia))
    as (L & Hrun & _ & _ & _ & Hlen).
  exists L. split; [exact Hrun|]. apply Hlen. lia.
Defined.

(** C3, as stated, fails: with [per_page = 0] the page count is a division
    by zero and the search raises instead of returning a result. *)
Lemma C3_per_page_zero_raises :
  fst (search_images_paginated "beach" None None None 1 0 Seed.SAMPLE_IMAGES)
  = Raise ZeroDivisionError.
Proof. vm_compute. reflexivity. Qed.

(** A negative page size is not clamped: on a store of twelve records
    [per_page = -1] shows eleven of them. *)
Example negative_per_page_slice :
  let store := Seed.SAMPLE_IMAGES ++ Seed.SAMPLE_IMAGES in
  exists L,
    search_locals store "" None None None 1 (-1) = Ok L
    /\ Py.len (paginated_results L) = 11.
Proof. eexists. split; [reflexivity|]. vm_compute. reflexivity. Qed.



(** ** Delete *)

Lemma in_list_In (x : string) (l : list string) : in_list x l = true <-> In x l.
Proof.
  unfold in_list. rewrite existsb_exists. split.
  - intros (y & Hy & E). apply String.eqb_eq in E. now subst.
  - intros H. exists x. split; [assumption|apply String.eqb_refl].
Qed.

Lemma in_list_false (x : string) (l : list string) : in_list x l = false <-> ~ In x l.
Proof.
  rewrite <- in_list_In. destruct (in_list x l); split; congruence.
Qed.

(** [any(img.id == img_id for img in SAMPLE_IMAGES)] *)
Lemma id_exists_spec (store : Store) (img_id : string) :
  existsb (fun img => String.eqb (ImageMetadata.id img) img_id) store = true
  <-> exists img, In img store /\ ImageMetadata.id img = img_id.
Proof.
  rewrite existsb_exists. split; intros (img & Hin & E); exists img; split; trivial.
  - now apply String.eqb_eq.
  - now apply String.eqb_eq.
Qed.

(** C7: [delete_images] reports exactly the requested ids that some record
    of the store carries, each as often as it was requested and in the order
    requested; ids of no record are dropped without an error;
    [deleted_count] is the length of that list; and the store after the call
    is the store before it. *)
Theorem C7_delete_reports_existing_ids (store : Store) (image_ids : list string) :
  exists (deleted : list string) (resp : json),
    delete_images image_ids store = (Ok resp, store)
    /\ Json.get "success" resp = Ok (JBool true)
    /\ Json.get "deleted_ids" resp = Ok (of_strs deleted)
    /\ Json.get "deleted_count" resp = Ok (JInt (Py.len deleted))
    /\ (forall x, In x deleted <->
                  In x image_ids /\ exists img, In img store /\ ImageMetadata.id img = x)
    /\ deleted
       = filter (fun x => if in_dec string_dec x (map ImageMetadata.id store)
                          then true else false) image_ids.
Proof.
  exists (valid_ids store image_ids). eexists.
  split; [reflexivity|]. repeat (split; [reflexivity|]). split.
  - intros x. unfold valid_ids. rewrite filter_In, id_exists_spec. reflexivity.
  - unfold valid_ids. apply filter_ext. intros x.
    destruct (in_dec string_dec x (map ImageMetadata.id store)) as [Hin | Hout].
    + apply id_exists_spec. apply in_map_iff in Hin.
      destruct Hin as (img & E & Hin). now exists img.
    + apply not_true_is_false. intros H. apply id_exists_spec in H.
      destruct H as (img & Hin & E). apply Hout. subst x. now apply in_map.
Qed.

Example delete_scenario :
  fst (delete_images ["img_999"; "img_003"] Seed.SAMPLE_IMAGES)
  = Ok (JDict [ ("success", JBool true);
                ("message", JStr "Successfully deleted 1 images.");
                ("deleted_count", JInt 1);
                ("deleted_ids", JList [JStr "img_003"]) ]).
Proof. vm_compute. reflexivity. Qed.

(** ** The quality filter *)

Lemma threshold_level_rank (t : Quality) : threshold_level (quality_name t) = rank t.
Proof. destruct t; reflexivity. Qed.

Lemma is_removed_spec (lvl : Z) (img : ImageMetadata.t) :
  is_removed lvl img = true
  <-> exists q, ImageMetadata.quality img = Some q /\ rank q <= lvl.
Proof.
  unfold is_removed, quality_str.
  destruct (ImageMetadata.quality img) as [q|]; simpl.
  - replace (get_default (quality_name q) 0 quality_levels) with (rank q)
      by (destruct q; reflexivity).
    replace (truthy (quality_name q)) with true by (destruct q; reflexivity).
    simpl. rewrite Z.leb_le. split.
    + intros H. now exists q.
    + intros (q' & E & H). now inversion E; subst.
  - split; [discriminate|]. intros (q & E & _). discriminate.
Qed.

Lemma filter_loop (lvl : Z) (store removed kept : list ImageMetadata.t) :
  fold_left (filter_step lvl) store (removed, kept)
  = (removed ++ filter (is_removed lvl) store,
     kept ++ filter (fun img => negb (is_removed lvl img)) store).
Proof.
  revert removed kept. induction store as [|img store IH]; intros removed kept; simpl.
  - now rewrite !app_nil_r.
  - unfold filter_step at 2. destruct (is_removed lvl img); simpl; rewrite IH.
    + now rewrite <- app_assoc.
    + now rewrite <- app_assoc.
Qed.

Lemma filter_partition_eq (store : Store) (threshold : string) :
  filter_partition store threshold
  = (filter (is_removed (threshold_level threshold)) store,
     filter (fun img => negb (is_removed (threshold_level threshold) img)) store).
Proof. unfold filter_partition. now rewrite filter_loop. Qed.

Lemma filter_split_perm {A} (p : A -> bool) (l : list A) :
  Permutation (filter p l ++ filter (fun x => negb (p x)) l) l.
Proof.
  induction l as [|x l IH]; simpl; [constructor|].
  destruct (p x); simpl.
  - now constructor.
  - apply Permutation_sym, Permutation_cons_app, Permutation_sym, IH.
Qed.

(** C8: for every threshold string, [removed] and [kept] together are the
    store (each record once), no record is in both, and a record is in
    [removed] exactly when it has a quality whose rank is at most the
    threshold's; for a threshold of the enumeration that rank is the one of
    the table excellent = 4, good = 3, poor = 2, blurry = 1.  The counts of
    the response are the lengths of the two lists. *)
Theorem C8_quality_filter_partitions (store : Store) (threshold : string) :
  let removed := fst (filter_partition store threshold) in
  let kept := snd (filter_partition store threshold) in
  Permutation (removed ++ kept) store
  /\ (forall img, In img removed -> In img kept -> False)
  /\ (forall img, In img store -> In img removed \/ In img kept)
  /\ (forall img, In img removed <->
        In img store /\
        exists q, ImageMetadata.quality img = Some q /\ rank q <= threshold_level threshold)
  /\ (forall t : Quality, threshold_level (quality_name t) = rank t)
  /\ exists resp,
       filter_low_quality_images threshold store = (Ok resp, store)
       /\ Json.get "removed_count" resp = Ok (JInt (Py.len removed))
       /\ Json.get "kept_count" resp = Ok (JInt (Py.len kept)).
Proof.
  intros removed kept. subst removed kept.
  unfold filter_low_quality_images, Py.bind, Py.get, ret.
  rewrite filter_partition_eq. cbn [fst snd].
  set (lvl := threshold_level threshold).
  split; [apply filter_split_perm|].
  split.
  { intros img H1 H2. apply filter_In in H1, H2.
    destruct H1 as [_ H1], H2 as [_ H2]. rewrite H1 in H2. discriminate. }
  split.
  { intros img Hin. destruct (is_removed lvl img) eqn:E.
    - left. apply filter_In. now split.
    - right. apply filter_In. split; trivial. now rewrite E. }
  split.
  { intros img. rewrite filter_In, is_removed_spec. reflexivity. }
  split; [apply threshold_level_rank|].
  eexists. split; [reflexivity|]. split; reflexivity.
Qed.

Example filter_scenario :
  filter_partition Seed.SAMPLE_IMAGES "poor"
  = ([Seed.img_003],
     [Seed.img_001; Seed.img_002; Seed.img_004; Seed.img_005; Seed.img_006]).
Proof. vm_compute. reflexivity. Qed.

Lemma is_removed_at_most_poor (image : ImageMetadata.t) :
  is_removed 2 image = at_most_poor image.
Proof.
  unfold is_removed, at_most_poor, quality_str.
  destruct (ImageMetadata.quality image) as [[| | |]|]; reflexivity.
Qed.

(** C10: a threshold string that is none of the four quality names is given
    rank 2, the rank of "poor": the call succeeds, removes exactly the
    records of quality "poor" or "blurry", the qualities of rank at most 2,
    and keeps all others, in the order of the store; the response counts
    these two lists, shows the summaries of the first five removed and
    names the unknown threshold as its criterion; the counts and the sample
    are those of the call with the threshold "poor". *)
Theorem C10_unknown_threshold_ranks_as_poor (store : Store) (threshold : string) :
  threshold <> "excellent" -> threshold <> "good" ->
  threshold <> "poor" -> threshold <> "blurry" ->
  let removed := filter at_most_poor store in
  let kept := filter (fun image => negb (at_most_poor image)) store in
  (forall image,
     at_most_poor image = true
     <-> exists q, ImageMetadata.quality image = Some q /\ rank q <= 2)
  /\ filter_partition store threshold = (removed, kept)
  /\ exists resp,
       filter_low_quality_images threshold store = (Ok resp, store)
       /\ Json.get "success" resp = Ok (JBool true)
       /\ Json.get "removed_count" resp = Ok (JInt (Py.len removed))
       /\ Json.get "kept_count" resp = Ok (JInt (Py.len kept))
       /\ Json.get "removed_sample" resp
          = Ok (JList (map _create_image_summary (firstn 5 removed)))
       /\ Json.get "criteria" resp
          = Ok (JStr ("Quality threshold: " ++ threshold)%string)
       /\ exists resp_poor,
            filter_low_quality_images "poor" store = (Ok resp_poor, store)
            /\ Json.get "removed_count" resp_poor = Json.get "removed_count" resp
            /\ Json.get "kept_count" resp_poor = Json.get "kept_count" resp
            /\ Json.get "removed_sample" resp_poor = Json.get "removed_sample" resp.
Proof.
  intros He Hg Hp Hb removed kept.
  assert (Hlvl : threshold_level threshold = 2).
  { unfold threshold_level, get_default, quality_levels. simpl.
    apply String.eqb_neq in He, Hg, Hp, Hb. now rewrite He, Hg, Hp, Hb. }
  assert (Hpart : forall t, threshold_level t = 2 ->
                            filter_partition store t = (removed, kept)).
  { intros t Ht. rewrite filter_partition_eq, Ht. unfold removed, kept. f_equal.
    - apply filter_ext. intros image. apply is_removed_at_most_poor.
    - apply filter_ext. intros image. now rewrite is_removed_at_most_poor. }
  split.
  { intros image. rewrite <- is_removed_at_most_poor. apply is_removed_spec. }
  split; [apply Hpart, Hlvl|].
  assert (Hsample : Py.slice removed 0 5 = firstn 5 removed).
  { rewrite slice_nonneg by lia. reflexivity. }
  unfold filter_low_quality_images, Py.bind, Py.get, ret.
  rewrite (Hpart threshold Hlvl), (Hpart "poor" eq_refl), Hsample.
  eexists. split; [reflexivity|]. repeat (split; [reflexivity|]).
  eexists. split; [reflexivity|]. repeat (split; [reflexivity|]). reflexivity.
Qed.

Lemma C10_unknown_threshold_ranks_as_poor_witness :
  exists resp,
    filter_low_quality_images "terrible"
      [Seed.img_001; dim_room; Seed.img_003; Seed.img_002]
    = (Ok resp, [Seed.img_001; dim_room; Seed.img_003; Seed.img_002])
    /\ Json.get "removed_count" resp = Ok (JInt 2)
    /\ Json.get "kept_count" resp = Ok (JInt 2)
    /\ Json.get "removed_sample" resp
       = Ok (JList [_create_image_summary dim_room; _create_image_summary Seed.img_003]).
Proof.
  destruct (C10_unknown_threshold_ranks_as_poor
              [Seed.img_001; dim_room; Seed.img_003; Seed.img_002] "terrible"
              ltac:(discriminate) ltac:(discriminate)
              ltac:(discriminate) ltac:(discriminate))
    as (_ & _ & resp & Hrun & _ & Hr & Hk & Hs & _).
  exists resp. split; [exact Hrun|]. split; [exact Hr|]. split; [exact Hk|exact Hs].
Defined.

(** ** Tagging *)

Lemma add_tags_tags (tags : list string) (image : ImageMetadata.t) :
  ImageMetadata.tags (add_tags tags image) = add_all tags (ImageMetadata.tags image).
Proof.
  unfold add_tags, add_all. revert image.
  induction tags as [|t tags IH]; intros image; simpl; [reflexivity|].
  rewrite IH. destruct (in_list t (ImageMetadata.tags image)); reflexivity.
Qed.

Lemma add_tags_id (tags : list string) (image : ImageMetadata.t) :
  ImageMetadata.id (add_tags tags image) = ImageMetadata.id image.
Proof.
  unfold add_tags. revert image.
  induction tags as [|t tags IH]; intros image; simpl; [reflexivity|].
  rewrite IH. destruct (in_list t (ImageMetadata.tags image)); reflexivity.
Qed.

(** Tags that are all present already leave the record as it is. *)
Lemma add_tags_present (tags : list string) (image : ImageMetadata.t) :
  (forall t, In t tags -> In t (ImageMetadata.tags image)) ->
  add_tags tags image = image.
Proof.
  unfold add_tags. induction tags as [|t tags IH]; intros Hall; simpl; [reflexivity|].
  replace (in_list t (ImageMetadata.tags image)) with true
    by (symmetry; apply in_list_In, Hall; now left).
  apply IH. intros t' Ht'. apply Hall. now right.
Qed.

(** The loop only appends, appends nothing twice and nothing that was
    there, and leaves every requested tag present. *)
Lemma add_all_spec (tags old : list string) :
  exists extra,
    add_all tags old = old ++ extra
    /\ NoDup extra
    /\ (forall t, In t extra <-> In t tags /\ ~ In t old).
Proof.
  unfold add_all. revert old. induction tags as [|t tags IH]; intros old; simpl.
  - exists []. rewrite app_nil_r. split; [reflexivity|]. split; [constructor|].
    intros t. simpl. tauto.
  - destruct (in_list t old) eqn:E.
    + apply in_list_In in E.
      destruct (IH old) as (extra & Heq & Hnd & Hin).
      exists extra. split; [exact Heq|]. split; [exact Hnd|].
      intros t'. rewrite Hin. split.
      * intros [H1 H2]. split; [now right|exact H2].
      * intros [[<- | H1] H2]; [contradiction|]. now split.
    + apply in_list_false in E.
      destruct (IH (old ++ [t])) as (extra & Heq & Hnd & Hin).
      exists (t :: extra). rewrite Heq, <- app_assoc. split; [reflexivity|].
      split.
      * constructor; trivial. intros Hc. apply Hin in Hc. destruct Hc as [_ Hc].
        apply Hc, in_or_app. right. now left.
      * intros t'. simpl. rewrite Hin, in_app_iff. simpl. split.
        -- intros [<- | [H1 H2]]; [split; [now left|exact E]|].
           split; [now right|]. intros Hc. apply H2. now left.
        -- intros [[<- | H1] H2]; [now left|].
           destruct (string_dec t t') as [<- | Hne]; [now left|].
           right. split; trivial. intros [Hc | [Hc | []]]; contradiction.
Qed.

Lemma add_tags_idempotent (tags : list string) (image : ImageMetadata.t) :
  add_tags tags (add_tags tags image) = add_tags tags image.
Proof.
  apply add_tags_present. intros t Ht. rewrite add_tags_tags.
  destruct (add_all_spec tags (ImageMetadata.tags image)) as (extra & Heq & _ & Hin).
  rewrite Heq. apply in_or_app.
  destruct (in_dec string_dec t (ImageMetadata.tags image)) as [Hold | Hnew].
  - now left.
  - right. apply Hin. now split.
Qed.

Lemma tag_loop (image_ids tags : list string) (store done : list ImageMetadata.t) (n : Z) :
  fold_left (tag_step image_ids tags) store (done, n)
  = (done ++ map (tag_one image_ids tags) store,
     n + Py.len (filter (fun img => in_list (ImageMetadata.id img) image_ids) store)).
Proof.
  revert done n. induction store as [|img store IH]; intros done n.
  - cbn. rewrite app_nil_r. f_equal. lia.
  - cbn [fold_left map filter].
    replace (tag_step image_ids tags (done, n) img)
      with (done ++ [tag_one image_ids tags img],
            n + (if in_list (ImageMetadata.id img) image_ids then 1 else 0)).
    2: { unfold tag_step, tag_one. cbn [fst snd].
         destruct (in_list (ImageMetadata.id img) image_ids);
           [reflexivity | f_equal; lia]. }
    rewrite IH, <- app_assoc. f_equal.
    destruct (in_list (ImageMetadata.id img) image_ids);
      unfold Py.len; cbn [List.length]; lia.
Qed.

Lemma tag_images_run (image_ids tags : list string) (store : Store) :
  exists resp,
    tag_images image_ids tags store
    = (Ok resp, map (tag_one image_ids tags) store)
    /\ Json.get "success" resp = Ok (JBool true)
    /\ Json.get "updated_count" resp
       = Ok (JInt (Py.len (filter (fun img => in_list (ImageMetadata.id img) image_ids)
                                  store))).
Proof.
  unfold tag_images, Py.bind, Py.get, Py.put, ret. rewrite tag_loop.
  eexists. split; [reflexivity|]. split; reflexivity.
Qed.

Lemma tag_one_idempotent (image_ids tags : list string) (image : ImageMetadata.t) :
  tag_one image_ids tags (tag_one image_ids tags image) = tag_one image_ids tags image.
Proof.
  unfold tag_one. destruct (in_list (ImageMetadata.id image) image_ids) eqn:E.
  - rewrite add_tags_id, E. apply add_tags_idempotent.
  - now rewrite E.
Qed.

(** C9: running [tag_images] a second time with the same ids and tags
    leaves the store as the first run left it; and a run only appends to a
    record's tag list tags that were requested and were not there, each of
    them once, so it adds no duplicate; a record whose id was not given is
    untouched. *)
Theorem C9_tagging_is_idempotent (image_ids tags : list string) (store : Store) :
  let once := snd (tag_images image_ids tags store) in
  let twice := snd (tag_images image_ids tags once) in
  twice = once
  /\ (forall image, add_tags tags (add_tags tags image) = add_tags tags image)
  /\ Forall2
       (fun image image' =>
          if in_list (ImageMetadata.id image) image_ids
          then exists extra,
                 ImageMetadata.tags image' = ImageMetadata.tags image ++ extra
                 /\ NoDup extra
                 /\ (forall t, In t extra <->
                               In t tags /\ ~ In t (ImageMetadata.tags image))
          else image' = image)
       store once.
Proof.
  intros once twice. subst once twice.
  destruct (tag_images_run image_ids tags store) as (r1 & -> & _).
  cbn [snd].
  destruct (tag_images_run image_ids tags (map (tag_one image_ids tags) store))
    as (r2 & -> & _).
  cbn [snd]. split.
  - rewrite map_map. apply map_ext. intros img. apply tag_one_idempotent.
  - split; [intros image; apply add_tags_idempotent|].
    induction store as [|img store IH]; simpl; constructor; trivial.
    unfold tag_one. destruct (in_list (ImageMetadata.id img) image_ids); trivial.
    rewrite add_tags_tags. apply add_all_spec.
Qed.

Example tag_twice_scenario :
  let once := snd (tag_images ["img_003"] ["beach"; "retake"; "retake"] Seed.SAMPLE_IMAGES) in
  map ImageMetadata.tags once
  = [ ["beach"; "sunset"; "landscape"; "nature"];
      ["beach"; "people"; "group photo"];
      ["beach"; "blurry"; "retake"];
      ["mountain"; "hiking"; "landscape"];
      ["mountain"; "selfie"; "people"];
      ["city"; "night"; "lights"; "skyline"] ]
  /\ snd (tag_images ["img_003"] ["beach"; "retake"; "retake"] once) = once.
Proof. vm_compute. split; reflexivity. Qed.

(** ** Binary floating point *)

Section Binary64.

Local Open Scope Q_scope.

Lemma rne_between (x : Q) : (Qfloor x <= rne x <= Qfloor x + 1)%Z.
Proof.
  unfold rne. destruct (x - inject_Z (Qfloor x) ?= 1 # 2); [|lia|lia].
  destruct (Z.even (Qfloor x)); lia.
Qed.

Lemma rne_Z (n : Z) : rne (inject_Z n) = n.
Proof.
  unfold rne. rewrite Qfloor_Z.
  assert (H : inject_Z n - inject_Z n == 0) by ring.
  rewrite H. reflexivity.
Qed.

Lemma rne_mono (x y : Q) : x <= y -> (rne x <= rne y)%Z.
Proof.
  intros Hxy. pose proof (Qfloor_resp_le _ _ Hxy) as Hk.
  pose proof (rne_between x) as Bx. pose proof (rne_between y) as By.
  destruct (Z.eq_dec (Qfloor x) (Qfloor y)) as [E|NE]; [|lia].
  unfold rne in *. rewrite <- E in *.
  set (k := Qfloor x) in *.
  assert (Hf : x - inject_Z k <= y - inject_Z k).
  { unfold Qminus. apply Qplus_le_l. exact Hxy. }
  destruct (x - inject_Z k ?= 1 # 2) eqn:Cx; destruct (y - inject_Z k ?= 1 # 2) eqn:Cy;
    try (destruct (Z.even k); lia); try lia.
  - (* x tie, y below *)
    apply Qeq_alt in Cx. apply Qlt_alt in Cy. exfalso.
    rewrite Cx in Hf. apply (Qlt_irrefl (1 # 2)). eapply Qle_lt_trans; eassumption.
  - apply Qgt_alt in Cx. apply Qeq_alt in Cy. exfalso.
    rewrite Cy in Hf. apply (Qlt_irrefl (1 # 2)). eapply Qlt_le_trans; eassumption.
  - apply Qgt_alt in Cx. apply Qlt_alt in Cy. exfalso.
    apply (Qlt_irrefl (1 # 2)). eapply Qlt_trans; [exact Cx|].
    eapply Qle_lt_trans; eassumption.
Qed.

Lemma rne_comp (x y : Q) : x == y -> rne x = rne y.
Proof.
  intros H. apply Z.le_antisymm; apply rne_mono; rewrite H; apply Qle_refl.
Qed.

Lemma two_pos (k : Z) : 0 < 2 ^ k.
Proof. apply Qpower_0_lt. reflexivity. Qed.

Lemma two_nz : ~ 2 == 0.
Proof. discriminate. Qed.

Lemma pow2_inject (n : Z) : (0 <= n)%Z -> 2 ^ n == inject_Z (2 ^ n).
Proof. intros H. symmetry. apply (Zpower_Qpower 2 n H). Qed.

Lemma inject_le_pow2 (z n : Z) : (0 <= n)%Z -> (z <= 2 ^ n)%Z -> inject_Z z <= 2 ^ n.
Proof.
  intros Hn H. apply Qle_trans with (inject_Z (2 ^ n)); [now rewrite <- Zle_Qle|].
  apply Qle_lteq. right. symmetry. now apply pow2_inject.
Qed.

Lemma pow2_le_inject (z n : Z) : (0 <= n)%Z -> (2 ^ n <= z)%Z -> 2 ^ n <= inject_Z z.
Proof.
  intros Hn H. apply Qle_trans with (inject_Z (2 ^ n)); [|now rewrite <- Zle_Qle].
  apply Qle_lteq. right. now apply pow2_inject.
Qed.

Lemma inject_lt_pow2 (z n : Z) : (0 <= n)%Z -> (z < 2 ^ n)%Z -> inject_Z z < 2 ^ n.
Proof.
  intros Hn H. apply Qlt_le_trans with (inject_Z (2 ^ n)); [now rewrite <- Zlt_Qlt|].
  apply Qle_lteq. right. symmetry. now apply pow2_inject.
Qed.

Lemma ilog2_spec (v : Q) : 0 < v -> 2 ^ ilog2 v <= v /\ v < 2 ^ (ilog2 v + 1).
Proof.
  intros Hv. destruct v as [p q]. unfold ilog2. cbn [Qnum Qden].
  assert (Hp : (0 < p)%Z) by (unfold Qlt in Hv; cbn in Hv; lia).
  set (a := Z.log2 p). set (b := Z.log2 (Z.pos q)).
  pose proof (Z.log2_spec p Hp) as Ha. fold a in Ha.
  pose proof (Z.log2_spec (Z.pos q) ltac:(lia)) as Hb. fold b in Hb.
  pose proof (Z.log2_nonneg p) as Ha0. fold a in Ha0.
  pose proof (Z.log2_nonneg (Z.pos q)) as Hb0. fold b in Hb0.
  rewrite Z.pow_succ_r in Ha, Hb by assumption.
  assert (Sa : (2 ^ (a + 1) = 2 * 2 ^ a)%Z) by (rewrite Z.pow_add_r by lia; lia).
  assert (Sb : (2 ^ (b + 1) = 2 * 2 ^ b)%Z) by (rewrite Z.pow_add_r by lia; lia).
  assert (Hv' : p # q == inject_Z p / inject_Z (Z.pos q)) by apply Qmake_Qdiv.
  assert (Hq : 0 < inject_Z (Z.pos q)) by reflexivity.
  assert (Hlow : 2 ^ (a - b - 1) <= p # q).
  { rewrite Hv'. apply Qle_shift_div_l; [exact Hq|].
    replace (a - b - 1)%Z with (a - (b + 1))%Z by lia.
    rewrite Qpower_minus by apply two_nz.
    rewrite !pow2_inject by lia.
    unfold Qdiv. rewrite <- Qmult_assoc, (Qmult_comm (/ _)), Qmult_assoc.
    apply Qle_shift_div_r; [rewrite <- pow2_inject by lia; apply two_pos|].
    rewrite <- !inject_Z_mult. rewrite <- Zle_Qle.
    rewrite Sb. nia. }
  assert (Hup : p # q < 2 ^ (a - b + 1)).
  { rewrite Hv'. apply Qlt_shift_div_r; [exact Hq|].
    replace (a - b + 1)%Z with (a + 1 - b)%Z by lia.
    rewrite Qpower_minus by apply two_nz.
    rewrite !pow2_inject by lia.
    unfold Qdiv. rewrite <- Qmult_assoc, (Qmult_comm (/ _)), Qmult_assoc.
    apply Qlt_shift_div_l; [rewrite <- pow2_inject by lia; apply two_pos|].
    rewrite <- !inject_Z_mult. rewrite <- Zlt_Qlt.
    rewrite Sa. nia. }
  destruct (Qle_bool (2 ^ (a - b)) (p # q)) eqn:E.
  - apply Qle_bool_iff in E. split; assumption.
  - split; [exact Hlow|].
    replace (a - b - 1 + 1)%Z with (a - b)%Z by lia.
    apply Qnot_le_lt. intros H. apply Qle_bool_iff in H. congruence.
Qed.

Lemma ilog2_unique (v : Q) (k : Z) :
  2 ^ k <= v -> v < 2 ^ (k + 1) -> ilog2 v = k.
Proof.
  intros Hlo Hhi.
  assert (Hv : 0 < v) by (eapply Qlt_le_trans; [apply (two_pos k)|exact Hlo]).
  destruct (ilog2_spec v Hv) as [Slo Shi].
  assert (H1 : (ilog2 v < k + 1)%Z).
  { apply (Qpower_lt_compat_l_inv 2); [|reflexivity].
    eapply Qle_lt_trans; eassumption. }
  assert (H2 : (k < ilog2 v + 1)%Z).
  { apply (Qpower_lt_compat_l_inv 2); [|reflexivity].
    eapply Qle_lt_trans; eassumption. }
  lia.
Qed.

Lemma ilog2_mono (v w : Q) : 0 < v -> v <= w -> (ilog2 v <= ilog2 w)%Z.
Proof.
  intros Hv Hvw.
  assert (Hw : 0 < w) by (eapply Qlt_le_trans; eassumption).
  destruct (ilog2_spec v Hv) as [Slo _]. destruct (ilog2_spec w Hw) as [_ Shi].
  assert (H : (ilog2 v < ilog2 w + 1)%Z).
  { apply (Qpower_lt_compat_l_inv 2); [|reflexivity].
    eapply Qle_lt_trans; [exact Slo|]. eapply Qle_lt_trans; eassumption. }
  lia.
Qed.

Lemma scaled_bounds (v : Q) :
  0 < v ->
  2 ^ 52 <= v / 2 ^ (ilog2 v - 52) /\ v / 2 ^ (ilog2 v - 52) < 2 ^ 53.
Proof.
  intros Hv. destruct (ilog2_spec v Hv) as [Slo Shi].
  set (e := (ilog2 v - 52)%Z).
  replace (ilog2 v) with (52 + e)%Z in Slo by (unfold e; lia).
  replace (ilog2 v + 1)%Z with (53 + e)%Z in Shi by (unfold e; lia).
  rewrite Qpower_plus in Slo, Shi by apply two_nz.
  split.
  - apply Qle_shift_div_l; [apply two_pos|exact Slo].
  - apply Qlt_shift_div_r; [apply two_pos|exact Shi].
Qed.

Lemma mantissa_bounds (v : Q) :
  0 < v ->
  (2 ^ 52 <= rne (v / 2 ^ (ilog2 v - 52)) <= 2 ^ 53)%Z.
Proof.
  intros Hv. destruct (scaled_bounds v Hv) as [Hlo Hhi]. split.
  - rewrite <- (rne_Z (2 ^ 52)). apply rne_mono.
    rewrite <- pow2_inject by lia. exact Hlo.
  - rewrite <- (rne_Z (2 ^ 53)). apply rne_mono.
    rewrite <- pow2_inject by lia. apply Qlt_le_weak. exact Hhi.
Qed.

Lemma round_pos_pos (v : Q) : 0 < v -> 0 < round_pos v.
Proof.
  intros Hv. unfold round_pos. pose proof (mantissa_bounds v Hv) as [Hm _].
  apply Qmult_lt_0_compat; [|apply two_pos].
  replace 0 with (inject_Z 0) by reflexivity. rewrite <- Zlt_Qlt.
  assert (0 < 2 ^ 52)%Z by reflexivity. lia.
Qed.

Lemma round_pos_mono (v w : Q) : 0 < v -> v <= w -> round_pos v <= round_pos w.
Proof.
  intros Hv Hvw.
  assert (Hw : 0 < w) by (eapply Qlt_le_trans; eassumption).
  pose proof (ilog2_mono v w Hv Hvw) as He.
  unfold round_pos.
  destruct (Z.eq_dec (ilog2 v) (ilog2 w)) as [E|NE].
  - rewrite E. apply Qmult_le_compat_r; [|apply Qlt_le_weak, two_pos].
    rewrite <- Zle_Qle. apply rne_mono.
    unfold Qdiv. apply Qmult_le_compat_r; [exact Hvw|].
    apply Qlt_le_weak, Qinv_lt_0_compat, two_pos.
  - pose proof (mantissa_bounds v Hv) as [_ Hmv].
    pose proof (mantissa_bounds w Hw) as [Hmw _].
    apply Qle_trans with (2 ^ 53 * 2 ^ (ilog2 v - 52)).
    { apply Qmult_le_compat_r; [|apply Qlt_le_weak, two_pos].
      apply inject_le_pow2; [lia|exact Hmv]. }
    apply Qle_trans with (2 ^ 52 * 2 ^ (ilog2 w - 52)).
    { rewrite <- !Qpower_plus by apply two_nz.
      apply Qpower_le_compat_l; [lia|discriminate]. }
    apply Qmult_le_compat_r; [|apply Qlt_le_weak, two_pos].
    apply pow2_le_inject; [lia|exact Hmw].
Qed.

Lemma binary64_mono (v w : Q) : v <= w -> binary64 v <= binary64 w.
Proof.
  intros Hvw. unfold binary64.
  destruct (Qcompare_spec v 0) as [Cv|Cv|Cv]; destruct (Qcompare_spec w 0) as [Cw|Cw|Cw].
  - apply Qle_refl.
  - exfalso. rewrite Cv in Hvw. apply (Qlt_irrefl 0). eapply Qle_lt_trans; eassumption.
  - apply Qlt_le_weak, round_pos_pos. exact Cw.
  - apply Qlt_le_weak.
    setoid_replace 0 with (- 0) by reflexivity. apply Qopp_lt_compat.
    apply round_pos_pos. setoid_replace 0 with (- 0) by reflexivity.
    apply Qopp_lt_compat. exact Cv.
  - apply Qopp_le_compat. apply round_pos_mono.
    + setoid_replace 0 with (- 0) by reflexivity. apply Qopp_lt_compat. exact Cw.
    + apply Qopp_le_compat. exact Hvw.
  - apply Qle_trans with 0.
    + apply Qlt_le_weak. setoid_replace 0 with (- 0) by reflexivity.
      apply Qopp_lt_compat. apply round_pos_pos.
      setoid_replace 0 with (- 0) by reflexivity. apply Qopp_lt_compat. exact Cv.
    + apply Qlt_le_weak, round_pos_pos. exact Cw.
  - exfalso. rewrite Cw in Hvw. apply (Qlt_irrefl 0). eapply Qlt_le_trans; eassumption.
  - exfalso. apply (Qlt_irrefl 0). eapply Qlt_trans; [exact Cv|].
    eapply Qle_lt_trans; eassumption.
  - apply round_pos_mono; assumption.
Qed.

#[local] Instance binary64_comp : Proper (Qeq ==> Qeq) binary64.
Proof.
  intros x y H. apply Qle_antisym; apply binary64_mono; rewrite H; apply Qle_refl.
Qed.

Lemma round_pos_normal (m k : Z) :
  (2 ^ 52 <= m < 2 ^ 53)%Z ->
  round_pos (inject_Z m * 2 ^ k) == inject_Z m * 2 ^ k.
Proof.
  intros Hm. unfold round_pos.
  assert (Hl : ilog2 (inject_Z m * 2 ^ k) = (52 + k)%Z).
  { apply ilog2_unique.
    - rewrite Qpower_plus by apply two_nz.
      apply Qmult_le_compat_r; [|apply Qlt_le_weak, two_pos].
      apply pow2_le_inject; lia.
    - replace (52 + k + 1)%Z with (53 + k)%Z by lia.
      rewrite Qpower_plus by apply two_nz.
      apply Qmult_lt_compat_r; [apply two_pos|].
      apply inject_lt_pow2; lia. }
  rewrite Hl. replace (52 + k - 52)%Z with k by lia.
  rewrite (rne_comp _ (inject_Z m)); [rewrite rne_Z; reflexivity|].
  unfold Qdiv. rewrite <- Qmult_assoc, Qmult_inv_r, Qmult_1_r; [reflexivity|].
  apply Qpower_not_0, two_nz.
Qed.

(** A number with at most 53 significant bits is a binary64 number (the
    exponent range left aside): rounding leaves it as it is. *)
Lemma binary64_exact (m k : Z) :
  (0 < m < 2 ^ 53)%Z ->
  binary64 (inject_Z m * 2 ^ k) == inject_Z m * 2 ^ k.
Proof.
  intros Hm. unfold binary64.
  assert (Hpos : 0 < inject_Z m * 2 ^ k).
  { apply Qmult_lt_0_compat; [|apply two_pos].
    replace 0 with (inject_Z 0) by reflexivity. rewrite <- Zlt_Qlt. lia. }
  apply Qgt_alt in Hpos. rewrite Hpos.
  set (l := Z.log2 m).
  pose proof (Z.log2_spec m ltac:(lia)) as Hl. fold l in Hl.
  pose proof (Z.log2_nonneg m) as Hl0. fold l in Hl0.
  assert (Hl52 : (l <= 52)%Z).
  { apply Z.lt_succ_r. apply (Z.pow_lt_mono_r_iff 2); lia. }
  assert (E : inject_Z m * 2 ^ k == inject_Z (m * 2 ^ (52 - l)) * 2 ^ (k - (52 - l))).
  { rewrite inject_Z_mult, <- pow2_inject by lia.
    rewrite <- Qmult_assoc, <- Qpower_plus by apply two_nz.
    replace (52 - l + (k - (52 - l)))%Z with k by lia. reflexivity. }
  assert (R : round_pos (inject_Z m * 2 ^ k)
              == round_pos (inject_Z (m * 2 ^ (52 - l)) * 2 ^ (k - (52 - l)))).
  { apply Qgt_alt in Hpos.
    apply Qle_antisym; apply round_pos_mono;
      try exact Hpos; try (rewrite <- E; exact Hpos);
      try (rewrite <- E; apply Qle_refl). }
  rewrite R, round_pos_normal; [symmetry; exact E|].
  replace (Z.succ l) with (l + 1)%Z in Hl by lia.
  assert (Hp : (2 ^ 52 = 2 ^ l * 2 ^ (52 - l))%Z)
    by (rewrite <- Z.pow_add_r by lia; f_equal; lia).
  assert (Hp' : (2 ^ 53 = 2 ^ (l + 1) * 2 ^ (52 - l))%Z)
    by (rewrite <- Z.pow_add_r by lia; f_equal; lia).
  assert (0 < 2 ^ (52 - l))%Z by (apply Z.pow_pos_nonneg; lia).
  rewrite Hp, Hp'. nia.
Qed.

Lemma binary64_Z (n : Z) : (0 < n < 2 ^ 53)%Z -> binary64 (inject_Z n) == inject_Z n.
Proof.
  intros H. pose proof (binary64_exact n 0 H) as E.
  assert (E1 : inject_Z n * 2 ^ 0 == inject_Z n) by (cbn; ring).
  rewrite E1 in E. exact E.
Qed.

Lemma div_const_mono (x y : Q) (c : Z) :
  (0 < c)%Z -> x <= y -> x / inject_Z c <= y / inject_Z c.
Proof.
  intros Hc H. unfold Qdiv. apply Qmult_le_compat_r; [exact H|].
  apply Qlt_le_weak, Qinv_lt_0_compat.
  replace 0 with (inject_Z 0) by reflexivity. now rewrite <- Zlt_Qlt.
Qed.

(** *** The elapsed minutes *)

Lemma elapsed_minutes_mono (now now' timestamp : Z) :
  (now <= now')%Z -> elapsed_minutes now timestamp <= elapsed_minutes now' timestamp.
Proof.
  intros H. unfold elapsed_minutes, total_seconds, float_truediv, int_truediv.
  apply binary64_mono, div_const_mono; [lia|].
  apply binary64_mono, div_const_mono; [lia|].
  rewrite <- Zle_Qle. lia.
Qed.

Lemma elapsed_minutes_at_ttl (ttl timestamp : Z) :
  (0 < ttl <= 134217728)%Z ->
  elapsed_minutes (timestamp + ttl * 60000000) timestamp == inject_Z ttl.
Proof.
  intros H. unfold elapsed_minutes, total_seconds, float_truediv, int_truediv.
  assert (E1 : inject_Z (timestamp + ttl * 60000000 - timestamp) / inject_Z 1000000
               == inject_Z (ttl * 60)).
  { replace (timestamp + ttl * 60000000 - timestamp)%Z with (ttl * 60 * 1000000)%Z by lia.
    rewrite (inject_Z_mult (ttl * 60)). field; try discriminate. }
  rewrite E1, binary64_Z by (change (2 ^ 53)%Z with 9007199254740992%Z; lia).
  assert (E2 : inject_Z (ttl * 60) / inject_Z 60 == inject_Z ttl).
  { rewrite inject_Z_mult. field; try discriminate. }
  rewrite E2. apply binary64_Z. change (2 ^ 53)%Z with 9007199254740992%Z. lia.
Qed.

Lemma elapsed_minutes_before_ttl (ttl now timestamp : Z) :
  (0 < ttl <= 134217728)%Z ->
  (now - timestamp < ttl * 60000000)%Z ->
  elapsed_minutes now timestamp < inject_Z ttl.
Proof.
  intros H Hd. unfold elapsed_minutes, total_seconds, float_truediv, int_truediv.
  set (r1 := inject_Z (ttl * 60 * 1048576 - 1) * 2 ^ (-20)).
  set (r2 := inject_Z (ttl * 67108864 - 1) * 2 ^ (-26)).
  assert (P20 : 2 ^ (-20) == 1 # 1048576) by reflexivity.
  assert (P26 : 2 ^ (-26) == 1 # 67108864) by reflexivity.
  assert (S1 : binary64 (inject_Z (now - timestamp) / inject_Z 1000000) <= r1).
  { apply Qle_trans with (binary64 r1).
    2: { apply Qle_lteq. right. apply binary64_exact.
         change (2 ^ 53)%Z with 9007199254740992%Z. lia. }
    apply binary64_mono. unfold r1. rewrite P20.
    apply Qle_trans with (inject_Z (ttl * 60000000 - 1) / inject_Z 1000000).
    - apply div_const_mono; [lia|]. rewrite <- Zle_Qle. lia.
    - unfold Qle, Qdiv, Qmult, Qinv, inject_Z. cbn. lia. }
  assert (S2 : binary64 (binary64 (inject_Z (now - timestamp) / inject_Z 1000000)
                         / inject_Z 60) <= r2).
  { apply Qle_trans with (binary64 r2).
    2: { apply Qle_lteq. right. apply binary64_exact.
         change (2 ^ 53)%Z with 9007199254740992%Z. lia. }
    apply binary64_mono.
    apply Qle_trans with (r1 / inject_Z 60); [apply div_const_mono; [lia|exact S1]|].
    unfold r1, r2. rewrite P20, P26.
    unfold Qle, Qdiv, Qmult, Qinv, inject_Z. cbn. lia. }
  eapply Qle_lt_trans; [exact S2|].
  unfold r2. rewrite P26. unfold Qlt, Qmult, inject_Z. cbn. lia.
Qed.

End Binary64.

(** ** Freshness of cache entries *)

Lemma is_cache_valid_minutes (self : GalleryAgent) (now timestamp : Z) :
  _is_cache_valid self now timestamp = true
  <-> (elapsed_minutes now timestamp < inject_Z (cache_ttl_minutes self))%Q.
Proof.
  unfold _is_cache_valid. rewrite Qlt_alt.
  destruct (elapsed_minutes now timestamp ?= inject_Z (cache_ttl_minutes self))%Q;
    split; congruence.
Qed.

(** For a time to live of up to [2^27] minutes, some 255 years, the
    rounding of the two divisions does not show: the entry is valid exactly
    as long as fewer than that many minutes' microseconds have passed. *)
Lemma is_cache_valid_spec (self : GalleryAgent) (now timestamp : Z) :
  0 < cache_ttl_minutes self <= 134217728 ->
  _is_cache_valid self now timestamp = true
  <-> now - timestamp < ttl_microseconds self.
Proof.
  intros H. rewrite is_cache_valid_minutes. unfold ttl_microseconds. split.
  - intros Hlt.
    destruct (Z_lt_le_dec (now - timestamp) (cache_ttl_minutes self * 60000000))
      as [Hd|Hd]; [exact Hd|exfalso].
    pose proof (elapsed_minutes_mono
                  (timestamp + cache_ttl_minutes self * 60000000) now timestamp
                  ltac:(lia)) as Hm.
    rewrite (elapsed_minutes_at_ttl _ timestamp H) in Hm.
    apply (Qlt_irrefl (inject_Z (cache_ttl_minutes self))).
    eapply Qle_lt_trans; eassumption.
  - apply elapsed_minutes_before_ttl. exact H.
Qed.

Lemma is_cache_valid_false (self : GalleryAgent) (now timestamp : Z) :
  0 < cache_ttl_minutes self <= 134217728 ->
  _is_cache_valid self now timestamp = false
  <-> ttl_microseconds self <= now - timestamp.
Proof.
  intros Httl.
  pose proof (is_cache_valid_spec self now timestamp Httl) as H.
  destruct (_is_cache_valid self now timestamp).
  - split; [discriminate|]. intros Hle. assert (true = true) as E by reflexivity.
    apply H in E. lia.
  - split; trivial. intros _.
    destruct (Z_lt_le_dec (now - timestamp) (ttl_microseconds self)) as [Hlt|Hle]; trivial.
    apply H in Hlt. discriminate.
Qed.

(** Whatever the time to live, validity can only be lost as the clock
    advances. *)
Lemma is_cache_valid_earlier (self : GalleryAgent) (now now' timestamp : Z) :
  now <= now' ->
  _is_cache_valid self now' timestamp = true ->
  _is_cache_valid self now timestamp = true.
Proof.
  intros Hle. rewrite !is_cache_valid_minutes. intros H.
  eapply Qle_lt_trans; [apply elapsed_minutes_mono; exact Hle|exact H].
Qed.

Lemma max_by_spec {A} (key : A -> Z) (l : list A) (best : A) :
  In (max_by key best l) (best :: l)
  /\ forall x, In x (best :: l) -> key x <= key (max_by key best l).
Proof.
  revert best. induction l as [|y l IH]; intros best; simpl.
  - split; [now left|]. intros x [<- | []]. lia.
  - destruct (IH (if key best <? key y then y else best)) as [Hin Hmax].
    split.
    + destruct Hin as [E | Hin]; [|now right; right].
      rewrite <- E. destruct (key best <? key y); [right; now left|now left].
    + intros x Hx.
      assert (Hstep : key best <= key (if key best <? key y then y else best)
                      /\ key y <= key (if key best <? key y then y else best)).
      { destruct (Z.ltb_spec (key best) (key y)); lia. }
      destruct Hx as [<- | [<- | Hx]].
      * etransitivity; [apply Hstep|]. apply Hmax. now left.
      * etransitivity; [apply Hstep|]. apply Hmax. now left.
      * apply Hmax. now right.
Qed.

Lemma get_last_search_results_run (self : GalleryAgent) (now : Z) :
  _get_last_search_results now self
  = (Ok match valid_entries self now with
        | [] => None
        | c :: cs => Some (max_by CacheEntry.timestamp c cs)
        end, self).
Proof.
  unfold _get_last_search_results, valid_entries, Py.bind, Py.get, ret.
  destruct (search_cache self) as [|kv cache]; [reflexivity|].
  destruct (filter _ _); reflexivity.
Qed.

Lemma for_each_state {S A B} (body : B -> A -> M S B) (l : list A) (acc : B) (s : S) :
  (forall acc x s, snd (body acc x s) = s) ->
  snd (for_each l acc body s) = s.
Proof.
  intros Hbody. revert acc. induction l as [|x l IH]; intros acc; simpl; [reflexivity|].
  unfold Py.bind. specialize (Hbody acc x s).
  destruct (body acc x s) as [[acc'|e] s']; simpl in Hbody; subst s'.
  - apply IH.
  - reflexivity.
Qed.

Lemma for_each_fst_state {S A B} (body : B -> A -> M S B) (l : list A) (acc : B)
    (s s' : S) :
  (forall acc x s s', fst (body acc x s) = fst (body acc x s')) ->
  fst (for_each l acc body s) = fst (for_each l acc body s').
Proof.
  intros Hbody. revert acc s s'.
  induction l as [|x l IH]; intros acc s s'; simpl; [reflexivity|].
  unfold Py.bind. specialize (Hbody acc x s s').
  destruct (body acc x s) as [[a|e] s1], (body acc x s') as [[a'|e'] s1'];
    simpl in Hbody; try discriminate.
  - injection Hbody as ->. apply IH.
  - exact Hbody.
Qed.

Lemma record_step_run (image_ids : list string) (acc : list json) (img : json)
    (s : GalleryAgent) :
  record_step image_ids acc img s
  = (match Json.get "id" img with
     | Ok i => Ok (if id_in i image_ids then acc ++ [img] else acc)
     | Raise e => Raise e
     end, s).
Proof.
  unfold record_step, Py.bind, lift, ret.
  destruct (Json.get "id" img) as [i|e]; [|reflexivity].
  destruct (id_in i image_ids); reflexivity.
Qed.

Lemma entry_step_expired (self s : GalleryAgent) (now : Z) (image_ids : list string)
    (acc : list json) (e : CacheEntry.t) :
  _is_cache_valid self now (CacheEntry.timestamp e) = false ->
  entry_step self now image_ids acc e s = (Ok acc, s).
Proof. intros Ev. unfold entry_step. now rewrite Ev. Qed.

Lemma entry_step_valid (self s : GalleryAgent) (now : Z) (image_ids : list string)
    (acc : list json) (e : CacheEntry.t) :
  _is_cache_valid self now (CacheEntry.timestamp e) = true ->
  entry_step self now image_ids acc e s
  = match Json.iter (CacheEntry.full_images e) with
    | Ok imgs => for_each imgs acc (record_step image_ids) s
    | Raise err => (Raise err, s)
    end.
Proof.
  intros Ev. unfold entry_step. rewrite Ev. cbn [negb]. unfold Py.bind, lift.
  destruct (Json.iter (CacheEntry.full_images e)); reflexivity.
Qed.

Lemma record_loop_state (image_ids : list string) (imgs acc : list json)
    (s : GalleryAgent) :
  snd (for_each imgs acc (record_step image_ids) s) = s.
Proof.
  apply for_each_state. intros acc' img s'. now rewrite record_step_run.
Qed.

Lemma record_loop_fst_state (image_ids : list string) (imgs acc : list json)
    (s s' : GalleryAgent) :
  fst (for_each imgs acc (record_step image_ids) s)
  = fst (for_each imgs acc (record_step image_ids) s').
Proof.
  apply for_each_fst_state. intros acc' img t t'. now rewrite !record_step_run.
Qed.

Lemma entry_step_state (self s : GalleryAgent) (now : Z) (image_ids : list string)
    (acc : list json) (e : CacheEntry.t) :
  snd (entry_step self now image_ids acc e s) = s.
Proof.
  destruct (_is_cache_valid self now (CacheEntry.timestamp e)) eqn:Ev.
  - rewrite entry_step_valid by exact Ev.
    destruct (Json.iter (CacheEntry.full_images e)); [|reflexivity].
    apply record_loop_state.
  - now rewrite entry_step_expired.
Qed.

Lemma entry_step_fst_state (self s s' : GalleryAgent) (now : Z)
    (image_ids : list string) (acc : list json) (e : CacheEntry.t) :
  fst (entry_step self now image_ids acc e s)
  = fst (entry_step self now image_ids acc e s').
Proof.
  destruct (_is_cache_valid self now (CacheEntry.timestamp e)) eqn:Ev.
  - rewrite !entry_step_valid by exact Ev.
    destruct (Json.iter (CacheEntry.full_images e)); [|reflexivity].
    apply record_loop_fst_state.
  - now rewrite !entry_step_expired.
Qed.

Lemma get_cached_images_state (self : GalleryAgent) (now : Z) (image_ids : list string) :
  snd (_get_cached_images now image_ids self) = self.
Proof.
  unfold _get_cached_images, Py.bind at 1, Py.get.
  apply for_each_state. intros acc e s. apply entry_step_state.
Qed.

Lemma lookup_skips_expired (self s : GalleryAgent) (now : Z) (image_ids : list string)
    (entries : list CacheEntry.t) (acc : list json) :
  for_each entries acc (entry_step self now image_ids) s
  = for_each (filter (fun e => _is_cache_valid self now (CacheEntry.timestamp e)) entries)
      acc (entry_step self now image_ids) s.
Proof.
  revert acc s. induction entries as [|e entries IH]; intros acc s; [reflexivity|].
  cbn [filter]. destruct (_is_cache_valid self now (CacheEntry.timestamp e)) eqn:Ev.
  - cbn [for_each]. unfold Py.bind.
    destruct (entry_step self now image_ids acc e s) as [[acc'|err] s1];
      [apply IH|reflexivity].
  - cbn [for_each]. unfold Py.bind. rewrite entry_step_expired by exact Ev. apply IH.
Qed.

Lemma values_filter {V} (p : V -> bool) (d : dict V) :
  values (filter (fun kv => p (snd kv)) d) = filter p (values d).
Proof.
  unfold values. induction d as [|[k v] d IH]; simpl; [reflexivity|].
  destruct (p v); simpl; now rewrite IH.
Qed.

(** Expired entries do not count in a lookup: the answer is the one the
    cache without them gives. *)
Lemma get_cached_images_drop_expired (self : GalleryAgent) (now : Z)
    (image_ids : list string) :
  fst (_get_cached_images now image_ids self)
  = fst (_get_cached_images now image_ids (drop_expired now self)).
Proof.
  unfold _get_cached_images, Py.bind, Py.get.
  change (search_cache (drop_expired now self))
    with (filter (fun kv => _is_cache_valid self now (CacheEntry.timestamp (snd kv)))
                 (search_cache self)).
  rewrite (values_filter (fun e => _is_cache_valid self now (CacheEntry.timestamp e))).
  rewrite (lookup_skips_expired self self).
  apply for_each_fst_state. intros acc e s s'.
  apply (entry_step_fst_state self s s').
Qed.

(** C5: an entry stamped [T] is valid at clock reading [now] exactly when
    the elapsed minutes, as the source computes them in floating point, are
    strictly below [cache_ttl_minutes]; for a time to live of up to [2^27]
    minutes that is exactly when [now - T] is strictly below the time to
    live, so the entry is valid at [T + TTL - eps] and invalid at [T + TTL]
    and at [T + TTL + eps].  A new agent has thirty minutes to live, and on
    it the entry is valid exactly up to 1 800 000 000 microseconds of
    age.  Reading the latest search yields a
    valid entry of the cache with the greatest time stamp among the valid
    ones, or nothing when none is valid; a lookup by ids answers as it
    would on the cache without the expired entries; and neither read changes
    the agent: expired entries stay in [search_cache]. *)
Theorem C5_cache_validity_is_strict
    (self : GalleryAgent) (now T eps : Z) (image_ids : list string)
    (default_tools : list Tool) (tools : option (list Tool)) :
  0 < eps ->
  0 < cache_ttl_minutes self <= 134217728 ->
  (_is_cache_valid self now T = true
   <-> (elapsed_minutes now T < inject_Z (cache_ttl_minutes self))%Q)
  /\ (_is_cache_valid self now T = true <-> now - T < ttl_microseconds self)
  /\ _is_cache_valid self (T + ttl_microseconds self - eps) T = true
  /\ _is_cache_valid self (T + ttl_microseconds self) T = false
  /\ _is_cache_valid self (T + ttl_microseconds self + eps) T = false
  /\ cache_ttl_minutes (__init__ default_tools tools) = 30
  /\ (_is_cache_valid (__init__ default_tools tools) now T = true
      <-> now - T < 1800000000)
  /\ (exists r,
        _get_last_search_results now self = (Ok r, self)
        /\ (r = None <->
            forall e, In e (values (search_cache self)) ->
                      _is_cache_valid self now (CacheEntry.timestamp e) = false)
        /\ (forall e, r = Some e ->
              In e (values (search_cache self))
              /\ _is_cache_valid self now (CacheEntry.timestamp e) = true
              /\ forall e', In e' (values (search_cache self)) ->
                            _is_cache_valid self now (CacheEntry.timestamp e') = true ->
                            CacheEntry.timestamp e' <= CacheEntry.timestamp e))
  /\ snd (_get_cached_images now image_ids self) = self
  /\ fst (_get_cached_images now image_ids self)
     = fst (_get_cached_images now image_ids (drop_expired now self)).
Proof.
  intros Heps Httl.
  split; [apply is_cache_valid_minutes|].
  split; [apply is_cache_valid_spec; exact Httl|].
  split; [apply is_cache_valid_spec; [exact Httl|lia]|].
  split; [apply is_cache_valid_false; [exact Httl|lia]|].
  split; [apply is_cache_valid_false; [exact Httl|lia]|].
  split; [reflexivity|].
  split; [apply is_cache_valid_spec; cbn; lia|].
  split; [|split; [apply get_cached_images_state|apply get_cached_images_drop_expired]].
  eexists. split; [apply get_last_search_results_run|].
  unfold valid_entries.
  destruct (filter _ _) as [|c cs] eqn:Hf.
  - split.
    + split; trivial. intros _ e He.
      destruct (_is_cache_valid self now (CacheEntry.timestamp e)) eqn:E; trivial.
      assert (Hin : In e []) by (rewrite <- Hf; apply filter_In; now split).
      destruct Hin.
    + discriminate.
  - split.
    + split; [discriminate|]. intros Hnone.
      assert (Hin : In c (c :: cs)) by now left.
      rewrite <- Hf in Hin. apply filter_In in Hin. destruct Hin as [Hin Hv].
      rewrite (Hnone c Hin) in Hv. discriminate.
    + intros e [= <-].
      destruct (max_by_spec CacheEntry.timestamp cs c) as [Hin Hmax].
      rewrite <- Hf in Hin. apply filter_In in Hin. destruct Hin as [Hin Hv].
      split; [exact Hin|]. split; [exact Hv|].
      intros e' Hin' Hv'. apply Hmax. rewrite <- Hf. apply filter_In. now split.
Qed.

Lemma C5_cache_validity_is_strict_witness :
  0 < 1
  /\ _is_cache_valid Seed.agent (1800000000 - 1) 0 = true
  /\ _is_cache_valid Seed.agent 1800000000 0 = false
  /\ _is_cache_valid Seed.agent (1800000000 + 1) 0 = false.
Proof.
  split; [lia|].
  destruct (C5_cache_validity_is_strict Seed.agent 0 0 1 [] [] None ltac:(lia)
              ltac:(cbn; lia))
    as (_ & _ & Hbefore & Hat & Hafter & _).
  split; [exact Hbefore|]. split; [exact Hat|exact Hafter].
Defined.

(** ** Looking records up in the cache *)

Lemma has_id_in_spec (image_ids : list string) (img : json) :
  has_id_in image_ids img = true
  <-> exists d s, img = JDict d /\ get_default "id" JNull d = JStr s /\ In s image_ids.
Proof.
  unfold has_id_in, id_in. split.
  - destruct img as [| | | |l|d]; try discriminate.
    destruct (get_default "id" JNull d) eqn:E; try discriminate.
    intros H. apply in_list_In in H. now exists d, s.
  - intros (d & s & -> & -> & H). now apply in_list_In.
Qed.

Lemma lookup_inner_loop (image_ids : list string) (imgs acc : list json)
    (s : GalleryAgent) :
  forallb is_dict imgs = true ->
  for_each imgs acc (record_step image_ids) s
  = (Ok (acc ++ filter (has_id_in image_ids) imgs), s).
Proof.
  revert acc. induction imgs as [|img imgs IH]; intros acc Hd.
  - cbn. now rewrite app_nil_r.
  - cbn [forallb] in Hd. apply andb_prop in Hd. destruct Hd as [Hd Hds].
    destruct img as [| | | |l|d]; try discriminate.
    cbn [for_each filter]. unfold Py.bind. rewrite record_step_run.
    cbn [Json.get has_id_in].
    destruct (id_in (get_default "id" JNull d) image_ids).
    + rewrite (IH _ Hds), <- app_assoc. reflexivity.
    + apply (IH _ Hds).
Qed.

Lemma lookup_outer_loop (self s : GalleryAgent) (now : Z) (image_ids : list string)
    (entries : list CacheEntry.t) (acc : list json) :
  Forall (fun e => _is_cache_valid self now (CacheEntry.timestamp e) = true ->
                   well_typed_entry e = true) entries ->
  for_each entries acc (entry_step self now image_ids) s
  = (Ok (acc ++ flat_map (fun e => filter (has_id_in image_ids) (entry_images e))
                         (filter (fun e => _is_cache_valid self now (CacheEntry.timestamp e))
                                 entries)), s).
Proof.
  intros Hwt. revert acc. induction Hwt as [|e entries He Hes IH]; intros acc.
  - cbn. now rewrite app_nil_r.
  - cbn [for_each filter]. unfold Py.bind.
    destruct (_is_cache_valid self now (CacheEntry.timestamp e)) eqn:Ev.
    + rewrite entry_step_valid by exact Ev.
      specialize (He eq_refl). unfold well_typed_entry in He.
      cbn [flat_map]. unfold entry_images at 1.
      destruct (CacheEntry.full_images e) as [| | | |l|d]; try discriminate.
      cbn [Json.iter]. rewrite (lookup_inner_loop image_ids l acc s He).
      rewrite IH, <- app_assoc. reflexivity.
    + rewrite entry_step_expired by exact Ev. apply IH.
Qed.

(** C6, as amended: when every valid entry holds a list of dictionaries,
    [_get_cached_images] raises nothing, changes nothing, and returns the
    records of the valid entries whose id is among the ids asked for, entry
    after entry in the order of the cache and in the order of each entry's
    list; a record is returned once for each place it has in a valid entry,
    so nothing is collapsed.  A record is in the answer exactly when some
    valid entry holds it and its ["id"] is a string among the ids. *)
Theorem C6_lookup_returns_every_occurrence
    (self : GalleryAgent) (now : Z) (image_ids : list string) :
  Forall (fun e => _is_cache_valid self now (CacheEntry.timestamp e) = true ->
                   well_typed_entry e = true)
         (values (search_cache self)) ->
  exists out,
    _get_cached_images now image_ids self = (Ok out, self)
    /\ out = flat_map (fun e => filter (has_id_in image_ids) (entry_images e))
                      (valid_entries self now)
    /\ (forall img, In img out <->
          exists e, In e (values (search_cache self))
                    /\ _is_cache_valid self now (CacheEntry.timestamp e) = true
                    /\ In img (entry_images e)
                    /\ exists d s, img = JDict d
                                   /\ get_default "id" JNull d = JStr s
                                   /\ In s image_ids)
    /\ List.length out
       = list_sum (map (fun e => List.length (filter (has_id_in image_ids) (entry_images e)))
                       (valid_entries self now)).
Proof.
  intros Hwt. eexists. split.
  - unfold _get_cached_images, Py.bind at 1, Py.get.
    apply (lookup_outer_loop self self now image_ids _ [] Hwt).
  - cbn [app]. split; [reflexivity|]. split.
    + intros img. rewrite in_flat_map. unfold valid_entries. split.
      * intros (e & He & Himg). apply filter_In in He, Himg.
        destruct He as [He Hv], Himg as [Himg Hid].
        exists e. repeat (split; trivial). now apply has_id_in_spec.
      * intros (e & He & Hv & Himg & Hid). exists e.
        split; apply filter_In; split; trivial. now apply has_id_in_spec.
    + unfold valid_entries.
      induction (filter _ (values (search_cache self))) as [|e es IH];
        simpl; [reflexivity|].
      now rewrite length_app, IH.
Qed.

Lemma C6_lookup_returns_every_occurrence_witness :
  fst (_get_cached_images 120 ["img_001"; "img_002"] two_searches)
  = Ok [record_001; record_002; record_001].
Proof.
  destruct (C6_lookup_returns_every_occurrence two_searches 120 ["img_001"; "img_002"])
    as (out & Hrun & Hout & _).
  - repeat constructor.
  - rewrite Hrun, Hout. reflexivity.
Defined.

(** C6, as stated, fails: the record [img_001] is held by two valid entries
    and the lookup returns it twice. *)
Lemma C6_duplicates_are_not_collapsed :
  fst (_get_cached_images 120 ["img_001"] two_searches)
  = Ok [record_001; record_001].
Proof. vm_compute. reflexivity. Qed.

(** ** The cache key *)



Section SortItems.

Context {V : Type}.
Implicit Types (kv : string * V) (l : list (string * V)).



End SortItems.


(** ** Reading a cache key back *)

Lemma append_assoc (a b c : string) : ((a ++ b) ++ c = a ++ (b ++ c))%string.
Proof. induction a as [|x a IH]; simpl; [reflexivity|]. now rewrite IH. Qed.




























(** ** Assignments to a dictionary *)

Section SetItem.

Context {V : Type}.
Implicit Types (d : dict V) (k : string) (v : V).

Lemma keys_setitem k v d :
  keys (setitem k v d) = if in_list k (keys d) then keys d else keys d ++ [k].
Proof.
  induction d as [|[k' v'] d IH]; simpl; [reflexivity|].
  destruct (String.eqb_spec k k') as [->|Hne]; simpl; [reflexivity|].
  rewrite IH. unfold keys. destruct (in_list k (map fst d)); reflexivity.
Qed.

Lemma in_keys_setitem k v d k' :
  In k' (keys (setitem k v d)) <-> k' = k \/ In k' (keys d).
Proof.
  rewrite keys_setitem. destruct (in_list k (keys d)) eqn:E.
  - apply in_list_In in E. split; [now right|]. intros [->|H]; trivial.
  - rewrite in_app_iff. simpl. intuition.
Qed.

Lemma NoDup_keys_setitem k v d :
  NoDup (keys d) -> NoDup (keys (setitem k v d)).
Proof.
  intros Hnd. rewrite keys_setitem. destruct (in_list k (keys d)) eqn:E; trivial.
  apply in_list_false in E.
  apply NoDup_rev in Hnd. rewrite <- (rev_involutive (keys d ++ [k])).
  apply NoDup_rev. rewrite rev_app_distr. simpl. constructor; trivial.
  now rewrite <- in_rev.
Qed.

Lemma length_setitem k v d :
  List.length (setitem k v d)
  = if in_list k (keys d) then List.length d else S (List.length d).
Proof.
  rewrite <- (length_map fst (setitem k v d)).
  change (map fst (setitem k v d)) with (keys (setitem k v d)).
  rewrite keys_setitem. destruct (in_list k (keys d)).
  - apply length_map.
  - rewrite length_app. unfold keys. rewrite length_map. simpl. lia.
Qed.

Lemma lookup_setitem k v d k' :
  lookup k' (setitem k v d) = if String.eqb k' k then Some v else lookup k' d.
Proof.
  induction d as [|[k0 v0] d IH]; simpl.
  - destruct (String.eqb k' k); reflexivity.
  - destruct (String.eqb_spec k k0) as [->|Hne]; simpl.
    + destruct (String.eqb k' k0); reflexivity.
    + rewrite IH. destruct (String.eqb_spec k' k0) as [->|Hne'].
      * destruct (String.eqb_spec k0 k) as [E|_]; [congruence|reflexivity].
      * reflexivity.
Qed.

End SetItem.

(** ** Serving tool calls *)

Lemma cache_search_results_run (now : Z) (query_params : dict json)
    (result_data : json) (self : GalleryAgent) :
  _cache_search_results now query_params result_data self
  = match result_data with
    | JDict d =>
        match Json.len (get_default "images" (JList []) d) with
        | Ok n =>
            (Ok tt,
             set_search_cache
               (setitem (cache_key query_params)
                  (stored_entry now query_params (get_default "images" (JList []) d) n
                     (get_default "pagination" (JDict []) d))
                  (search_cache self))
               self)
        | Raise e => (Raise e, self)
        end
    | _ => (Raise AttributeError, self)
    end.
Proof.
  unfold _cache_search_results, Py.bind, lift, Py.get, Py.put, get_or.
  destruct result_data as [| | | |l|d]; reflexivity.
Qed.


(** A call of the search tool of this repository: it raises what the binder
    or the page count raises and caches nothing then; otherwise it answers
    with [search_response] and stores an entry whose [full_images] is the
    default [[]] of [result_data.get('images', [])], because the response
    has no ["images"]. *)
Lemma search_call_run (bind_args : dict json -> result SearchArgs.t)
    (now : Z) (tool_input : dict json) (w : World) :
  lookup search_name (tool_map (self w)) = Some (search_tool bind_args) ->
  call_tool now search_name tool_input w
  = match bind_args tool_input with
    | Raise e => (Ok (Some (Raise e)), w)
    | Ok a =>
        match search_locals (Agent.SAMPLE_IMAGES w) (SearchArgs.query a)
                (SearchArgs.location a) (SearchArgs.tags a) (SearchArgs.quality a)
                (SearchArgs.page a) (SearchArgs.per_page a) with
        | Raise e => (Ok (Some (Raise e)), w)
        | Ok L =>
            (Ok (Some (Ok (search_response L (SearchArgs.page a)))),
             mkWorld (Agent.SAMPLE_IMAGES w)
               (set_search_cache
                  (setitem (cache_key tool_input)
                     (stored_entry now tool_input (JList []) 0
                        (JDict [ ("page", JInt (SearchArgs.page a));
                                 ("per_page", JInt (eff_per_page L));
                                 ("total", JInt (total_count L));
                                 ("pages", JInt (total_pages L)) ]))
                     (search_cache (self w)))
                  (self w)))
        end
    end.
Proof.
  intros Htool. unfold call_tool.
  unfold Py.bind at 1. unfold on_agent at 1, Py.get at 1.
  destruct w as [store ag]. cbn [self Agent.SAMPLE_IMAGES] in *.
  rewrite Htool. unfold search_tool. cbn [invoke].
  unfold Py.bind, try_except, on_store, on_agent, ret, lift. cbn [self Agent.SAMPLE_IMAGES].
  destruct (bind_args tool_input) as [a|e]; [|reflexivity].
  rewrite search_images_paginated_run.
  destruct (search_locals store _ _ _ _ _ _) as [L|e]; [|reflexivity].
  change (String.eqb search_name "search_images_paginated") with true.
  cbv beta iota. cbn [self Agent.SAMPLE_IMAGES].
  rewrite cache_search_results_run. reflexivity.
Qed.



Example reordered_search_refreshes :
  let p1 := [("query", JStr "beach"); ("per_page", JInt 2); ("page", JInt 1)] in
  let p2 := [("page", JInt 1); ("query", JStr "beach"); ("per_page", JInt 2)] in
  let calls := [ {| at_time := 0; call_name := search_name; call_args := p1 |};
                 {| at_time := 7; call_name := search_name; call_args := p2 |} ] in
  map (fun kv => (fst kv, CacheEntry.timestamp (snd kv)))
      (search_cache (self (snd (call_tools calls Seed.world))))
  = [(cache_key p1, 7)].
Proof. vm_compute. reflexivity. Qed.

Example zero_per_page_call_is_an_error_entry :
  let tool_input := [("query", JStr "beach"); ("per_page", JInt 0)] in
  call_tool 0 search_name tool_input Seed.world
  = (Ok (Some (Raise ZeroDivisionError)), Seed.world).
Proof.
  cbv zeta. rewrite (search_call_run Seed.bind_search_args) by reflexivity.
  reflexivity.
Qed.

(** C1, at a failing input: the search for "beach" with two records a page
    finds three records and says so in its response, and the entry the agent
    stores for the query holds an empty [full_images] and a [total_count] of
    zero. *)
Theorem C1_cache_entry_holds_no_images :
  let tool_input := [("query", JStr "beach"); ("per_page", JInt 2); ("page", JInt 1)] in
  exists resp w' entry,
    call_tool 0 search_name tool_input Seed.world = (Ok (Some (Ok resp)), w')
    /\ Py.len (match_set Seed.SAMPLE_IMAGES "beach" None None None) = 3
    /\ Json.get "pagination" resp
       = Ok (JDict [ ("page", JInt 1); ("per_page", JInt 2);
                     ("total", JInt 3); ("pages", JInt 2) ])
    /\ lookup (cache_key tool_input) (search_cache (self w')) = Some entry
    /\ CacheEntry.full_images entry = JList []
    /\ CacheEntry.total_count entry = 0.
Proof.
  intros tool_input. subst tool_input.
  rewrite (search_call_run Seed.bind_search_args) by reflexivity.
  do 3 eexists. split; [reflexivity|]. split; [reflexivity|].
  split; [reflexivity|]. split; [vm_compute; reflexivity|]. split; reflexivity.
Qed.







(** * Further properties *)

(** ** Strings *)

Lemma lower_char_idem (c : ascii) : lower_char (lower_char c) = lower_char c.
Proof. destruct c as [[|] [|] [|] [|] [|] [|] [|] [|]]; reflexivity. Qed.

Lemma lower_idem (s : string) : lower (lower s) = lower s.
Proof.
  induction s as [|c s IH]; simpl; [reflexivity|]. now rewrite lower_char_idem, IH.
Qed.

Lemma truthy_lower (s : string) : truthy (lower s) = truthy s.
Proof. destruct s; reflexivity. Qed.

Lemma prefix_spec (sub s : string) :
  String.prefix sub s = true <-> exists post, s = (sub ++ post)%string.
Proof.
  revert s. induction sub as [|c sub IH]; intros s.
  - split; [intros _; now exists s|]. intros _. destruct s; reflexivity.
  - destruct s as [|c' s]; simpl.
    + split; [discriminate|]. intros (post & E). discriminate.
    + destruct (Ascii.ascii_dec c c') as [->|Hne].
      * rewrite IH. split; intros (post & E); exists post.
        -- now rewrite E.
        -- now injection E.
      * split; [discriminate|]. intros (post & E). congruence.
Qed.

Lemma str_in_spec (sub s : string) : str_in sub s = true <-> contains sub s.
Proof.
  unfold contains. induction s as [|c s IH]; cbn [str_in].
  - rewrite orb_false_r, prefix_spec. split.
    + intros (post & E). now exists ""%string, post.
    + intros (pre & post & E). destruct pre; [now exists post|discriminate].
  - rewrite orb_true_iff, prefix_spec, IH. split.
    + intros [(post & E) | (pre & post & E)].
      * now exists ""%string, post.
      * exists (String c pre), post. simpl. now rewrite E.
    + intros (pre & post & E). destruct pre as [|c' pre].
      * left. now exists post.
      * right. simpl in E. injection E as _ E. now exists pre, post.
Qed.

Lemma str_in_empty (s : string) : str_in "" s = true.
Proof. apply str_in_spec. now exists ""%string, s. Qed.

Lemma str_in_refl (s : string) : str_in s s = true.
Proof.
  apply str_in_spec. exists ""%string, ""%string. simpl.
  induction s as [|c s IH]; simpl; [reflexivity|]. now rewrite <- IH.
Qed.

(** ** The summary of a record *)

Lemma slice_from_zero {A} (l : list A) (n : Z) :
  0 <= n -> Py.slice l 0 n = firstn (Z.to_nat n) l.
Proof.
  intros Hn. rewrite slice_nonneg by lia. rewrite Z.sub_0_r. reflexivity.
Qed.

(** X1: the summary of a record shows its id, file name, location and
    quality and the first five of its tags: never more than five, and all of
    them when the record has at most five. *)
Theorem X1_summary_shows_first_five_tags (image : ImageMetadata.t) :
  exists shown : list string,
    _create_image_summary image
    = JDict [ ("id", JStr (ImageMetadata.id image));
              ("filename", JStr (ImageMetadata.filename image));
              ("location", of_option_str (ImageMetadata.location image));
              ("tags", of_strs shown);
              ("quality", of_option_str (option_map quality_name (ImageMetadata.quality image))) ]
    /\ shown = firstn 5 (ImageMetadata.tags image)
    /\ (List.length shown <= 5)%nat
    /\ ((List.length (ImageMetadata.tags image) <= 5)%nat -> shown = ImageMetadata.tags image)
    /\ exists hidden, ImageMetadata.tags image = shown ++ hidden.
Proof.
  exists (firstn 5 (ImageMetadata.tags image)).
  split.
  { unfold _create_image_summary, quality_str. now rewrite slice_from_zero by lia. }
  split; [reflexivity|]. split; [apply firstn_le_length|]. split.
  - intros H. now apply firstn_all2.
  - exists (skipn 5 (ImageMetadata.tags image)). now rewrite firstn_skipn.
Qed.

Lemma X1_summary_shows_first_five_tags_witness :
  exists shown,
    Json.get "tags" (_create_image_summary Seed.img_001) = Ok (of_strs shown)
    /\ shown = ["beach"; "sunset"; "landscape"; "nature"].
Proof.
  destruct (X1_summary_shows_first_five_tags Seed.img_001) as (shown & E & _ & _ & Hall & _).
  exists shown. split; [now rewrite E|]. apply Hall. simpl. lia.
Defined.

(** ** What the search matches *)

Lemma location_skips_case (l1 l2 : option string) (image : ImageMetadata.t) :
  option_map lower l1 = option_map lower l2 ->
  location_skips l1 image = location_skips l2 image.
Proof.
  intros Hl. unfold location_skips.
  destruct l1 as [a|], l2 as [b|]; try discriminate; trivial.
  simpl in Hl. injection Hl as Hl.
  rewrite <- (truthy_lower a), <- (truthy_lower b), Hl. reflexivity.
Qed.

Lemma search_locals_match_set (store : Store) (query : string) (loc : option string)
    (tgs : option (list string)) (qual : option string) (page per_page : Z) :
  search_locals store query loc tgs qual page per_page
  = (let P := Z.min per_page 10 in
     let all := match_set store query loc tgs qual in
     match floordiv (Py.len all + P - 1) P with
     | Raise e => Raise e
     | Ok tp =>
         Ok {| results := all;
               total_count := Py.len all;
               eff_per_page := P;
               paginated_results := Py.slice all ((page - 1) * P) ((page - 1) * P + P);
               summary_images :=
                 map _create_image_summary
                     (Py.slice all ((page - 1) * P) ((page - 1) * P + P));
               total_pages := tp;
               has_next := page <? tp;
               has_prev := page >? 1 |}
     end).
Proof. reflexivity. Qed.

(** X2: the text query and the location filter are case-insensitive: two
    calls whose queries agree in lower case and whose location filters agree
    in lower case, with the same tags and quality filters and the same page
    arguments, find the same records and return the same response. *)
Theorem X2_search_ignores_case
    (store : Store) (q1 q2 : string) (l1 l2 : option string)
    (tgs : option (list string)) (qual : option string) (page per_page : Z) :
  lower q1 = lower q2 -> option_map lower l1 = option_map lower l2 ->
  match_set store q1 l1 tgs qual = match_set store q2 l2 tgs qual
  /\ search_images_paginated q1 l1 tgs qual page per_page store
     = search_images_paginated q2 l2 tgs qual page per_page store.
Proof.
  intros Hq Hl.
  assert (Hm : match_set store q1 l1 tgs qual = match_set store q2 l2 tgs qual).
  { rewrite !match_set_filter, Hq. apply filter_ext. intros img.
    unfold matches. now rewrite (location_skips_case l1 l2 img Hl). }
  split; [exact Hm|].
  rewrite !search_images_paginated_run, !search_locals_match_set, Hm. reflexivity.
Qed.

Lemma X2_search_ignores_case_witness :
  match_set Seed.SAMPLE_IMAGES "BEACH" (Some "malibu") None None
  = match_set Seed.SAMPLE_IMAGES "beach" (Some "MALIBU") None None.
Proof.
  apply (X2_search_ignores_case Seed.SAMPLE_IMAGES "BEACH" "beach"
           (Some "malibu") (Some "MALIBU") None None 1 5); reflexivity.
Defined.

(** X3: a location filter that is the empty string, a tags filter that is
    the empty list and a quality filter that is the empty string filter
    nothing: the call answers as the call without them; and the empty query
    without filters matches every record of the store. *)
Theorem X3_empty_filters_are_ignored
    (store : Store) (query : string) (loc : option string)
    (tgs : option (list string)) (qual : option string) (page per_page : Z) :
  search_images_paginated query (Some "") tgs qual page per_page store
  = search_images_paginated query None tgs qual page per_page store
  /\ search_images_paginated query loc (Some []) qual page per_page store
     = search_images_paginated query loc None qual page per_page store
  /\ search_images_paginated query loc tgs (Some "") page per_page store
     = search_images_paginated query loc tgs None page per_page store
  /\ match_set store "" None None None = store.
Proof.
  repeat split; try reflexivity.
  rewrite match_set_filter. induction store as [|img store IH]; [reflexivity|].
  cbn [filter].
  replace (matches (lower "") None None None img) with true; [now rewrite IH|].
  unfold matches, text_match. change (lower "") with ""%string.
  now rewrite str_in_empty.
Qed.

(** X4: the records a search finds are the records of the store, in the
    order of the store, for which the query in lower case occurs in the
    lower-case file name, in a lower-case tag or in the lower-case location,
    and which pass each filter that is given and not empty: the location
    filter occurs in the location in lower case, one of the wanted tags is a
    tag of the record as it is written, the quality is the wanted one. *)
Theorem X4_search_results_characterised
    (store : Store) (query : string) (loc : option string)
    (tgs : option (list string)) (qual : option string) :
  (exists keep, match_set store query loc tgs qual = filter keep store)
  /\ forall img,
       In img (match_set store query loc tgs qual) <->
       In img store
       /\ (contains (lower query) (lower (ImageMetadata.filename img))
           \/ (exists tag, In tag (ImageMetadata.tags img)
                           /\ contains (lower query) (lower tag))
           \/ (exists il, ImageMetadata.location img = Some il
                          /\ contains (lower query) (lower il)))
       /\ (forall l, loc = Some l -> l <> ""%string ->
             exists il, ImageMetadata.location img = Some il
                        /\ contains (lower l) (lower il))
       /\ (forall ts, tgs = Some ts -> ts <> [] ->
             exists t, In t ts /\ In t (ImageMetadata.tags img))
       /\ (forall q, qual = Some q -> q <> ""%string ->
             option_map quality_name (ImageMetadata.quality img) = Some q).
Proof.
  split; [eexists; apply match_set_filter|].
  intros img. rewrite match_set_filter, filter_In. unfold matches.
  rewrite !andb_true_iff, !negb_true_iff.
  assert (Htext : text_match (lower query) img = true <->
                  (contains (lower query) (lower (ImageMetadata.filename img))
                   \/ (exists tag, In tag (ImageMetadata.tags img)
                                   /\ contains (lower query) (lower tag))
                   \/ (exists il, ImageMetadata.location img = Some il
                                  /\ contains (lower query) (lower il)))).
  { unfold text_match. rewrite !orb_true_iff, existsb_exists, str_in_spec. split.
    - intros [[H | (tag & Hin & H)] | H].
      + now left.
      + right; left. exists tag. split; trivial. now apply str_in_spec.
      + right; right. destruct (ImageMetadata.location img) as [il|]; [|discriminate].
        apply andb_true_iff in H. exists il. split; trivial. now apply str_in_spec.
    - intros [H | [(tag & Hin & H) | (il & E & H)]].
      + left; now left.
      + left; right. exists tag. split; trivial. now apply str_in_spec.
      + rewrite E. destruct il as [|c il].
        * left; left. destruct H as (pre & post & H).
          destruct pre; [|discriminate]. simpl in H.
          destruct (lower query); [|discriminate].
          now exists ""%string, (lower (ImageMetadata.filename img)).
        * right. apply andb_true_iff. split; [reflexivity|]. now apply str_in_spec. }
  assert (Hloc : location_skips loc img = false <->
                 (forall l, loc = Some l -> l <> ""%string ->
                    exists il, ImageMetadata.location img = Some il
                               /\ contains (lower l) (lower il))).
  { unfold location_skips. destruct loc as [l|].
    - destruct l as [|c l].
      + split; [|reflexivity]. intros _ l [= <-] Hne. contradiction.
      + cbn [truthy andb]. split.
        * intros H l0 [= <-] _.
          destruct (ImageMetadata.location img) as [il|]; [|discriminate].
          apply orb_false_iff in H. destruct H as [_ H].
          apply negb_false_iff in H. exists il. split; trivial. now apply str_in_spec.
        * intros H. destruct (H _ eq_refl ltac:(discriminate)) as (il & E & Hc).
          rewrite E. apply orb_false_iff. split.
          -- destruct il; [|reflexivity]. exfalso.
             destruct Hc as (pre & post & Hc). destruct pre; discriminate.
          -- apply negb_false_iff. now apply str_in_spec.
    - split; [|reflexivity]. intros _ l [=]. }
  assert (Htags : tags_skips tgs img = false <->
                  (forall ts, tgs = Some ts -> ts <> [] ->
                     exists t, In t ts /\ In t (ImageMetadata.tags img))).
  { unfold tags_skips. destruct tgs as [[|t ts]|].
    - split; [|reflexivity]. intros _ ts [= <-] Hne. contradiction.
    - rewrite negb_false_iff, existsb_exists. split.
      + intros (x & Hx & H) ts0 [= <-] _. exists x. split; trivial. now apply in_list_In.
      + intros H. destruct (H _ eq_refl ltac:(discriminate)) as (x & Hx & Hin).
        exists x. split; trivial. now apply in_list_In.
    - split; [|reflexivity]. intros _ ts [=]. }
  assert (Hqual : quality_skips qual img = false <->
                  (forall q, qual = Some q -> q <> ""%string ->
                     option_map quality_name (ImageMetadata.quality img) = Some q)).
  { unfold quality_skips, quality_str. destruct qual as [q|].
    - destruct q as [|c q].
      + split; [|reflexivity]. intros _ q [= <-] Hne. contradiction.
      + cbn [truthy andb]. split.
        * intros H q0 [= <-] _.
          destruct (option_map quality_name (ImageMetadata.quality img)) as [iq|];
            [|discriminate].
          apply negb_false_iff, String.eqb_eq in H. now subst.
        * intros H. rewrite (H _ eq_refl ltac:(discriminate)).
          apply negb_false_iff, String.eqb_refl.
    - split; [|reflexivity]. intros _ q [=]. }
  rewrite Htext, Hloc, Htags, Hqual. tauto.
Qed.

(** ** How many records a page holds *)

Lemma slice_length_nonneg {A} (l : list A) (s e : Z) :
  0 <= s -> s <= e ->
  Py.len (Py.slice l s e) = Z.max 0 (Z.min (e - s) (Py.len l - s)).
Proof.
  intros Hs Hse. rewrite slice_nonneg by assumption.
  unfold Py.len. rewrite length_firstn, length_skipn. lia.
Qed.

(** X5: with page size [P = min(per_page, 10) >= 1] in force and [N]
    matches, the summaries the response shows for page [page >= 1] are those
    of the records from position [(page - 1) * P] on, at most [P] of them,
    one summary for each record: every page before the last shows [P]
    summaries, the last page between one and [P], a page past the last
    none; page 0 shows none as well. *)
Theorem X5_page_lengths
    (store : Store) (query : string) (loc : option string)
    (tgs : option (list string)) (qual : option string) (per_page : Z) :
  1 <= per_page ->
  let P := Z.min per_page 10 in
  let all := match_set store query loc tgs qual in
  let N := Py.len all in
  let tp := (N + P - 1) / P in
  let shown := fun page =>
    returned_summary
      (search_images_paginated query loc tgs qual page per_page store) in
  (forall page, exists resp,
     search_images_paginated query loc tgs qual page per_page store = (Ok resp, store)
     /\ Json.get "summary" resp = Ok (JList (shown page)))
  /\ (forall page, 1 <= page ->
        shown page = map _create_image_summary (page_records all P page)
        /\ Py.len (shown page) = page_length N P page)
  /\ (forall page, 1 <= page < tp -> Py.len (shown page) = P)
  /\ (1 <= tp -> 1 <= Py.len (shown tp) <= P)
  /\ (forall page, tp < page -> shown page = [])
  /\ shown 0 = [].
Proof.
  intros Hpp P all N tp shown.
  assert (HP : 1 <= P) by (unfold P; lia).
  assert (HP0 : Z.min per_page 10 <> 0) by (fold P; lia).
  assert (HN : 0 <= N) by (unfold N, Py.len; lia).
  destruct (ceil_div_spec N P HN HP) as [Hup Hleast]. fold tp in Hup, Hleast.
  assert (Hshown : forall page,
             shown page
             = map _create_image_summary
                 (Py.slice all ((page - 1) * P) ((page - 1) * P + P))).
  { intros page. unfold shown, returned_summary.
    rewrite search_images_paginated_run, (search_locals_ok _ _ _ _ _ _ _ HP0).
    reflexivity. }
  assert (Hlen : forall page, 1 <= page -> Py.len (shown page) = page_length N P page).
  { intros page H1. rewrite Hshown. unfold Py.len at 1. rewrite length_map.
    fold (Py.len (Py.slice all ((page - 1) * P) ((page - 1) * P + P))).
    rewrite slice_length_nonneg by nia.
    unfold page_length. fold N. f_equal. f_equal. lia. }
  assert (Hlast : N > (tp - 1) * P).
  { destruct (Z_le_gt_dec N ((tp - 1) * P)) as [Hle|]; [|assumption].
    specialize (Hleast _ Hle). lia. }
  split; [|split; [|split; [|split; [|split]]]].
  - intros page. eexists. split.
    + rewrite search_images_paginated_run, (search_locals_ok _ _ _ _ _ _ _ HP0).
      reflexivity.
    + rewrite Hshown. reflexivity.
  - intros page H1. split; [|now apply Hlen].
    rewrite Hshown, slice_nonneg by nia. unfold page_records.
    f_equal. f_equal. f_equal. lia.
  - intros page [H1 Hlt]. rewrite Hlen by lia. unfold page_length. nia.
  - intros H1. rewrite Hlen by lia. unfold page_length. lia.
  - intros page Hlt. rewrite Hshown.
    assert (0 <= tp) by (apply Z.div_pos; lia).
    rewrite slice_past_end; [reflexivity| |]; fold (Py.len all); fold N; nia.
  - rewrite Hshown. unfold Py.slice, clamp_index.
    replace ((0 - 1) * P + P) with 0 by lia.
    destruct (Z.ltb_spec ((0 - 1) * P) 0); [|lia]. cbn [Z.ltb Z.compare].
    rewrite Z.min_l by lia.
    replace (Z.to_nat (0 - _)) with 0%nat by lia. reflexivity.
Qed.

Lemma X5_page_lengths_witness :
  1 <= 2
  /\ Py.len (returned_summary
               (search_images_paginated "beach" None None None 1 2 Seed.SAMPLE_IMAGES))
     = 2
  /\ returned_summary
       (search_images_paginated "beach" None None None 0 2 Seed.SAMPLE_IMAGES)
     = [].
Proof.
  split; [lia|].
  destruct (X5_page_lengths Seed.SAMPLE_IMAGES "beach" None None None 2 ltac:(lia))
    as (_ & _ & Hfull & _ & _ & Hzero).
  split; [|exact Hzero]. apply Hfull. vm_compute. split; congruence.
Defined.

(** ** Tagging, continued *)

Lemma add_tags_with_tags (tags : list string) (image : ImageMetadata.t) :
  add_tags tags image = with_tags (add_all tags (ImageMetadata.tags image)) image.
Proof.
  unfold add_tags, add_all. revert image.
  induction tags as [|t tags IH]; intros image; cbn [fold_left].
  - now destruct image.
  - rewrite IH. destruct (in_list t (ImageMetadata.tags image)); reflexivity.
Qed.

Lemma add_all_has (tags old : list string) (t : string) :
  In t tags -> In t (add_all tags old).
Proof.
  intros Ht. destruct (add_all_spec tags old) as (extra & -> & _ & Hin).
  apply in_or_app. destruct (in_dec string_dec t old); [now left|].
  right. apply Hin. now split.
Qed.

Lemma tag_one_untouched (image_ids tags : list string) (image : ImageMetadata.t) :
  ~ In (ImageMetadata.id image) image_ids -> tag_one image_ids tags image = image.
Proof.
  intros H. unfold tag_one. apply in_list_false in H. now rewrite H.
Qed.

Lemma add_tags_id_tag_one (image_ids tags : list string) (image : ImageMetadata.t) :
  ImageMetadata.id (tag_one image_ids tags image) = ImageMetadata.id image.
Proof. unfold tag_one. destruct (in_list _ _); [apply add_tags_id|reflexivity]. Qed.

(** X6: [tag_images] keeps the number, the order and the ids of the
    records and every field but the tags, to which it only appends;
    [updated_count] is the number of records whose id was given, whether or
    not a tag was new to them, and [image_count] the number of ids given;
    with ids of no record the store stays as it is and the count is zero;
    with an empty tag list the store stays as it is. *)
Theorem X6_tagging_touches_only_tags (image_ids tags : list string) (store : Store) :
  exists resp store',
    tag_images image_ids tags store = (Ok resp, store')
    /\ map ImageMetadata.id store' = map ImageMetadata.id store
    /\ Forall2 (fun image image' =>
                  exists extra,
                    image' = with_tags (ImageMetadata.tags image ++ extra) image
                    /\ (~ In (ImageMetadata.id image) image_ids -> extra = []))
               store store'
    /\ Json.get "updated_count" resp
       = Ok (JInt (Py.len (filter (fun img => in_list (ImageMetadata.id img) image_ids)
                                  store)))
    /\ Json.get "image_count" resp = Ok (JInt (Py.len image_ids))
    /\ Json.get "tags_added" resp = Ok (of_strs tags)
    /\ ((forall img, In img store -> ~ In (ImageMetadata.id img) image_ids) ->
        store' = store /\ Json.get "updated_count" resp = Ok (JInt 0))
    /\ (tags = [] -> store' = store).
Proof.
  exists (JDict [ ("success", JBool true);
                  ("message",
                   JStr ("Successfully added tags to "
                         ++ str_of_int
                              (0 + Py.len (filter (fun img =>
                                                     in_list (ImageMetadata.id img) image_ids)
                                                  store))
                         ++ " images.")%string);
                  ("updated_count",
                   JInt (0 + Py.len (filter (fun img =>
                                               in_list (ImageMetadata.id img) image_ids)
                                            store)));
                  ("tags_added", of_strs tags);
                  ("image_count", JInt (Py.len image_ids)) ]),
         (map (tag_one image_ids tags) store).
  split.
  { unfold tag_images, Py.bind, Py.get, Py.put, ret. now rewrite tag_loop. }
  split.
  { rewrite map_map. apply map_ext. intros img. unfold tag_one.
    destruct (in_list _ _); [apply add_tags_id|reflexivity]. }
  split.
  { induction store as [|img store IH]; cbn [map]; constructor; trivial.
    unfold tag_one. destruct (in_list (ImageMetadata.id img) image_ids) eqn:E.
    - destruct (add_all_spec tags (ImageMetadata.tags img)) as (extra & Hex & _).
      exists extra. rewrite add_tags_with_tags, Hex. split; [reflexivity|].
      intros Hn. apply in_list_In in E. contradiction.
    - exists []. rewrite app_nil_r. split; [now destruct img|reflexivity]. }
  split; [reflexivity|]. split; [reflexivity|]. split; [reflexivity|]. split.
  - intros Hnone.
    assert (Hf : filter (fun img => in_list (ImageMetadata.id img) image_ids) store = []).
    { induction store as [|img store IH]; [reflexivity|]. cbn [filter].
      replace (in_list (ImageMetadata.id img) image_ids) with false.
      - apply IH. intros x Hx. apply Hnone. now right.
      - symmetry. apply in_list_false, Hnone. now left. }
    split.
    + rewrite <- (map_id store) at 2. apply map_ext_in. intros img Hin.
      apply tag_one_untouched. now apply Hnone.
    + cbn. now rewrite Hf.
  - intros ->. rewrite <- (map_id store) at 2. apply map_ext. intros img.
    unfold tag_one. destruct (in_list _ _); reflexivity.
Qed.

(** X7: after [tag_images] has given a tag to the records of some ids, a
    search for that tag finds each of these records, both with the tag as
    the tags filter under the empty query and with the tag as the text
    query. *)
Theorem X7_tagged_records_are_found
    (image_ids : list string) (tag : string) (store : Store) (image' : ImageMetadata.t) :
  let store' := snd (tag_images image_ids [tag] store) in
  In image' store' -> In (ImageMetadata.id image') image_ids ->
  In tag (ImageMetadata.tags image')
  /\ In image' (match_set store' "" None (Some [tag]) None)
  /\ In image' (match_set store' tag None None None).
Proof.
  intros store' Hin Hid. subst store'.
  destruct (tag_images_run image_ids [tag] store) as (resp & Hrun & _).
  rewrite Hrun in *. cbn [snd] in *.
  assert (Htag : In tag (ImageMetadata.tags image')).
  { apply in_map_iff in Hin. destruct Hin as (img & <- & Hin).
    rewrite add_tags_id_tag_one in Hid.
    unfold tag_one. apply in_list_In in Hid. rewrite Hid.
    rewrite add_tags_tags. apply add_all_has. now left. }
  split; [exact Htag|]. split.
  - rewrite match_set_filter. apply filter_In. split; [exact Hin|].
    unfold matches, text_match, tags_skips. change (lower "") with ""%string.
    rewrite str_in_empty. cbn [orb andb negb location_skips quality_skips existsb].
    apply in_list_In in Htag. now rewrite Htag.
  - rewrite match_set_filter. apply filter_In. split; [exact Hin|].
    unfold matches, text_match.
    assert (Hex : existsb (fun t => str_in (lower tag) (lower t))
                          (ImageMetadata.tags image') = true).
    { apply existsb_exists. exists tag. split; [exact Htag|apply str_in_refl]. }
    rewrite Hex, orb_true_r. reflexivity.
Qed.

Lemma X7_tagged_records_are_found_witness :
  In "trip" (ImageMetadata.tags
               (with_tags ["mountain"; "hiking"; "landscape"; "trip"] Seed.img_004)).
Proof.
  assert (H1 : In (with_tags ["mountain"; "hiking"; "landscape"; "trip"] Seed.img_004)
                  (snd (tag_images ["img_004"] ["trip"] Seed.SAMPLE_IMAGES))).
  { vm_compute. right; right; right; left. reflexivity. }
  assert (H2 : In (ImageMetadata.id
                     (with_tags ["mountain"; "hiking"; "landscape"; "trip"] Seed.img_004))
                  ["img_004"]).
  { vm_compute. left. reflexivity. }
  exact (proj1 (X7_tagged_records_are_found ["img_004"] "trip" Seed.SAMPLE_IMAGES
                  (with_tags ["mountain"; "hiking"; "landscape"; "trip"] Seed.img_004)
                  H1 H2)).
Defined.

(** ** The quality filter, continued *)

Lemma is_removed_mono (lvl1 lvl2 : Z) (img : ImageMetadata.t) :
  lvl1 <= lvl2 -> is_removed lvl1 img = true -> is_removed lvl2 img = true.
Proof.
  intros Hle H. apply is_removed_spec in H. destruct H as (q & E & Hq).
  apply is_removed_spec. exists q. split; [exact E|lia].
Qed.

(** X8: the quality filter is monotone in the threshold: a threshold of
    higher rank removes every record a threshold of lower rank removes and
    keeps only records the lower one keeps; so "blurry", "poor", "good" and
    "excellent" remove more and more, and "excellent" removes every record
    that has a quality and keeps those that have none. *)
Theorem X8_filter_is_monotone (store : Store) (t1 t2 : string) :
  threshold_level t1 <= threshold_level t2 ->
  incl (fst (filter_partition store t1)) (fst (filter_partition store t2))
  /\ incl (snd (filter_partition store t2)) (snd (filter_partition store t1))
  /\ incl (fst (filter_partition store "blurry")) (fst (filter_partition store "poor"))
  /\ incl (fst (filter_partition store "poor")) (fst (filter_partition store "good"))
  /\ incl (fst (filter_partition store "good")) (fst (filter_partition store "excellent"))
  /\ (forall img, In img (fst (filter_partition store "excellent")) <->
                  In img store /\ ImageMetadata.quality img <> None)
  /\ (forall img, In img (snd (filter_partition store "excellent")) <->
                  In img store /\ ImageMetadata.quality img = None).
Proof.
  assert (Hmono : forall a b, threshold_level a <= threshold_level b ->
            incl (fst (filter_partition store a)) (fst (filter_partition store b))
            /\ incl (snd (filter_partition store b)) (snd (filter_partition store a))).
  { intros a b Hle. rewrite !filter_partition_eq. cbn [fst snd]. split.
    - intros img Hin. apply filter_In in Hin. destruct Hin as [Hin H].
      apply filter_In. split; [exact Hin|]. now apply (is_removed_mono _ _ _ Hle).
    - intros img Hin. apply filter_In in Hin. destruct Hin as [Hin H].
      apply filter_In. split; [exact Hin|]. apply negb_true_iff in H.
      apply negb_true_iff. destruct (is_removed (threshold_level a) img) eqn:E; trivial.
      apply (is_removed_mono _ _ _ Hle) in E. congruence. }
  intros Hle. split; [apply (Hmono t1 t2 Hle)|]. split; [apply (Hmono t1 t2 Hle)|].
  split; [apply Hmono; vm_compute; discriminate|].
  split; [apply Hmono; vm_compute; discriminate|].
  split; [apply Hmono; vm_compute; discriminate|].
  rewrite filter_partition_eq. cbn [fst snd].
  assert (Hall : forall img, is_removed (threshold_level "excellent") img = true
                             <-> ImageMetadata.quality img <> None).
  { intros img. rewrite is_removed_spec. split.
    - intros (q & E & _). congruence.
    - intros Hq. destruct (ImageMetadata.quality img) as [q|]; [|contradiction].
      exists q. split; [reflexivity|]. change (threshold_level "excellent") with 4.
      destruct q; cbn; lia. }
  split; intros img; rewrite filter_In.
  - now rewrite Hall.
  - rewrite negb_true_iff. split; intros [Hin H]; split; trivial.
    + destruct (ImageMetadata.quality img) eqn:E; trivial.
      assert (Ht : is_removed (threshold_level "excellent") img = true)
        by (apply Hall; congruence).
      congruence.
    + destruct (is_removed (threshold_level "excellent") img) eqn:E; trivial.
      apply Hall in E. contradiction.
Qed.

Lemma X8_filter_is_monotone_witness :
  threshold_level "blurry" <= threshold_level "good"
  /\ incl (fst (filter_partition Seed.SAMPLE_IMAGES "blurry"))
          (fst (filter_partition Seed.SAMPLE_IMAGES "good")).
Proof.
  assert (H : threshold_level "blurry" <= threshold_level "good")
    by (vm_compute; discriminate).
  split; [exact H|].
  apply (X8_filter_is_monotone Seed.SAMPLE_IMAGES "blurry" "good" H).
Defined.

(** X9: the response of the quality filter counts every record once,
    [removed_count + kept_count] being the size of the store; its sample
    holds the summaries of the first five removed records, or of all of them
    when there are fewer; and the store stays as it is. *)
Theorem X9_filter_response (store : Store) (threshold : string) :
  let removed := fst (filter_partition store threshold) in
  let kept := snd (filter_partition store threshold) in
  exists resp,
    filter_low_quality_images threshold store = (Ok resp, store)
    /\ Json.get "success" resp = Ok (JBool true)
    /\ Json.get "removed_count" resp = Ok (JInt (Py.len removed))
    /\ Json.get "kept_count" resp = Ok (JInt (Py.len kept))
    /\ Py.len removed + Py.len kept = Py.len store
    /\ Json.get "removed_sample" resp
       = Ok (JList (map _create_image_summary (firstn 5 removed)))
    /\ Py.len (firstn 5 removed) = Z.min 5 (Py.len removed)
    /\ Json.get "criteria" resp = Ok (JStr ("Quality threshold: " ++ threshold)%string).
Proof.
  intros removed kept. subst removed kept.
  unfold filter_low_quality_images, Py.bind, Py.get, ret.
  pose proof (filter_split_perm (is_removed (threshold_level threshold)) store) as Hp.
  apply Permutation_length in Hp. rewrite length_app in Hp.
  rewrite filter_partition_eq in *. cbn [fst snd].
  eexists. split; [reflexivity|]. repeat (split; [reflexivity|]).
  split; [unfold Py.len; lia|]. split.
  - cbn. now rewrite slice_from_zero by lia.
  - split; [|reflexivity]. unfold Py.len. rewrite length_firstn. lia.
Qed.

(** ** Related images *)

Lemma find_loop (image_id : string) (store : Store) (target : option ImageMetadata.t) :
  fold_left (find_step image_id) store target
  = match target with
    | Some t => Some t
    | None => find (fun img => String.eqb (ImageMetadata.id img) image_id) store
    end.
Proof.
  revert target. induction store as [|img store IH]; intros target; cbn [fold_left find].
  - now destruct target.
  - rewrite IH. destruct target as [t|]; cbn [find_step]; [reflexivity|].
    destruct (String.eqb (ImageMetadata.id img) image_id); reflexivity.
Qed.

Lemma related_loop (target : ImageMetadata.t) (store acc : list ImageMetadata.t) :
  fold_left (related_step target) store acc
  = acc ++ filter (fun img => in_list (ImageMetadata.id img) (ImageMetadata.relations target))
                  store.
Proof.
  revert acc. induction store as [|img store IH]; intros acc; cbn [fold_left filter].
  - now rewrite app_nil_r.
  - rewrite IH. unfold related_step.
    destruct (in_list (ImageMetadata.id img) (ImageMetadata.relations target)).
    + now rewrite <- app_assoc.
    + reflexivity.
Qed.

Lemma slice_In {A} (l : list A) (s e : Z) (x : A) : In x (Py.slice l s e) -> In x l.
Proof.
  unfold Py.slice. intros H.
  set (n := Z.to_nat _) in H. set (m := Z.to_nat _) in H.
  rewrite <- (firstn_skipn m l). apply in_or_app. right.
  rewrite <- (firstn_skipn n (skipn m l)). apply in_or_app. now left.
Qed.

(** X10: [get_related_images] answers [success = false] with the message
    "Image <id> not found" and nothing else exactly when no record of the
    store has the id; it raises nothing and leaves the store as it is. *)
Theorem X10_related_of_unknown_id (image_id : string) (limit : Z) (store : Store) :
  exists resp,
    get_related_images image_id limit store = (Ok resp, store)
    /\ ((forall img, In img store -> ImageMetadata.id img <> image_id) <->
        resp = JDict [ ("success", JBool false);
                       ("message", JStr ("Image " ++ image_id ++ " not found")%string) ])
    /\ ((exists img, In img store /\ ImageMetadata.id img = image_id) <->
        Json.get "success" resp = Ok (JBool true)).
Proof.
  unfold get_related_images, Py.bind, Py.get, ret. rewrite find_loop.
  destruct (find (fun img => String.eqb (ImageMetadata.id img) image_id) store)
    as [target|] eqn:Ef.
  - eexists. split; [reflexivity|].
    apply find_some in Ef. destruct Ef as [Hin Hid]. apply String.eqb_eq in Hid.
    split; split.
    + intros Hnone. exfalso. now apply (Hnone target Hin).
    + discriminate.
    + reflexivity.
    + intros _. now exists target.
  - eexists. split; [reflexivity|].
    assert (Hnone : forall img, In img store -> ImageMetadata.id img <> image_id).
    { intros img Hin E. pose proof (find_none _ _ Ef img Hin) as H. cbn in H.
      apply String.eqb_neq in H. contradiction. }
    split; split.
    + reflexivity.
    + intros _. exact Hnone.
    + intros (img & Hin & E). exfalso. now apply (Hnone img Hin).
    + discriminate.
Qed.

(** X11: when the first record of the store with the id is [target], the
    answer is a success that shows the summary of [target] and the summaries
    of the related records: the records of the store, in the order of the
    store, whose id is among the relations of [target], cut to the first
    [limit] of them for [limit >= 0].  A relation that names no record adds
    nothing, and the store stays as it is. *)
Theorem X11_related_records
    (image_id : string) (limit : Z) (store pre post : Store) (target : ImageMetadata.t) :
  store = pre ++ target :: post ->
  ImageMetadata.id target = image_id ->
  (forall img, In img pre -> ImageMetadata.id img <> image_id) ->
  let all_related :=
    filter (fun img => in_list (ImageMetadata.id img) (ImageMetadata.relations target))
           store in
  exists related,
    get_related_images image_id limit store
    = (Ok (JDict [ ("success", JBool true);
                   ("message",
                    JStr ("Found " ++ str_of_int (Py.len related)
                          ++ " related images")%string);
                   ("source_image", _create_image_summary target);
                   ("related_count", JInt (Py.len related));
                   ("related_images", JList (map _create_image_summary related)) ]),
       store)
    /\ related = Py.slice all_related 0 limit
    /\ (0 <= limit -> related = firstn (Z.to_nat limit) all_related
                      /\ Py.len related <= limit)
    /\ (Py.len all_related <= limit -> related = all_related)
    /\ (forall img, In img related ->
          In img store
          /\ In (ImageMetadata.id img) (ImageMetadata.relations target)).
Proof.
  intros Hstore Hid Hpre all_related.
  assert (Hfind : find (fun img => String.eqb (ImageMetadata.id img) image_id) store
                  = Some target).
  { rewrite Hstore. clear Hstore all_related.
    induction pre as [|x pre IH]; cbn [app find].
    - rewrite Hid, String.eqb_refl. reflexivity.
    - replace (String.eqb (ImageMetadata.id x) image_id) with false.
      + apply IH. intros img Hin. apply Hpre. now right.
      + symmetry. apply String.eqb_neq, Hpre. now left. }
  exists (Py.slice all_related 0 limit). split.
  { unfold get_related_images, Py.bind, Py.get, ret.
    rewrite find_loop, Hfind, related_loop. reflexivity. }
  split; [reflexivity|]. split; [|split].
  - intros Hl. rewrite slice_from_zero by exact Hl. split; [reflexivity|].
    unfold Py.len. pose proof (firstn_le_length (Z.to_nat limit) all_related). lia.
  - intros Hl. assert (0 <= limit) by (unfold Py.len in Hl; lia).
    rewrite slice_from_zero by assumption. apply firstn_all2. unfold Py.len in Hl. lia.
  - intros img Hin.
    assert (Hin' : In img all_related) by (apply (slice_In _ _ _ _ Hin)).
    apply filter_In in Hin'. destruct Hin' as [Hs Hr]. split; [exact Hs|].
    now apply in_list_In.
Qed.

Lemma X11_related_records_witness :
  exists related,
    fst (get_related_images "img_001" 5 Seed.SAMPLE_IMAGES)
    = Ok (JDict [ ("success", JBool true);
                  ("message",
                   JStr ("Found " ++ str_of_int (Py.len related)
                         ++ " related images")%string);
                  ("source_image", _create_image_summary Seed.img_001);
                  ("related_count", JInt (Py.len related));
                  ("related_images", JList (map _create_image_summary related)) ])
    /\ related = [Seed.img_002; Seed.img_003].
Proof.
  destruct (X11_related_records "img_001" 5 Seed.SAMPLE_IMAGES []
              [Seed.img_002; Seed.img_003; Seed.img_004; Seed.img_005; Seed.img_006]
              Seed.img_001 eq_refl eq_refl)
    as (related & Hrun & Hrel & _).
  - intros img [].
  - exists related. split; [now rewrite Hrun|]. rewrite Hrel. reflexivity.
Defined.

(** ** Gallery statistics *)

Lemma set_add_In (x y : string) (s : list string) :
  In y (set_add x s) <-> y = x \/ In y s.
Proof.
  unfold set_add. destruct (in_list x s) eqn:E.
  - apply in_list_In in E. split; [now right|]. intros [->|H]; trivial.
  - rewrite in_app_iff. cbn. intuition.
Qed.

Lemma set_add_NoDup (x : string) (s : list string) : NoDup s -> NoDup (set_add x s).
Proof.
  intros H. unfold set_add. destruct (in_list x s) eqn:E; trivial.
  apply in_list_false in E.
  apply NoDup_rev in H. rewrite <- (rev_involutive (s ++ [x])).
  apply NoDup_rev. rewrite rev_app_distr. cbn. constructor; trivial.
  now rewrite <- in_rev.
Qed.

Lemma set_update_In (xs s : list string) (y : string) :
  In y (set_update xs s) <-> In y xs \/ In y s.
Proof.
  unfold set_update. revert s. induction xs as [|x xs IH]; intros s; cbn [fold_left].
  - cbn. tauto.
  - rewrite IH, set_add_In. cbn. intuition.
Qed.

Lemma set_update_NoDup (xs s : list string) : NoDup s -> NoDup (set_update xs s).
Proof.
  unfold set_update. revert s. induction xs as [|x xs IH]; intros s H; cbn [fold_left].
  - exact H.
  - apply IH. now apply set_add_NoDup.
Qed.

Lemma quality_label_eq (img : ImageMetadata.t) :
  match quality_str img with
  | Some q => if truthy q then q else "unknown"%string
  | None => "unknown"%string
  end = quality_label img.
Proof.
  unfold quality_str, quality_label.
  destruct (ImageMetadata.quality img) as [[| | |]|]; reflexivity.
Qed.

Lemma analyze_step_distribution (acc : AnalyzeLocals) (img : ImageMetadata.t) :
  quality_distribution (analyze_step acc img)
  = setitem (quality_label img)
            (get_default (quality_label img) 0 (quality_distribution acc) + 1)
            (quality_distribution acc).
Proof. unfold analyze_step. cbn [quality_distribution]. now rewrite quality_label_eq. Qed.

Lemma get_default_setitem {V} (k k' : string) (v dflt : V) (d : dict V) :
  get_default k' dflt (setitem k v d)
  = if String.eqb k' k then v else get_default k' dflt d.
Proof.
  unfold get_default. rewrite lookup_setitem. now destruct (String.eqb k' k).
Qed.

Lemma sum_setitem_incr (k : string) (d : dict Z) :
  sum_Z (values (setitem k (get_default k 0 d + 1) d)) = sum_Z (values d) + 1.
Proof.
  unfold get_default. induction d as [|[k0 v0] d IH]; cbn [setitem lookup].
  - cbn. lia.
  - destruct (String.eqb k k0) eqn:E.
    + cbn. lia.
    + cbn [values map snd sum_Z fold_right] in *.
      change (fold_right Z.add 0 (map snd ?l)) with (sum_Z (values l)).
      rewrite IH. cbn. unfold sum_Z, values. lia.
Qed.

Lemma analyze_counts (store : Store) (acc : AnalyzeLocals) :
  (forall q, get_default q 0 (quality_distribution (fold_left analyze_step store acc))
             = get_default q 0 (quality_distribution acc) + count_label q store)
  /\ sum_Z (values (quality_distribution (fold_left analyze_step store acc)))
     = sum_Z (values (quality_distribution acc)) + Py.len store
  /\ (NoDup (keys (quality_distribution acc)) ->
      NoDup (keys (quality_distribution (fold_left analyze_step store acc))))
  /\ (forall q, In q (keys (quality_distribution (fold_left analyze_step store acc))) <->
                In q (keys (quality_distribution acc))
                \/ exists img, In img store /\ quality_label img = q).
Proof.
  revert acc. induction store as [|img store IH]; intros acc; cbn [fold_left].
  - unfold count_label, Py.len. cbn. repeat split; try lia; trivial.
    + intros H; now left.
    + intros [H | (img & [] & _)]; exact H.
  - destruct (IH (analyze_step acc img)) as (Hget & Hsum & Hnd & Hkeys).
    rewrite analyze_step_distribution in *.
    split; [|split; [|split]].
    + intros q. rewrite Hget, get_default_setitem. unfold count_label. cbn [filter].
      rewrite (String.eqb_sym q). destruct (String.eqb_spec (quality_label img) q) as [->|Hne].
      * unfold Py.len. cbn [List.length]. lia.
      * lia.
    + rewrite Hsum, sum_setitem_incr. unfold Py.len. cbn [List.length]. lia.
    + intros H. apply Hnd. now apply NoDup_keys_setitem.
    + intros q. rewrite Hkeys, in_keys_setitem. split.
      * intros [[-> | H] | (x & Hx & E)].
        -- right. exists img. split; [now left|reflexivity].
        -- now left.
        -- right. exists x. split; [now right|exact E].
      * intros [H | (x & [<- | Hx] & E)].
        -- left; now right.
        -- left; left. now symmetry.
        -- right. now exists x.
Qed.

Lemma analyze_sets (store : Store) (acc : AnalyzeLocals) :
  (NoDup (locations acc) -> NoDup (locations (fold_left analyze_step store acc)))
  /\ (forall l, In l (locations (fold_left analyze_step store acc)) <->
                In l (locations acc)
                \/ exists img, In img store /\ ImageMetadata.location img = Some l
                               /\ l <> ""%string)
  /\ (NoDup (all_tags acc) -> NoDup (all_tags (fold_left analyze_step store acc)))
  /\ (forall t, In t (all_tags (fold_left analyze_step store acc)) <->
                In t (all_tags acc)
                \/ exists img, In img store /\ In t (ImageMetadata.tags img))
  /\ total_size (fold_left analyze_step store acc)
     = total_size acc + sum_Z (map size_of store).
Proof.
  revert acc. induction store as [|img store IH]; intros acc; cbn [fold_left].
  - cbn. repeat split; trivial; try lia.
    + intros H; now left.
    + intros [H | (img & [] & _)]; exact H.
    + intros H; now left.
    + intros [H | (img & [] & _)]; exact H.
  - destruct (IH (analyze_step acc img)) as (Hl1 & Hl2 & Ht1 & Ht2 & Hsz).
    assert (Eloc : forall l, In l (locations (analyze_step acc img)) <->
                     In l (locations acc)
                     \/ (ImageMetadata.location img = Some l /\ l <> ""%string)).
    { intros l. unfold analyze_step. cbn [locations].
      destruct (ImageMetadata.location img) as [[|c il]|]; cbn [truthy].
      - split; [now left|]. intros [H | [[= <-] Hne]]; [exact H|contradiction].
      - rewrite set_add_In. split.
        + intros [-> | H]; [right; split; [reflexivity|discriminate]|now left].
        + intros [H | [[= <-] _]]; [now right|now left].
      - split; [now left|]. intros [H | [[=] _]]. exact H. }
    split; [|split; [|split; [|split]]].
    + intros H. apply Hl1. unfold analyze_step. cbn [locations].
      destruct (ImageMetadata.location img) as [l|]; trivial.
      destruct (truthy l); trivial. now apply set_add_NoDup.
    + intros l. rewrite Hl2, Eloc. split.
      * intros [[H | [E Hne]] | (x & Hx & E & Hne)].
        -- now left.
        -- right. exists img. split; [now left|]. now split.
        -- right. exists x. split; [now right|]. now split.
      * intros [H | (x & [<- | Hx] & E & Hne)].
        -- left; now left.
        -- left; right. now split.
        -- right. exists x. now split.
    + intros H. apply Ht1. unfold analyze_step. cbn [all_tags]. now apply set_update_NoDup.
    + intros t. rewrite Ht2. unfold analyze_step at 1. cbn [all_tags].
      rewrite set_update_In. split.
      * intros [[H | H] | (x & Hx & E)].
        -- right. exists img. split; [now left|exact H].
        -- now left.
        -- right. exists x. split; [now right|exact E].
      * intros [H | (x & [<- | Hx] & E)].
        -- left; now right.
        -- left; now left.
        -- right. now exists x.
    + rewrite Hsz. unfold analyze_step at 1. cbn [total_size map sum_Z fold_right].
      unfold size_of at 2.
      destruct (ImageMetadata.size img) as [sz|].
      * destruct (Z.eqb_spec sz 0) as [->|Hne]; unfold sum_Z; lia.
      * unfold sum_Z; lia.
Qed.

Lemma NoDup_same_length (l1 l2 : list string) :
  NoDup l1 -> NoDup l2 -> (forall x, In x l1 <-> In x l2) ->
  List.length l1 = List.length l2.
Proof.
  intros H1 H2 H. apply Permutation_length. now apply NoDup_Permutation.
Qed.

Lemma analyze_locals_spec (store : Store) :
  let L := analyze_locals store in
  NoDup (keys (quality_distribution L))
  /\ (forall q, In q (keys (quality_distribution L)) <->
                exists img, In img store /\ quality_label img = q)
  /\ (forall q, get_default q 0 (quality_distribution L) = count_label q store)
  /\ sum_Z (values (quality_distribution L)) = Py.len store
  /\ NoDup (locations L)
  /\ (forall l, In l (locations L) <->
                exists img, In img store /\ ImageMetadata.location img = Some l
                            /\ l <> ""%string)
  /\ NoDup (all_tags L)
  /\ (forall t, In t (all_tags L) <->
                exists img, In img store /\ In t (ImageMetadata.tags img))
  /\ total_size L = sum_Z (map size_of store).
Proof.
  unfold analyze_locals.
  destruct (analyze_counts store
              {| quality_distribution := []; locations := [];
                 all_tags := []; total_size := 0 |}) as (Hget & Hsum & Hnd & Hkeys).
  destruct (analyze_sets store
              {| quality_distribution := []; locations := [];
                 all_tags := []; total_size := 0 |}) as (Hl1 & Hl2 & Ht1 & Ht2 & Hsz).
  cbn [quality_distribution locations all_tags total_size keys values map sum_Z
       fold_right get_default lookup] in *.
  split; [apply Hnd; constructor|]. split.
  { intros q. rewrite Hkeys. split; [intros [[] | H]; exact H|intros H; now right]. }
  split; [intros q; rewrite Hget; lia|]. split; [lia|].
  split; [apply Hl1; constructor|]. split.
  { intros l. rewrite Hl2. split; [intros [[] | H]; exact H|intros H; now right]. }
  split; [apply Ht1; constructor|]. split.
  { intros t. rewrite Ht2. split; [intros [[] | H]; exact H|intros H; now right]. }
  lia.
Qed.

Lemma unique_tags_count (store : Store) :
  Py.len (all_tags (analyze_locals store))
  = Py.len (nodup string_dec (flat_map ImageMetadata.tags store)).
Proof.
  destruct (analyze_locals_spec store) as (_ & _ & _ & _ & _ & _ & Ht1 & Ht2 & _).
  unfold Py.len. f_equal. apply NoDup_same_length; trivial.
  - apply NoDup_nodup.
  - intros t. now rewrite Ht2, nodup_In, in_flat_map.
Qed.

(** X12: [analyze_image_metadata] raises nothing, on the empty store
    either, where the average is 0, and leaves the store as it is.  Its
    quality distribution has one entry for each label that occurs, a quality
    name or "unknown", with the number of records of that label, and the
    entries add up to the number of records; [total_unique_tags] is the
    number of distinct tags; [total_storage_size] is the sum of the sizes and
    [average_file_size] its floor quotient by the number of records. *)
Theorem X12_statistics_count_every_record
    (list_of_set : list string -> list string) (store : Store) :
  exists (distribution : dict Z) (locations_shown tags_shown : list string),
    analyze_image_metadata list_of_set store
    = (Ok (JDict
             [ ("success", JBool true);
               ("message",
                JStr ("Analyzed " ++ str_of_int (Py.len store) ++ " images in gallery")%string);
               ("statistics",
                JDict
                  [ ("total_images", JInt (Py.len store));
                    ("quality_distribution",
                     JDict (map (fun kv => (fst kv, JInt (snd kv))) distribution));
                    ("locations", of_strs locations_shown);
                    ("total_unique_tags",
                     JInt (Py.len (nodup string_dec (flat_map ImageMetadata.tags store))));
                    ("sample_tags", of_strs tags_shown);
                    ("total_storage_size", JInt (sum_Z (map size_of store)));
                    ("average_file_size",
                     JInt (match store with
                           | [] => 0
                           | _ :: _ => sum_Z (map size_of store) / Py.len store
                           end)) ]) ]),
       store)
    /\ NoDup (keys distribution)
    /\ (forall q, In q (keys distribution) <->
                  exists img, In img store /\ quality_label img = q)
    /\ (forall q, get_default q 0 distribution = count_label q store)
    /\ sum_Z (values distribution) = Py.len store.
Proof.
  destruct (analyze_locals_spec store)
    as (Hnd & Hkeys & Hget & Hsum & _ & _ & _ & _ & Hsz).
  exists (quality_distribution (analyze_locals store)),
         (list_of_set (locations (analyze_locals store))),
         (Py.slice (list_of_set (all_tags (analyze_locals store))) 0 10).
  split.
  { unfold analyze_image_metadata, Py.bind, Py.get, ret.
    rewrite unique_tags_count, Hsz.
    destruct store as [|img store]; [reflexivity|].
    replace (Py.len (img :: store) >? 0) with true; [reflexivity|].
    symmetry. apply Z.gtb_lt. unfold Py.len. cbn [List.length]. lia. }
  repeat split; trivial; apply Hkeys.
Qed.

(** X13: when [list(s)] lists the elements of a set each once, in whatever
    order, the statistics list each location once, the locations being those
    of the records that have one that is not empty; the sample of tags holds
    at most ten tags, each once and each a tag of some record, and all the
    tags when there are at most ten distinct ones. *)
Theorem X13_statistics_list_locations_and_tags
    (list_of_set : list string -> list string) (store : Store) :
  (forall l, NoDup l -> Permutation (list_of_set l) l) ->
  exists (stats_head stats_mid stats_tail : list (string * json))
         (locations_shown tags_shown : list string),
    fst (analyze_image_metadata list_of_set store)
    = Ok (JDict
            [ ("success", JBool true);
              ("message",
               JStr ("Analyzed " ++ str_of_int (Py.len store) ++ " images in gallery")%string);
              ("statistics",
               JDict (stats_head
                        ++ ("locations", of_strs locations_shown)
                        :: stats_mid
                        ++ ("sample_tags", of_strs tags_shown) :: stats_tail)) ])
    /\ NoDup locations_shown
    /\ (forall l, In l locations_shown <->
                  exists img, In img store /\ ImageMetadata.location img = Some l
                              /\ l <> ""%string)
    /\ (List.length tags_shown <= 10)%nat
    /\ NoDup tags_shown
    /\ (forall t, In t tags_shown ->
                  exists img, In img store /\ In t (ImageMetadata.tags img))
    /\ ((List.length (nodup string_dec (flat_map ImageMetadata.tags store)) <= 10)%nat ->
        forall t img, In img store -> In t (ImageMetadata.tags img) -> In t tags_shown).
Proof.
  intros Hset.
  destruct (analyze_locals_spec store)
    as (_ & _ & _ & _ & Hl1 & Hl2 & Ht1 & Ht2 & _).
  pose proof (Hset _ Hl1) as Hpl. pose proof (Hset _ Ht1) as Hpt.
  set (L := analyze_locals store) in *.
  exists [ ("total_images", JInt (Py.len store));
           ("quality_distribution",
            JDict (map (fun kv => (fst kv, JInt (snd kv))) (quality_distribution L))) ],
         [ ("total_unique_tags", JInt (Py.len (all_tags L))) ],
         [ ("total_storage_size", JInt (total_size L));
           ("average_file_size",
            JInt (if Py.len store >? 0 then total_size L / Py.len store else 0)) ],
         (list_of_set (locations L)),
         (Py.slice (list_of_set (all_tags L)) 0 10).
  split; [reflexivity|].
  assert (Hndt : NoDup (list_of_set (all_tags L)))
    by (apply (Permutation_NoDup (Permutation_sym Hpt) Ht1)).
  split; [apply (Permutation_NoDup (Permutation_sym Hpl) Hl1)|]. split.
  { intros l. rewrite <- (Hl2 l). split.
    - apply (Permutation_in _ Hpl).
    - apply (Permutation_in _ (Permutation_sym Hpl)). }
  rewrite slice_from_zero by lia.
  split; [apply firstn_le_length|]. split.
  { rewrite <- (firstn_skipn 10 (list_of_set (all_tags L))) in Hndt.
    now apply NoDup_app_remove_r in Hndt. }
  split.
  { intros t Hin.
    assert (Hin' : In t (list_of_set (all_tags L))).
    { rewrite <- (firstn_skipn 10 (list_of_set (all_tags L))).
      apply in_or_app. now left. }
    apply (Permutation_in _ Hpt) in Hin'. now apply Ht2 in Hin'. }
  intros Hfew t img Hin Ht.
  assert (Hlen : (List.length (list_of_set (all_tags L)) <= 10)%nat).
  { rewrite (Permutation_length Hpt).
    pose proof (unique_tags_count store) as E. unfold Py.len in E. fold L in E. lia. }
  change (Z.to_nat 10) with 10%nat. rewrite firstn_all2 by exact Hlen.
  apply (Permutation_in _ (Permutation_sym Hpt)). apply Ht2. now exists img.
Qed.

Lemma X13_statistics_list_locations_and_tags_witness :
  exists locations_shown tags_shown : list string,
    NoDup locations_shown
    /\ (forall l, In l locations_shown <->
                  exists img, In img Seed.SAMPLE_IMAGES
                              /\ ImageMetadata.location img = Some l /\ l <> ""%string)
    /\ (List.length tags_shown <= 10)%nat.
Proof.
  destruct (X13_statistics_list_locations_and_tags (fun l => l) Seed.SAMPLE_IMAGES)
    as (h & m & t & locs & tags_shown & _ & Hnd & Hin & Hlen & _).
  - intros l _. apply Permutation_refl.
  - exists locs, tags_shown. split; [exact Hnd|]. split; [exact Hin|exact Hlen].
Defined.

(** ** The search with a limit of [src/tools.py] *)

Lemma validate_quality_ok (quality : option string) (v : option Quality) :
  validate_quality quality = Ok v <-> quality = option_map quality_name v.
Proof.
  unfold validate_quality. destruct quality as [q|].
  - destruct (String.eqb_spec q "excellent") as [->|H1].
    { split; [intros [= <-]; reflexivity|]. destruct v as [[| | |]|]; now intros [=]. }
    destruct (String.eqb_spec q "good") as [->|H2].
    { split; [intros [= <-]; reflexivity|]. destruct v as [[| | |]|]; now intros [=]. }
    destruct (String.eqb_spec q "poor") as [->|H3].
    { split; [intros [= <-]; reflexivity|]. destruct v as [[| | |]|]; now intros [=]. }
    destruct (String.eqb_spec q "blurry") as [->|H4].
    { split; [intros [= <-]; reflexivity|]. destruct v as [[| | |]|]; now intros [=]. }
    split; [discriminate|]. destruct v as [[| | |]|]; cbn; intros [= E]; congruence.
  - split; [intros [= <-]; reflexivity|]. destruct v; [discriminate|reflexivity].
Qed.

Lemma search_images_run (now : Z) (query : string) (loc : option string)
    (tgs : option (list string)) (qual : option string) (limit : option Z)
    (store : Store) :
  search_images now query loc tgs qual limit store
  = (let all := match_set store query loc tgs qual in
     let shown :=
       match limit with
       | Some n => if n =? 0 then all else Py.slice all 0 n
       | None => all
       end in
     match validate_quality qual with
     | Ok v =>
         Ok {| success := true;
               data := SearchResult.mk shown (Py.len shown)
                         (SearchQuery.mk (Some query) None loc tgs None v limit) now;
               message := ("Found " ++ str_of_int (Py.len shown)
                           ++ " images matching the query")%string |}
     | Raise e => Raise e
     end, store).
Proof.
  unfold search_images, Py.bind, Py.get, lift, ret, match_set.
  destruct (validate_quality qual); reflexivity.
Qed.

(** X14: for a quality filter that is absent or one of the four names,
    [search_images] succeeds and leaves the store as it is; without a limit,
    and with the limit 0 as well, it returns every match; with a limit
    [n > 0] it returns the first [n] matches; and the [total_count] it
    reports is the number of records returned, not the number of matches. *)
Theorem X14_search_images_limit
    (now : Z) (query : string) (loc : option string) (tgs : option (list string))
    (qual : option string) (v : option Quality) (limit : option Z) (store : Store) :
  qual = option_map quality_name v ->
  let all := match_set store query loc tgs qual in
  exists r,
    search_images now query loc tgs qual limit store = (Ok r, store)
    /\ success r = true
    /\ SearchResult.total_count (data r) = Py.len (SearchResult.images (data r))
    /\ message r = ("Found " ++ str_of_int (Py.len (SearchResult.images (data r)))
                    ++ " images matching the query")%string
    /\ SearchResult.executed_at (data r) = now
    /\ SearchQuery.quality (SearchResult.query (data r)) = v
    /\ (limit = None \/ limit = Some 0 -> SearchResult.images (data r) = all)
    /\ (forall n, limit = Some n -> 0 < n ->
          SearchResult.images (data r) = firstn (Z.to_nat n) all
          /\ SearchResult.total_count (data r) = Z.min n (Py.len all))
    /\ (forall n, limit = Some n -> n < 0 ->
          SearchResult.images (data r)
          = firstn (List.length all - Z.to_nat (- n)) all).
Proof.
  intros Hq all. apply validate_quality_ok in Hq.
  rewrite search_images_run, Hq. fold all.
  eexists. split; [reflexivity|]. cbn [success data message SearchResult.total_count
    SearchResult.images SearchResult.executed_at SearchResult.query SearchQuery.quality].
  repeat (split; [reflexivity|]). split; [|split].
  - intros [-> | ->]; reflexivity.
  - intros n -> Hn. destruct (Z.eqb_spec n 0); [lia|].
    rewrite slice_from_zero by lia. split; [reflexivity|].
    unfold Py.len. rewrite length_firstn. lia.
  - intros n -> Hn. destruct (Z.eqb_spec n 0); [lia|].
    unfold Py.slice, clamp_index. cbn [Z.ltb Z.compare].
    destruct (Z.ltb_spec n 0); [|lia].
    rewrite Z.min_l by lia. cbn [Z.to_nat skipn]. f_equal. lia.
Qed.

Lemma X14_search_images_limit_witness :
  exists r,
    search_images 0 "beach" None None None (Some 2) Seed.SAMPLE_IMAGES
    = (Ok r, Seed.SAMPLE_IMAGES)
    /\ SearchResult.total_count (data r) = 2.
Proof.
  destruct (X14_search_images_limit 0 "beach" None None None None (Some 2)
              Seed.SAMPLE_IMAGES eq_refl)
    as (r & Hrun & _ & _ & _ & _ & _ & _ & Hpos & _).
  exists r. split; [exact Hrun|].
  destruct (Hpos 2 eq_refl ltac:(lia)) as [_ ->]. reflexivity.
Defined.

(** X15: with a quality filter that is given and is none of the four names,
    the empty string included, [search_images] raises the validation error
    of its [SearchQuery], whatever the store holds; the paginated search
    with the same filter raises nothing: for a page size other than 0 it
    succeeds, and it finds no record unless the filter is the empty
    string. *)
Theorem X15_search_images_rejects_unknown_quality
    (now : Z) (query : string) (loc : option string) (tgs : option (list string))
    (q : string) (limit : option Z) (page per_page : Z) (store : Store) :
  q <> "excellent"%string -> q <> "good"%string ->
  q <> "poor"%string -> q <> "blurry"%string ->
  search_images now query loc tgs (Some q) limit store = (Raise ValidationError, store)
  /\ (per_page <> 0 ->
      exists L,
        search_images_paginated query loc tgs (Some q) page per_page store
        = (Ok (search_response L page), store))
  /\ (q <> ""%string -> match_set store query loc tgs (Some q) = []).
Proof.
  intros He Hg Hp Hb. split; [|split].
  - rewrite search_images_run. unfold validate_quality.
    apply String.eqb_neq in He, Hg, Hp, Hb. now rewrite He, Hg, Hp, Hb.
  - intros Hpp. rewrite search_images_paginated_run.
    rewrite search_locals_ok by lia. eexists. reflexivity.
  - intros Hne. rewrite match_set_filter.
    induction store as [|img store IH]; [reflexivity|]. cbn [filter].
    replace (matches (lower query) loc tgs (Some q) img) with false; [exact IH|].
    symmetry. unfold matches.
    assert (Hs : quality_skips (Some q) img = true).
    { unfold quality_skips, quality_str. destruct q as [|c q]; [contradiction|].
      cbn [truthy andb].
      destruct (ImageMetadata.quality img) as [[| | |]|]; cbn [option_map quality_name];
        trivial; apply negb_true_iff, String.eqb_neq; congruence. }
    rewrite Hs. cbn. now rewrite !andb_false_r.
Qed.

Lemma X15_search_images_rejects_unknown_quality_witness :
  search_images 0 "beach" None None (Some "great") None Seed.SAMPLE_IMAGES
  = (Raise ValidationError, Seed.SAMPLE_IMAGES).
Proof.
  apply (X15_search_images_rejects_unknown_quality 0 "beach" None None "great" None 1 5
           Seed.SAMPLE_IMAGES); discriminate.
Defined.

(** X16: the two searches agree on what matches: for a quality filter that
    [search_images] accepts, without a limit it returns the full match list
    of the paginated search, whose [total] is its [total_count]; and with a
    limit between 1 and 10 it returns the records of page 1 of the paginated
    search with that page size. *)
Theorem X16_search_images_agrees_with_pages
    (now : Z) (query : string) (loc : option string) (tgs : option (list string))
    (qual : option string) (v : option Quality) (p : Z) (store : Store) :
  qual = option_map quality_name v -> 1 <= p <= 10 ->
  exists r_all r_p L,
    search_images now query loc tgs qual None store = (Ok r_all, store)
    /\ search_images now query loc tgs qual (Some p) store = (Ok r_p, store)
    /\ search_locals store query loc tgs qual 1 p = Ok L
    /\ SearchResult.images (data r_all) = results L
    /\ SearchResult.total_count (data r_all) = total_count L
    /\ SearchResult.images (data r_p) = paginated_results L
    /\ SearchResult.images (data r_p) = page_of store query loc tgs qual p 1.
Proof.
  intros Hq Hp. apply validate_quality_ok in Hq.
  rewrite !search_images_run, Hq.
  assert (HP0 : Z.min p 10 <> 0) by lia.
  do 3 eexists. split; [reflexivity|]. split; [reflexivity|].
  split; [apply (search_locals_ok _ _ _ _ _ _ _ HP0)|].
  cbn [data SearchResult.images SearchResult.total_count results total_count
       paginated_results].
  split; [reflexivity|]. split; [reflexivity|].
  destruct (Z.eqb_spec p 0); [lia|].
  assert (E : Py.slice (match_set store query loc tgs qual) 0 p
              = Py.slice (match_set store query loc tgs qual)
                         ((1 - 1) * Z.min p 10) ((1 - 1) * Z.min p 10 + Z.min p 10)).
  { f_equal; lia. }
  split; [exact E|].
  unfold page_of. rewrite (search_locals_ok _ _ _ _ _ _ _ HP0). exact E.
Qed.

Lemma X16_search_images_agrees_with_pages_witness :
  exists r_p,
    search_images 0 "beach" None None None (Some 2) Seed.SAMPLE_IMAGES
    = (Ok r_p, Seed.SAMPLE_IMAGES)
    /\ SearchResult.images (data r_p)
       = page_of Seed.SAMPLE_IMAGES "beach" None None None 2 1.
Proof.
  destruct (X16_search_images_agrees_with_pages 0 "beach" None None None None 2
              Seed.SAMPLE_IMAGES eq_refl ltac:(lia))
    as (r_all & r_p & L & _ & Hp & _ & _ & _ & _ & Hpage).
  exists r_p. split; [exact Hp|exact Hpage].
Defined.

(** ** Writing to the search cache and reading it back *)

Lemma values_setitem_new {V} (k : string) (v : V) (d : dict V) :
  In v (values (setitem k v d)).
Proof.
  induction d as [|[k' v'] d IH]; cbn; [now left|].
  destruct (String.eqb k k'); cbn; [now left|now right].
Qed.

Lemma values_setitem_In {V} (k : string) (v : V) (d : dict V) (x : V) :
  In x (values (setitem k v d)) -> x = v \/ In x (values d).
Proof.
  induction d as [|[k' v'] d IH]; cbn.
  - intros [<-|[]]. now left.
  - destruct (String.eqb k k'); cbn.
    + intros [<-|H]; [now left|now right; right].
    + intros [<-|H]; [now right; left|]. destruct (IH H) as [->|H']; auto.
Qed.

Lemma keys_setitem_prefix {V} (k : string) (v : V) (d : dict V) :
  exists rest, keys (setitem k v d) = keys d ++ rest
               /\ (rest = [] \/ rest = [k])
               /\ (rest = [] <-> In k (keys d)).
Proof.
  rewrite keys_setitem. destruct (in_list k (keys d)) eqn:E.
  - exists []. rewrite app_nil_r. split; [reflexivity|]. split; [now left|].
    split; [intros _; now apply in_list_In|reflexivity].
  - exists [k]. split; [reflexivity|]. split; [now right|].
    split; [discriminate|]. intros H. apply in_list_In in H. congruence.
Qed.

(** X17: when the result is a dictionary whose ["images"] value has a
    length (or which has no such key), [_cache_search_results] returns
    without raising; afterwards the entry under the key of the query
    parameters holds that value, its length as [total_count], the clock
    reading, and the query and filters read from the parameters with [None]
    for those left out; the entry of every other key, the order of the keys
    already there, the tool map and the time to live are as before, and the
    cache has at most one key more, none when the key was there. *)
Theorem X17_cache_write
    (now : Z) (query_params d : dict json) (n : Z) (self : GalleryAgent) :
  Json.len (get_default "images" (JList []) d) = Ok n ->
  exists self',
    _cache_search_results now query_params (JDict d) self = (Ok tt, self')
    /\ tool_map self' = tool_map self
    /\ cache_ttl_minutes self' = cache_ttl_minutes self
    /\ (exists e,
          lookup (cache_key query_params) (search_cache self') = Some e
          /\ CacheEntry.full_images e = get_default "images" (JList []) d
          /\ CacheEntry.total_count e = n
          /\ CacheEntry.timestamp e = now
          /\ CacheEntry.pagination e = get_default "pagination" (JDict []) d
          /\ CacheEntry.query e = get_default "query" JNull query_params
          /\ Json.get "location" (CacheEntry.filters e)
             = Ok (get_default "location" JNull query_params)
          /\ Json.get "tags" (CacheEntry.filters e)
             = Ok (get_default "tags" JNull query_params)
          /\ Json.get "quality" (CacheEntry.filters e)
             = Ok (get_default "quality" JNull query_params))
    /\ (forall k, k <> cache_key query_params ->
          lookup k (search_cache self') = lookup k (search_cache self))
    /\ (exists rest,
          keys (search_cache self') = keys (search_cache self) ++ rest
          /\ (rest = [] \/ rest = [cache_key query_params])
          /\ (rest = [] <-> In (cache_key query_params) (keys (search_cache self)))).
Proof.
  intros Hlen. rewrite cache_search_results_run, Hlen.
  eexists. split; [reflexivity|]. cbn [tool_map cache_ttl_minutes search_cache set_search_cache].
  split; [reflexivity|]. split; [reflexivity|]. split; [|split].
  - eexists. split.
    + rewrite lookup_setitem, String.eqb_refl. reflexivity.
    + repeat split; reflexivity.
  - intros k Hk. rewrite lookup_setitem. apply String.eqb_neq in Hk. now rewrite Hk.
  - apply keys_setitem_prefix.
Qed.

Lemma X17_cache_write_witness :
  exists self',
    _cache_search_results 7 [("query", JStr "beach")]
      (JDict [("images", JList [record_001; record_002])]) Seed.agent = (Ok tt, self')
    /\ option_map CacheEntry.total_count
         (lookup (cache_key [("query", JStr "beach")]) (search_cache self')) = Some 2.
Proof.
  destruct (X17_cache_write 7 [("query", JStr "beach")]
              [("images", JList [record_001; record_002])] 2 Seed.agent eq_refl)
    as (self' & Hrun & _ & _ & (e & He & _ & Hn & _) & _).
  exists self'. split; [exact Hrun|]. rewrite He. cbn. now rewrite Hn.
Defined.

(** X18: [_cache_search_results] changes nothing when it raises: a result
    that is not a dictionary (a string that was not JSON, a list, a number)
    raises [AttributeError], a dictionary whose ["images"] value is a
    number, a boolean or [None] raises [TypeError], and the agent is left as
    it was.  Served through [call_tool] under the name of the paginated
    search, a tool with such a result yields the exception as the call's
    output, the store is as the tool left it and the agent as it was. *)
Theorem X18_failed_cache_write_changes_nothing
    (now : Z) (query_params : dict json) (result_data : json) (self : GalleryAgent) :
  (is_dict result_data = false ->
   _cache_search_results now query_params result_data self = (Raise AttributeError, self))
  /\ (forall d,
        result_data = JDict d ->
        Json.len (get_default "images" (JList []) d) = Raise TypeError ->
        _cache_search_results now query_params result_data self = (Raise TypeError, self))
  /\ (forall e, fst (_cache_search_results now query_params result_data self) = Raise e ->
                snd (_cache_search_results now query_params result_data self) = self)
  /\ (forall (tool : Tool) (w : World) e,
        self = Agent.self w ->
        lookup search_name (tool_map self) = Some tool ->
        fst (invoke tool query_params (Agent.SAMPLE_IMAGES w)) = Ok result_data ->
        fst (_cache_search_results now query_params result_data self) = Raise e ->
        call_tool now search_name query_params w
        = (Ok (Some (Raise e)),
           mkWorld (snd (invoke tool query_params (Agent.SAMPLE_IMAGES w))) self)).
Proof.
  split; [|split; [|split]].
  - intros Hd. rewrite cache_search_results_run.
    destruct result_data; try reflexivity. discriminate.
  - intros d -> Hlen. now rewrite cache_search_results_run, Hlen.
  - intros e. rewrite cache_search_results_run.
    destruct result_data; try reflexivity.
    destruct (Json.len _); [discriminate|reflexivity].
  - intros tool [store ag] e -> Htool Hinv Hraise.
    cbn [Agent.self Agent.SAMPLE_IMAGES] in *.
    unfold call_tool. unfold Py.bind at 1. unfold on_agent at 1, Py.get at 1.
    cbn [Agent.self Agent.SAMPLE_IMAGES]. rewrite Htool.
    unfold Py.bind, try_except, on_store, on_agent, ret.
    cbn [Agent.self Agent.SAMPLE_IMAGES].
    destruct (invoke tool query_params store) as [r st].
    cbn [fst snd] in *. subst r.
    change (String.eqb search_name "search_images_paginated") with true.
    cbv beta iota. cbn [Agent.self Agent.SAMPLE_IMAGES].
    destruct (_cache_search_results now query_params result_data ag)
      as [r ag'] eqn:Ec.
    cbn [fst] in Hraise. subst r.
    assert (Hag : ag' = ag).
    { rewrite cache_search_results_run in Ec.
      destruct result_data; try (now injection Ec as _ <-).
      destruct (Json.len _); [discriminate|]. now injection Ec as _ <-. }
    rewrite Hag. reflexivity.
Qed.

Lemma max_by_unique {A} (key : A -> Z) (E : A) (l : list A) (best : A) :
  (forall x, In x (best :: l) -> x = E \/ key x < key E) ->
  In E (best :: l) ->
  max_by key best l = E.
Proof.
  revert best. induction l as [|x l IH]; intros best Hall Hin.
  - destruct Hin as [->|[]]. reflexivity.
  - cbn [max_by]. apply IH.
    + intros y [<-|Hy].
      * destruct (Z.ltb_spec (key best) (key x)).
        -- apply Hall. right; now left.
        -- apply Hall. now left.
      * apply Hall. right; now right.
    + destruct Hin as [->|[->|Hin]].
      * destruct (Z.ltb_spec (key E) (key x)) as [Hlt|Hge]; [|now left].
        destruct (Hall x (or_intror (or_introl eq_refl))) as [->|Hx]; [now left|lia].
      * destruct (Z.ltb_spec (key best) (key E)) as [Hlt|Hge]; [now left|].
        destruct (Hall best (or_introl eq_refl)) as [->|Hx]; [now left|lia].
      * now right.
Qed.

Lemma last_search_after_write (self : GalleryAgent) (k : string) (E : CacheEntry.t)
    (now' : Z) :
  0 < cache_ttl_minutes self <= 134217728 ->
  Forall (fun e => CacheEntry.timestamp e < CacheEntry.timestamp E)
         (values (search_cache self)) ->
  let self' := set_search_cache (setitem k E (search_cache self)) self in
  _get_last_search_results now' self'
  = (Ok (if now' - CacheEntry.timestamp E <? ttl_microseconds self
         then Some E else None), self').
Proof.
  intros Httl Hold self'. rewrite get_last_search_results_run. f_equal. f_equal.
  assert (Hv : forall x, In x (valid_entries self' now') ->
                         x = E \/ CacheEntry.timestamp x < CacheEntry.timestamp E).
  { intros x Hx. apply filter_In in Hx. destruct Hx as [Hx _].
    apply values_setitem_In in Hx. destruct Hx as [->|Hx]; [now left|].
    right. rewrite Forall_forall in Hold. apply Hold in Hx. exact Hx. }
  destruct (Z.ltb_spec (now' - CacheEntry.timestamp E) (ttl_microseconds self))
    as [Hlt|Hge].
  - assert (HE : In E (valid_entries self' now')).
    { apply filter_In. split; [apply values_setitem_new|].
      apply is_cache_valid_spec; [exact Httl|exact Hlt]. }
    destruct (valid_entries self' now') as [|c cs]; [destruct HE|].
    f_equal. now apply max_by_unique.
  - assert (Hnone : forall x, ~ In x (valid_entries self' now')).
    { intros x Hx. pose proof (Hv x Hx) as Hts.
      apply filter_In in Hx. destruct Hx as [_ Hx].
      apply is_cache_valid_spec in Hx; [|exact Httl].
      change (ttl_microseconds self') with (ttl_microseconds self) in Hx.
      destruct Hts as [->|Hts]; lia. }
    destruct (valid_entries self' now') as [|c cs]; [reflexivity|].
    destruct (Hnone c (or_introl eq_refl)).
Qed.

(** X19: reading the last search after a write gives what was written.
    When every entry already in the cache is older than the clock reading
    of a write of [_cache_search_results], [_get_last_search_results]
    returns the entry of that write as long as less than the time to live
    has passed since, and [None] from then on; the time to live is one of
    up to [2^27] minutes, for which the rounding of the elapsed minutes does
    not show. *)
Theorem X19_last_search_is_the_latest_write
    (now now' : Z) (query_params d : dict json) (n : Z) (self : GalleryAgent) :
  0 < cache_ttl_minutes self <= 134217728 ->
  Json.len (get_default "images" (JList []) d) = Ok n ->
  Forall (fun e => CacheEntry.timestamp e < now) (values (search_cache self)) ->
  exists self',
    _cache_search_results now query_params (JDict d) self = (Ok tt, self')
    /\ _get_last_search_results now' self'
       = (Ok (if now' - now <? ttl_microseconds self
              then Some (stored_entry now query_params
                           (get_default "images" (JList []) d) n
                           (get_default "pagination" (JDict []) d))
              else None), self').
Proof.
  intros Httl Hlen Hold. rewrite cache_search_results_run, Hlen.
  eexists. split; [reflexivity|].
  apply (last_search_after_write self (cache_key query_params)
           (stored_entry now query_params (get_default "images" (JList []) d) n
              (get_default "pagination" (JDict []) d)) now').
  - exact Httl.
  - exact Hold.
Qed.

Lemma X19_last_search_is_the_latest_write_witness :
  exists self' e,
    _cache_search_results 7 [("query", JStr "beach")]
      (JDict [("images", JList [record_001; record_002])]) Seed.agent = (Ok tt, self')
    /\ _get_last_search_results 8 self' = (Ok (Some e), self')
    /\ CacheEntry.total_count e = 2.
Proof.
  destruct (X19_last_search_is_the_latest_write 7 8 [("query", JStr "beach")]
              [("images", JList [record_001; record_002])] 2 Seed.agent
              ltac:(cbn; lia) eq_refl (Forall_nil _))
    as (self' & Hrun & Hlast).
  exists self'. eexists. split; [exact Hrun|]. split; [exact Hlast|reflexivity].
Defined.

(** X20: looking records up by id after a write gives what was written.
    On an agent whose cache is empty, after [_cache_search_results] has
    stored a result whose ["images"] is a list of dictionaries,
    [_get_cached_images] returns the records of that list whose id is among
    the ids asked for, in the order of the list, as long as less than the
    time to live has passed since the write, and the empty list from then
    on; the time to live is one of up to [2^27] minutes. *)
Theorem X20_cached_records_are_found_by_id
    (now now' : Z) (query_params d : dict json) (imgs : list json)
    (image_ids : list string) (self : GalleryAgent) :
  0 < cache_ttl_minutes self <= 134217728 ->
  search_cache self = [] ->
  get_default "images" (JList []) d = JList imgs ->
  forallb is_dict imgs = true ->
  exists self',
    _cache_search_results now query_params (JDict d) self = (Ok tt, self')
    /\ option_map CacheEntry.total_count
         (lookup (cache_key query_params) (search_cache self'))
       = Some (Py.len imgs)
    /\ _get_cached_images now' image_ids self'
       = (Ok (if now' - now <? ttl_microseconds self
              then filter (has_id_in image_ids) imgs
              else []), self').
Proof.
  intros Httl Hempty Himgs Hdict. rewrite cache_search_results_run, Himgs, Hempty.
  cbn [Json.len setitem]. eexists. split; [reflexivity|].
  cbn [search_cache set_search_cache lookup]. rewrite String.eqb_refl.
  split; [reflexivity|].
  unfold _get_cached_images, Py.bind, Py.get.
  cbn [search_cache set_search_cache values map snd].
  rewrite lookup_outer_loop.
  2: { constructor; [|constructor]. intros _. unfold well_typed_entry, stored_entry.
       cbn [CacheEntry.full_images]. exact Hdict. }
  cbn [app filter stored_entry CacheEntry.timestamp].
  unfold stored_entry. cbn [CacheEntry.timestamp].
  destruct (Z.ltb_spec (now' - now) (ttl_microseconds self)) as [Hlt|Hge].
  - replace (_is_cache_valid _ now' now) with true.
    2: { symmetry. apply is_cache_valid_spec; [exact Httl|exact Hlt]. }
    cbn [flat_map entry_images CacheEntry.full_images]. now rewrite app_nil_r.
  - replace (_is_cache_valid _ now' now) with false.
    2: { symmetry. apply is_cache_valid_false; [exact Httl|exact Hge]. }
    reflexivity.
Qed.

Lemma X20_cached_records_are_found_by_id_witness :
  exists self',
    _cache_search_results 7 [("query", JStr "beach")]
      (JDict [("images", JList [record_001; record_002])]) Seed.agent = (Ok tt, self')
    /\ _get_cached_images 8 ["img_002"] self' = (Ok [record_002], self').
Proof.
  destruct (X20_cached_records_are_found_by_id 7 8 [("query", JStr "beach")]
              [("images", JList [record_001; record_002])] [record_001; record_002]
              ["img_002"] Seed.agent ltac:(cbn; lia) eq_refl eq_refl eq_refl)
    as (self' & Hrun & _ & Hget).
  exists self'. split; [exact Hrun|exact Hget].
Defined.

(** X21: an entry that has expired stays expired.  For clock readings
    [now <= now'], an entry valid at [now'] is valid at [now], the entries
    a read at [now'] takes into account are among those of a read at [now],
    and when [_get_last_search_results] finds nothing at [now] it finds
    nothing at [now'] on the same cache. *)
Theorem X21_expired_entries_stay_expired (self : GalleryAgent) (now now' : Z) :
  now <= now' ->
  (forall T, _is_cache_valid self now' T = true -> _is_cache_valid self now T = true)
  /\ incl (valid_entries self now') (valid_entries self now)
  /\ (_get_last_search_results now self = (Ok None, self) ->
      _get_last_search_results now' self = (Ok None, self)).
Proof.
  intros Hle.
  assert (Hmono : forall T, _is_cache_valid self now' T = true ->
                            _is_cache_valid self now T = true).
  { intros T H. exact (is_cache_valid_earlier self now now' T Hle H). }
  assert (Hincl : incl (valid_entries self now') (valid_entries self now)).
  { intros e He. apply filter_In in He. destruct He as [Hin Hv].
    apply filter_In. split; [exact Hin|now apply Hmono]. }
  split; [exact Hmono|]. split; [exact Hincl|].
  rewrite !get_last_search_results_run. intros H.
  destruct (valid_entries self now) as [|c cs]; [|discriminate].
  destruct (valid_entries self now') as [|c' cs']; [reflexivity|].
  destruct (Hincl c' (or_introl eq_refl)).
Qed.

Lemma X21_expired_entries_stay_expired_witness :
  _is_cache_valid Seed.agent 1800000000 0 = false
  /\ (_is_cache_valid Seed.agent 1800000001 0 = true ->
      _is_cache_valid Seed.agent 1800000000 0 = true).
Proof.
  split; [vm_compute; reflexivity|].
  destruct (X21_expired_entries_stay_expired Seed.agent 1800000000 1800000001
              ltac:(lia)) as (H & _). apply H.
Defined.

(** ** Serving tool calls *)

(** X22: only calls of the paginated search touch the agent.  A call of a
    name that is not in the tool map is skipped: it has no output and the
    world is as before.  A call of a registered tool of another name than
    ["search_images_paginated"] never raises: its output is the tool's
    result, or the exception the tool raised, the store is as the tool left
    it, and the agent, with its cache, is as before, so that both reads of
    the cache answer after the call as before it. *)
Theorem X22_only_search_calls_touch_the_agent
    (now : Z) (tool_name : string) (tool_input : dict json) (w : World) :
  (lookup tool_name (tool_map (Agent.self w)) = None ->
   call_tool now tool_name tool_input w = (Ok None, w))
  /\ (forall tool,
        lookup tool_name (tool_map (Agent.self w)) = Some tool ->
        tool_name <> search_name ->
        exists w',
          call_tool now tool_name tool_input w
          = (Ok (Some (fst (invoke tool tool_input (Agent.SAMPLE_IMAGES w)))), w')
          /\ Agent.SAMPLE_IMAGES w' = snd (invoke tool tool_input (Agent.SAMPLE_IMAGES w))
          /\ Agent.self w' = Agent.self w
          /\ (forall t, _get_last_search_results t (Agent.self w')
                        = _get_last_search_results t (Agent.self w))
          /\ (forall t ids, _get_cached_images t ids (Agent.self w')
                            = _get_cached_images t ids (Agent.self w))).
Proof.
  split.
  - intros Hnone. unfold call_tool, Py.bind, on_agent, Py.get, ret.
    rewrite Hnone. destruct w; reflexivity.
  - intros tool Htool Hname. destruct w as [store ag].
    cbn [Agent.self Agent.SAMPLE_IMAGES] in *.
    unfold call_tool. unfold Py.bind at 1. unfold on_agent at 1, Py.get at 1.
    cbn [Agent.self Agent.SAMPLE_IMAGES]. rewrite Htool.
    unfold Py.bind, try_except, on_store, on_agent, ret.
    cbn [Agent.self Agent.SAMPLE_IMAGES].
    apply String.eqb_neq in Hname. unfold search_name in Hname. rewrite Hname.
    destruct (invoke tool tool_input store) as [[a|e] st]; cbn [fst snd].
    + eexists. split; [reflexivity|]. repeat split; reflexivity.
    + eexists. split; [reflexivity|]. repeat split; reflexivity.
Qed.

Lemma X22_only_search_calls_touch_the_agent_witness :
  call_tool 0 "delete_images" [] Seed.world = (Ok None, Seed.world).
Proof.
  apply (X22_only_search_calls_touch_the_agent 0 "delete_images" [] Seed.world).
  reflexivity.
Defined.

(** ** The messages for the model *)

Lemma history_loop (history : list HistoryEntry) (messages : list BaseMessage) :
  fold_left history_step history messages = messages ++ map to_message history.
Proof.
  revert messages. induction history as [|msg history IH]; intros messages.
  - cbn. now rewrite app_nil_r.
  - cbn [fold_left map]. rewrite IH. unfold history_step, to_message.
    destruct (String.eqb (role msg) "user"); now rewrite <- app_assoc.
Qed.

Lemma create_messages_run (repr_text : json -> string) (now : Z)
    (history : list HistoryEntry) (self : GalleryAgent) :
  _create_messages repr_text now history self
  = (Ok (match fst (_get_last_search_results now self) with
         | Ok (Some e) => [SystemMessage (search_context repr_text e)]
         | _ => []
         end ++ map to_message history), self).
Proof.
  unfold _create_messages, Py.bind, ret. rewrite get_last_search_results_run.
  cbn [fst]. rewrite history_loop. reflexivity.
Qed.

Lemma search_context_results (repr_text : json -> string) (e : CacheEntry.t) :
  contains ("- Results: " ++ str_of_int (CacheEntry.total_count e) ++ " images found")
           (search_context repr_text e).
Proof.
  exists (nl ++ "Note: You have access to previously searched images:" ++ nl
          ++ "- Query: " ++ String dquote (py_str repr_text (CacheEntry.query e))
          ++ String dquote nl)%string.
  eexists. unfold search_context.
  rewrite !append_assoc. reflexivity.
Qed.

(** X23: [_create_messages] never raises and leaves the agent as it is.
    The messages are the conversation history in its order, an entry of
    role ["user"] as a [HumanMessage] and an entry of any other role as an
    [AIMessage], each with the entry's content; before them stands one
    [SystemMessage], the note about the last search, exactly when the cache
    holds an entry that is still valid, and the note is written from the
    entry [_get_last_search_results] returns and shows its [total_count]. *)
Theorem X23_messages_follow_the_history
    (repr_text : json -> string) (now : Z) (history : list HistoryEntry)
    (self : GalleryAgent) :
  exists note,
    _create_messages repr_text now history self
    = (Ok (note ++ map to_message history), self)
    /\ (note = [] <->
        forall e, In e (values (search_cache self)) ->
                  _is_cache_valid self now (CacheEntry.timestamp e) = false)
    /\ (note <> [] ->
        exists e,
          _get_last_search_results now self = (Ok (Some e), self)
          /\ note = [SystemMessage (search_context repr_text e)]
          /\ contains ("- Results: " ++ str_of_int (CacheEntry.total_count e)
                       ++ " images found")
                      (search_context repr_text e))
    /\ (forall i msg, nth_error history i = Some msg ->
          nth_error (note ++ map to_message history) (List.length note + i)
          = Some (if String.eqb (role msg) "user"
                  then HumanMessage (content msg)
                  else AIMessage (content msg))).
Proof.
  rewrite create_messages_run, get_last_search_results_run. cbn [fst].
  eexists. split; [reflexivity|]. split; [|split].
  - unfold valid_entries.
    destruct (filter _ (values (search_cache self))) as [|c cs] eqn:Ef.
    + split; [|reflexivity]. intros _ e He.
      destruct (_is_cache_valid self now (CacheEntry.timestamp e)) eqn:Ev; [|reflexivity].
      assert (Hin : In e (filter (fun e => _is_cache_valid self now (CacheEntry.timestamp e))
                                 (values (search_cache self))))
        by (apply filter_In; now split).
      rewrite Ef in Hin. destruct Hin.
    + split; [discriminate|]. intros Hall. exfalso.
      assert (Hin : In c (filter (fun e => _is_cache_valid self now (CacheEntry.timestamp e))
                                 (values (search_cache self))))
        by (rewrite Ef; now left).
      apply filter_In in Hin. destruct Hin as [Hin Hv]. rewrite (Hall c Hin) in Hv.
      discriminate.
  - destruct (valid_entries self now) as [|c cs]; [intros H; now destruct H|].
    intros _. eexists. split; [reflexivity|]. split; [reflexivity|].
    apply search_context_results.
  - intros i msg Hi. rewrite nth_error_app2 by lia.
    replace (_ + i - _)%nat with i by lia.
    rewrite nth_error_map, Hi. reflexivity.
Qed.

(** X24: the note after a search of the repository's own tool always says
    that no image was found.  When the agent serves a call of the paginated
    search that the binder accepts and that does not raise, at a clock
    reading later than those of the entries already cached, then, as long
    as less than the time to live has passed, [_create_messages] opens with
    the note written from the entry of that call, whose [total_count] is 0
    whatever number of records the search found; the note says
    [- Results: 0 images found].  The time to live is one of up to [2^27]
    minutes. *)
Theorem X24_note_after_a_search_reports_no_images
    (bind_args : dict json -> result SearchArgs.t) (repr_text : json -> string)
    (now now' : Z) (tool_input : dict json) (a : SearchArgs.t) (L : SearchLocals)
    (history : list HistoryEntry) (w : World) :
  0 < cache_ttl_minutes (Agent.self w) <= 134217728 ->
  lookup search_name (tool_map (Agent.self w)) = Some (search_tool bind_args) ->
  bind_args tool_input = Ok a ->
  search_locals (Agent.SAMPLE_IMAGES w) (SearchArgs.query a) (SearchArgs.location a)
    (SearchArgs.tags a) (SearchArgs.quality a) (SearchArgs.page a)
    (SearchArgs.per_page a) = Ok L ->
  Forall (fun e => CacheEntry.timestamp e < now) (values (search_cache (Agent.self w))) ->
  now' - now < ttl_microseconds (Agent.self w) ->
  exists w' e,
    call_tool now search_name tool_input w
    = (Ok (Some (Ok (search_response L (SearchArgs.page a)))), w')
    /\ _create_messages repr_text now' history (Agent.self w')
       = (Ok (SystemMessage (search_context repr_text e) :: map to_message history),
          Agent.self w')
    /\ CacheEntry.total_count e = 0
    /\ CacheEntry.query e = get_default "query" JNull tool_input
    /\ contains "- Results: 0 images found" (search_context repr_text e).
Proof.
  intros Httl Htool Hbind Hloc Hold Hlt.
  rewrite (search_call_run bind_args now tool_input w Htool), Hbind, Hloc.
  do 2 eexists. split; [reflexivity|]. cbn [Agent.self].
  rewrite create_messages_run.
  rewrite (last_search_after_write (Agent.self w) (cache_key tool_input) _ now' Httl).
  2: { exact Hold. }
  cbn [CacheEntry.timestamp stored_entry fst].
  unfold stored_entry at 1. cbn [CacheEntry.timestamp].
  destruct (Z.ltb_spec (now' - now) (ttl_microseconds (Agent.self w))); [|lia].
  split; [reflexivity|]. split; [reflexivity|]. split; [reflexivity|].
  apply (search_context_results repr_text
           (stored_entry now tool_input (JList []) 0 _)).
Qed.

Lemma X24_note_after_a_search_reports_no_images_witness :
  exists L w' e,
    search_locals Seed.SAMPLE_IMAGES "beach" None None None 1 5 = Ok L
    /\ total_count L = 3
    /\ call_tool 7 search_name [("query", JStr "beach")] Seed.world
       = (Ok (Some (Ok (search_response L 1))), w')
    /\ _create_messages (fun _ => "?"%string) 8 [] (Agent.self w')
       = (Ok [SystemMessage (search_context (fun _ => "?"%string) e)], Agent.self w')
    /\ CacheEntry.total_count e = 0.
Proof.
  destruct (search_locals Seed.SAMPLE_IMAGES "beach" None None None 1 5) as [L|ex] eqn:HL;
    [|discriminate HL].
  destruct (X24_note_after_a_search_reports_no_images Seed.bind_search_args
              (fun _ => "?"%string) 7 8 [("query", JStr "beach")]
              (SearchArgs.mk "beach" None None None 1 5) L
              [] Seed.world ltac:(cbn; lia) eq_refl eq_refl HL (Forall_nil _) eq_refl)
    as (w' & e & Hcall & Hmsg & Hn & _).
  exists L, w', e. split; [reflexivity|].
  split; [injection HL as <-; reflexivity|].
  split; [exact Hcall|]. split; [exact Hmsg|exact Hn].
Defined.

(** ** Building the agent *)

Lemma find_app {A} (p : A -> bool) (l1 l2 : list A) :
  find p (l1 ++ l2) = match find p l1 with Some x => Some x | None => find p l2 end.
Proof.
  induction l1 as [|x l1 IH]; cbn; [reflexivity|]. destruct (p x); [reflexivity|exact IH].
Qed.

Lemma tool_map_lookup (tools : list Tool) (m : dict Tool) (n : string) :
  lookup n (fold_left (fun m tool => setitem (name tool) tool m) tools m)
  = match find (fun t => String.eqb (name t) n) (rev tools) with
    | Some t => Some t
    | None => lookup n m
    end.
Proof.
  revert m. induction tools as [|t tools IH]; intros m; [reflexivity|].
  cbn [fold_left rev]. rewrite IH, find_app.
  destruct (find _ (rev tools)); [reflexivity|].
  cbn [find]. rewrite lookup_setitem, String.eqb_sym.
  destruct (String.eqb (name t) n); reflexivity.
Qed.

Lemma tool_map_keys (tools : list Tool) (m : dict Tool) :
  (NoDup (keys m) ->
   NoDup (keys (fold_left (fun m tool => setitem (name tool) tool m) tools m)))
  /\ (forall n, In n (keys (fold_left (fun m tool => setitem (name tool) tool m) tools m))
                <-> In n (keys m) \/ In n (map name tools)).
Proof.
  revert m. induction tools as [|t tools IH]; intros m.
  - cbn. split; [trivial|]. intros n. tauto.
  - cbn [fold_left map]. destruct (IH (setitem (name t) t m)) as [Hnd Hin]. split.
    + intros H. apply Hnd. now apply NoDup_keys_setitem.
    + intros n. rewrite Hin, in_keys_setitem. cbn [In]. split.
      * intros [[->|H]|H]; auto.
      * intros [H|[<-|H]]; auto.
Qed.

(** X25: [__init__] builds the tool map over the tools given, or over the
    default tools when none or an empty list is given.  The map has each
    name once, its names are the names of these tools, and a name answers
    with the last tool of that name in the list; the cache is empty and the
    time to live 30 minutes, so that on the new agent
    [_get_last_search_results] returns [None] and [_get_cached_images] the
    empty list at every clock reading. *)
Theorem X25_new_agent
    (GALLERY_TOOLS_OPTIMIZED : list Tool) (tools : option (list Tool)) :
  let self := __init__ GALLERY_TOOLS_OPTIMIZED tools in
  exists used,
    (used = match tools with
            | Some given => if Nat.eqb (List.length given) 0
                            then GALLERY_TOOLS_OPTIMIZED else given
            | None => GALLERY_TOOLS_OPTIMIZED
            end)
    /\ NoDup (keys (tool_map self))
    /\ (forall n, In n (keys (tool_map self)) <-> In n (map name used))
    /\ (forall n, lookup n (tool_map self)
                  = find (fun t => String.eqb (name t) n) (rev used))
    /\ search_cache self = []
    /\ cache_ttl_minutes self = 30
    /\ (forall now, _get_last_search_results now self = (Ok None, self))
    /\ (forall now image_ids, _get_cached_images now image_ids self = (Ok [], self)).
Proof.
  intros self. eexists. split; [reflexivity|].
  assert (Hmap : tool_map self
                 = fold_left (fun m tool => setitem (name tool) tool m)
                     match tools with
                     | Some given => if Nat.eqb (List.length given) 0
                                     then GALLERY_TOOLS_OPTIMIZED else given
                     | None => GALLERY_TOOLS_OPTIMIZED
                     end []).
  { unfold self, __init__. destruct tools as [[|t ts]|]; reflexivity. }
  rewrite Hmap. split; [|split; [|split]].
  - apply tool_map_keys. constructor.
  - intros n. rewrite (proj2 (tool_map_keys _ [])). cbn [keys map In]. tauto.
  - intros n. rewrite tool_map_lookup. cbn [lookup].
    destruct (find _ _); reflexivity.
  - repeat split; reflexivity.
Qed.

(** X26: the action recorded for a served call always passes the validation
    of [AgentAction]: whatever the tool is called, the type looked up in
    [action_type_map], with ["search"] for a name the table does not have,
    is one of the five values the model admits. *)
Theorem X26_recorded_action_type_is_admitted (tool_name : string) :
  In (action_type tool_name) AgentAction_types
  /\ AgentAction (action_type tool_name) = Ok (action_type tool_name)
  /\ (~ In tool_name (keys action_type_map) -> action_type tool_name = "search"%string).
Proof.
  assert (H : In (action_type tool_name) AgentAction_types).
  { unfold action_type, get_default, action_type_map. cbn [lookup].
    repeat match goal with
           | |- context [String.eqb tool_name ?s] => destruct (String.eqb tool_name s)
           end; cbn; tauto. }
  split; [exact H|]. split.
  - unfold AgentAction. apply in_list_In in H. now rewrite H.
  - intros Hn. unfold action_type, get_default.
    destruct (lookup tool_name action_type_map) as [v|] eqn:E; [|reflexivity].
    exfalso. apply Hn. clear Hn. revert E. unfold action_type_map. cbn [lookup keys map fst In].
    repeat match goal with
           | |- context [String.eqb tool_name ?s] =>
               destruct (String.eqb_spec tool_name s); [subst; tauto|]
           end.
    discriminate.
Qed.
